(** * wsgidav.http_authenticator: HTTP basic and digest authentication

    A shallow embedding of [src/wsgidav/http_authenticator.py] and the
    properties of its request gate, its digest validator, its header
    tokenizer and its digest computation.

    Conventions of the embedding.
    - The program is read as it runs under Python 3.  A [str] is a Rocq
      [string] whose characters are its code points.  A [string] holds
      code points below 256 only: the range of every value a WSGI
      server puts in [environ], which PEP 3333 defines as bytes decoded
      as ISO-8859-1.  On that range [lower], [upper], [strip] and the
      regular-expression class [\w] have the meaning Python 3 gives
      them for [str], which is the Unicode one.
    - A [bytes] object is a [string] too, its characters the bytes.
      [to_bytes] and [to_native] pass between text and bytes by UTF-8,
      as [wsgidav.compat] does under Python 3.
    - Text with a code point above 255 can come up in one place only,
      where basic credentials are decoded.  Such a run ends in
      [OutOfRange], which stands for no behaviour of the program; the
      other requests are those [in_scope] holds for.  The domain
      controller is taken to name realms within the range.
    - A [dict] with string keys ([environ], the parsed directives) is a
      [gmap string string].
    - Code that can raise returns a [result]: [Ok v] or [Raise e].
    - The collaborators reached through [self] (the domain controller,
      the next application) and the sources of time and randomness are
      explicit arguments. *)

From Stdlib Require Import ZArith Ascii String List Lia Bool DecimalString.
From stdpp Require Import gmap strings list fin_maps.
Import ListNotations.

Local Open Scope Z_scope.

(** ** Characters and strings *)

Definition Z_of_ascii (c : ascii) : Z := Z.of_nat (nat_of_ascii c).
Definition ascii_of_Z (z : Z) : ascii := ascii_of_nat (Z.to_nat z).

Definition bytes_of_string (s : string) : list Z :=
  map Z_of_ascii (list_ascii_of_string s).
Definition string_of_bytes (l : list Z) : string :=
  string_of_list_ascii (map ascii_of_Z l).

(** ** MD5 (RFC 1321), as [hashlib.md5] computes it *)

Module MD5.

Definition mask32 : Z := 0xffffffff.
Definition add32 (x y : Z) : Z := Z.land (x + y) mask32.
Definition not32 (x : Z) : Z := Z.lxor x mask32.
Definition rotl32 (x : Z) (n : Z) : Z :=
  Z.lor (Z.land (Z.shiftl x n) mask32) (Z.shiftr x (32 - n)).

Definition K : list Z :=
  [ 0xd76aa478; 0xe8c7b756; 0x242070db; 0xc1bdceee;
    0xf57c0faf; 0x4787c62a; 0xa8304613; 0xfd469501;
    0x698098d8; 0x8b44f7af; 0xffff5bb1; 0x895cd7be;
    0x6b901122; 0xfd987193; 0xa679438e; 0x49b40821;
    0xf61e2562; 0xc040b340; 0x265e5a51; 0xe9b6c7aa;
    0xd62f105d; 0x02441453; 0xd8a1e681; 0xe7d3fbc8;
    0x21e1cde6; 0xc33707d6; 0xf4d50d87; 0x455a14ed;
    0xa9e3e905; 0xfcefa3f8; 0x676f02d9; 0x8d2a4c8a;
    0xfffa3942; 0x8771f681; 0x6d9d6122; 0xfde5380c;
    0xa4beea44; 0x4bdecfa9; 0xf6bb4b60; 0xbebfbc70;
    0x289b7ec6; 0xeaa127fa; 0xd4ef3085; 0x04881d05;
    0xd9d4d039; 0xe6db99e5; 0x1fa27cf8; 0xc4ac5665;
    0xf4292244; 0x432aff97; 0xab9423a7; 0xfc93a039;
    0x655b59c3; 0x8f0ccc92; 0xffeff47d; 0x85845dd1;
    0x6fa87e4f; 0xfe2ce6e0; 0xa3014314; 0x4e0811a1;
    0xf7537e82; 0xbd3af235; 0x2ad7d2bb; 0xeb86d391 ].

Definition shifts : list Z :=
  [ 7; 12; 17; 22; 7; 12; 17; 22; 7; 12; 17; 22; 7; 12; 17; 22;
    5;  9; 14; 20; 5;  9; 14; 20; 5;  9; 14; 20; 5;  9; 14; 20;
    4; 11; 16; 23; 4; 11; 16; 23; 4; 11; 16; 23; 4; 11; 16; 23;
    6; 10; 15; 21; 6; 10; 15; 21; 6; 10; 15; 21; 6; 10; 15; 21 ].

Record state := State { sa : Z; sb : Z; sc : Z; sd : Z }.

Definition init : state :=
  State 0x67452301 0xefcdab89 0x98badcfe 0x10325476.

(** The message is followed by the byte 0x80, by zero bytes up to 56
    modulo 64, and by its length in bits as a 64-bit little-endian
    number. *)
Fixpoint le_bytes (n : nat) (z : Z) : list Z :=
  match n with
  | O => []
  | S n' => Z.land z 0xff :: le_bytes n' (Z.shiftr z 8)
  end.

Definition pad (msg : list Z) : list Z :=
  let len := Z.of_nat (length msg) in
  let zeros := Z.to_nat ((55 - len) mod 64) in
  msg ++ [0x80] ++ repeat 0 zeros ++ le_bytes 8 (Z.land (len * 8) 0xffffffffffffffff).

Fixpoint le_word (bs : list Z) : Z :=
  match bs with
  | [] => 0
  | b :: bs' => Z.lor b (Z.shiftl (le_word bs') 8)
  end.

Fixpoint words (n : nat) (bs : list Z) : list Z :=
  match n with
  | O => []
  | S n' => le_word (firstn 4 bs) :: words n' (skipn 4 bs)
  end.

Definition round (M : list Z) (st : state) (i : nat) : state :=
  let '(State a b c d) := st in
  let iz := Z.of_nat i in
  let '(f, g) :=
    if iz <? 16 then (Z.lor (Z.land b c) (Z.land (not32 b) d), iz)
    else if iz <? 32 then (Z.lor (Z.land d b) (Z.land (not32 d) c), (5 * iz + 1) mod 16)
    else if iz <? 48 then (Z.lxor (Z.lxor b c) d, (3 * iz + 5) mod 16)
    else (Z.lxor c (Z.lor b (not32 d)), (7 * iz) mod 16) in
  let f' := add32 (add32 (add32 f a) (nth i K 0)) (nth (Z.to_nat g) M 0) in
  State d (add32 b (rotl32 f' (nth i shifts 0))) b c.

Definition block (st : state) (bs : list Z) : state :=
  let M := words 16 bs in
  let st' := fold_left (round M) (seq 0 64) st in
  State (add32 (sa st) (sa st')) (add32 (sb st) (sb st'))
        (add32 (sc st) (sc st')) (add32 (sd st) (sd st')).

Fixpoint blocks (n : nat) (st : state) (bs : list Z) : state :=
  match n with
  | O => st
  | S n' => blocks n' (block st (firstn 64 bs)) (skipn 64 bs)
  end.

Definition digest (msg : list Z) : list Z :=
  let p := pad msg in
  let st := blocks (length p / 64)%nat init p in
  le_bytes 4 (sa st) ++ le_bytes 4 (sb st) ++ le_bytes 4 (sc st) ++ le_bytes 4 (sd st).

Definition hex_digit (z : Z) : ascii :=
  if z <? 10 then ascii_of_Z (48 + z) else ascii_of_Z (87 + z).

Fixpoint hex (bs : list Z) : string :=
  match bs with
  | [] => EmptyString
  | b :: bs' => String (hex_digit (Z.shiftr b 4)) (String (hex_digit (Z.land b 0xf)) (hex bs'))
  end.

(** [md5(data).hexdigest()] *)
Definition hexdigest (data : string) : string :=
  hex (digest (bytes_of_string data)).

End MD5.

(** ** Python string operations *)

Definition in_range (lo hi : Z) (c : ascii) : bool :=
  let z := Z_of_ascii c in (lo <=? z) && (z <=? hi).

(** The ASCII letters and digits. *)
Definition is_upper (c : ascii) : bool := in_range 65 90 c.
Definition is_lower (c : ascii) : bool := in_range 97 122 c.
Definition is_digit (c : ascii) : bool := in_range 48 57 c.

(** The letters and digits of Unicode from 128 to 255, for which
    [str.isalnum] holds: the ordinal indicators 170 and 186, the
    superscript digits 178, 179 and 185, the micro sign 181, the
    fractions 188 to 190, and the letters 192 to 255 but for the
    multiplication sign 215 and the division sign 247. *)
Definition is_latin1_alnum (c : ascii) : bool :=
  in_range 170 170 c || in_range 178 179 c || in_range 181 181 c
  || in_range 185 186 c || in_range 188 190 c
  || in_range 192 214 c || in_range 216 246 c || in_range 248 255 c.

(** The class [\w] of a [str] pattern: letters, digits and the
    underscore. *)
Definition is_word (c : ascii) : bool :=
  is_upper c || is_lower c || is_digit c || Ascii.eqb c "_" || is_latin1_alnum c.

(** The characters [str.strip()] removes, those for which [str.isspace]
    holds: the controls 9 to 13 and 28 to 31, the blank 32, the next-line
    control 133 and the no-break space 160. *)
Definition is_space (c : ascii) : bool :=
  in_range 9 13 c || in_range 28 32 c || in_range 133 133 c || in_range 160 160 c.

(** The double quote, character 34. *)
Definition dquote : ascii := Ascii false true false false false true false false.
Definition is_quote (c : ascii) : bool := Ascii.eqb c dquote.
Definition is_comma (c : ascii) : bool := Ascii.eqb c ",".

(** [c.lower()]: the capital letters, ASCII and 192 to 222 but for the
    multiplication sign 215, have their small letter 32 further; every
    other character is its own lower-case form. *)
Definition lower_char (c : ascii) : ascii :=
  if is_upper c || in_range 192 214 c || in_range 216 222 c
  then ascii_of_Z (Z_of_ascii c + 32) else c.

(** The code points of [c.upper()].  The small letters, ASCII and 224
    to 254 but for the division sign 247, have their capital 32 before.
    Three small letters have an upper-case form that is no single code
    point below 256: the micro sign 181 (the Greek capital mu, 924), the
    sharp s 223 (two letters S) and the y with diaeresis 255 (its
    capital, 376). *)
Definition upper_char (c : ascii) : list Z :=
  let z := Z_of_ascii c in
  if is_lower c || in_range 224 246 c || in_range 248 254 c then [z - 32]
  else if z =? 181 then [924]
  else if z =? 223 then [83; 83]
  else if z =? 255 then [376]
  else [z].

Fixpoint map_string (f : ascii -> ascii) (s : string) : string :=
  match s with
  | EmptyString => EmptyString
  | String c s' => String (f c) (map_string f s')
  end.

(** [s.lower()] *)
Definition lower : string -> string := map_string lower_char.

(** [s.upper()], as the list of its code points *)
Fixpoint upper (s : string) : list Z :=
  match s with
  | EmptyString => []
  | String c s' => upper_char c ++ upper s'
  end.

(** The code points of a text. *)
Definition code_points (s : string) : list Z := bytes_of_string s.

(** [a == b] for two lists of code points *)
Fixpoint points_eqb (a b : list Z) : bool :=
  match a, b with
  | [], [] => true
  | x :: a', y :: b' => (x =? y) && points_eqb a' b'
  | _, _ => false
  end.

(** [compat.to_bytes(s)] for a [str]: its UTF-8 encoding.  A code point
    below 128 is one byte, one from 128 to 255 is two. *)
Fixpoint to_bytes (s : string) : string :=
  match s with
  | EmptyString => EmptyString
  | String c s' =>
      let z := Z_of_ascii c in
      if z <? 128 then String c (to_bytes s')
      else String (ascii_of_Z (Z.lor 192 (Z.shiftr z 6)))
             (String (ascii_of_Z (Z.lor 128 (Z.land z 63))) (to_bytes s'))
  end.

(** A continuation byte of UTF-8. *)
Definition is_cont (b : Z) : bool := (128 <=? b) && (b <=? 191).

(** The second byte of a character of three or of four bytes: after the
    first bytes 224 and 240 the low values would make an encoding longer
    than needed, after 237 the high ones a surrogate, after 244 a code
    point above 1114111. *)
Definition second_of_three (b0 b1 : Z) : bool :=
  if b0 =? 224 then (160 <=? b1) && (b1 <=? 191)
  else if b0 =? 237 then (128 <=? b1) && (b1 <=? 159)
  else is_cont b1.

Definition second_of_four (b0 b1 : Z) : bool :=
  if b0 =? 240 then (144 <=? b1) && (b1 <=? 191)
  else if b0 =? 244 then (128 <=? b1) && (b1 <=? 143)
  else is_cont b1.

Definition cons_point (p : Z) (rest : option (list Z)) : option (list Z) :=
  match rest with
  | Some l => Some (p :: l)
  | None => None
  end.

(** The UTF-8 decoder of [bytes.decode]: the code points of the text
    [bs] holds, or [None] where the decoder raises.  The well-formed
    sequences only are accepted; the first bytes 128 to 193 and 245 to
    255 start none. *)
Fixpoint utf8_decode (bs : list Z) : option (list Z) :=
  match bs with
  | [] => Some []
  | b0 :: r0 =>
      if b0 <? 128 then cons_point b0 (utf8_decode r0)
      else if (194 <=? b0) && (b0 <=? 223) then
        match r0 with
        | b1 :: r1 =>
            if is_cont b1
            then cons_point (Z.lor (Z.shiftl (Z.land b0 31) 6) (Z.land b1 63))
                   (utf8_decode r1)
            else None
        | _ => None
        end
      else if (224 <=? b0) && (b0 <=? 239) then
        match r0 with
        | b1 :: b2 :: r2 =>
            if second_of_three b0 b1 && is_cont b2
            then cons_point
                   (Z.lor (Z.shiftl (Z.land b0 15) 12)
                      (Z.lor (Z.shiftl (Z.land b1 63) 6) (Z.land b2 63)))
                   (utf8_decode r2)
            else None
        | _ => None
        end
      else if (240 <=? b0) && (b0 <=? 244) then
        match r0 with
        | b1 :: b2 :: b3 :: r3 =>
            if second_of_four b0 b1 && is_cont b2 && is_cont b3
            then cons_point
                   (Z.lor (Z.shiftl (Z.land b0 7) 18)
                      (Z.lor (Z.shiftl (Z.land b1 63) 12)
                         (Z.lor (Z.shiftl (Z.land b2 63) 6) (Z.land b3 63))))
                   (utf8_decode r3)
            else None
        | _ => None
        end
      else None
  end.

Fixpoint lstrip (p : ascii -> bool) (s : string) : string :=
  match s with
  | EmptyString => EmptyString
  | String c s' => if p c then lstrip p s' else s
  end.

Fixpoint rstrip (p : ascii -> bool) (s : string) : string :=
  match s with
  | EmptyString => EmptyString
  | String c s' =>
      match rstrip p s' with
      | EmptyString => if p c then EmptyString else String c EmptyString
      | r => String c r
      end
  end.

Definition strip_chars (p : ascii -> bool) (s : string) : string :=
  rstrip p (lstrip p s).

(** [s.strip()], and [s.strip(q)] for [q] the one-character string
    holding a double quote *)
Definition strip : string -> string := strip_chars is_space.
Definition strip_quotes : string -> string := strip_chars is_quote.

(** [s.startswith(prefix)] *)
Definition startswith (s prefix : string) : bool := String.prefix prefix s.

(** [s[n:]] *)
Fixpoint drop_string (n : nat) (s : string) : string :=
  match n, s with
  | O, _ => s
  | S n', String _ s' => drop_string n' s'
  | S _, EmptyString => EmptyString
  end.

(** [s.split] at the first colon, at most once: [None] when [s] has no colon (the list then has
    one element), else the text before and after the first colon. *)
Fixpoint split_colon (s : string) : option (string * string) :=
  match s with
  | EmptyString => None
  | String c s' =>
      if Ascii.eqb c ":" then Some (EmptyString, s')
      else match split_colon s' with
           | Some (a, b) => Some (String c a, b)
           | None => None
           end
  end.

(** [s.replace] of two backslashes by one: every pair of backslashes,
    found from the left without overlap, becomes one backslash. *)
Fixpoint replace_double_backslash (s : string) : string :=
  match s with
  | EmptyString => EmptyString
  | String c s' =>
      match s' with
      | String c' s'' =>
          if Ascii.eqb c "\" && Ascii.eqb c' "\"
          then String "\" (replace_double_backslash s'')
          else String c (replace_double_backslash s')
      | EmptyString => String c EmptyString
      end
  end.

(** A value used as a condition: [None] and the empty string are
    false, every other string is true. *)
Definition truthy (v : option string) : bool :=
  match v with
  | Some (String _ _) => true
  | _ => false
  end.

(** [str(n)] *)
Definition str_of_nat (n : nat) : string :=
  NilEmpty.string_of_uint (Nat.to_uint n).

(** ** The regular expressions of [__init__] *)

(** The longest prefix of [s] made of characters in [p], and the rest. *)
Fixpoint span (p : ascii -> bool) (s : string) : string * string :=
  match s with
  | EmptyString => (EmptyString, EmptyString)
  | String c s' =>
      if p c then let '(a, b) := span p s' in (String c a, b)
      else (EmptyString, s)
  end.

Fixpoint contains_char (p : ascii -> bool) (s : string) : bool :=
  match s with
  | EmptyString => false
  | String c s' => p c || contains_char p s'
  end.

(** A match of a pattern at the start of a string: the captured groups
    and the length of the matched text. *)
Definition match_at := string -> option ((string * string) * nat).

(** [_header_parser] tried at the start of [s].  The pattern is: a
    group of one or more word characters, an equals sign, a group of
    any number of characters other than a comma, a comma.  Both
    repetitions are greedy and are followed by a character outside
    their class, so the longest runs are the only candidates. *)
Definition header_parser : match_at := fun s =>
  let '(key, r1) := span is_word s in
  match key, r1 with
  | String _ _, String c1 r2 =>
      if Ascii.eqb c1 "=" then
        let '(value, r3) := span (fun c => negb (is_comma c)) r2 in
        match r3 with
        | String _ _ =>
            Some ((key, value), (String.length key + 1 + String.length value + 1)%nat)
        | EmptyString => None
        end
      else None
  | _, _ => None
  end.

(** [_header_fix_parser] tried at the start of [s].  The pattern is: a
    group of one or more word characters, an equals sign, then a group
    made of a double quote, characters other than a double quote with
    at least one comma among them, and a double quote; then a comma.
    The second group includes both quotes.  Whichever comma the matcher
    settles on, the matched text is the same. *)
Definition header_fix_parser : match_at := fun s =>
  let '(key, r1) := span is_word s in
  match key, r1 with
  | String _ _, String c1 (String c2 r2) =>
      if Ascii.eqb c1 "=" && is_quote c2 then
        let '(inner, r3) := span (fun c => negb (is_quote c)) r2 in
        match r3 with
        | String _ (String c4 _) =>
            if contains_char is_comma inner && is_comma c4 then
              Some ((key, String dquote (inner +:+ String dquote EmptyString)),
                    (String.length key + 2 + String.length inner + 2)%nat)
            else None
        | _ => None
        end
      else None
  | _, _ => None
  end.

(** [pattern.findall(s)]: the matches from left to right, each search
    resuming where the previous match ended.  [skip] counts the
    characters of the current match still to pass over. *)
Fixpoint findall_from (m : match_at) (skip : nat) (s : string) : list (string * string) :=
  match s with
  | EmptyString => []
  | String _ s' =>
      match skip with
      | S k => findall_from m k s'
      | O =>
          match m s with
          | Some (groups, len) => groups :: findall_from m (len - 1) s'
          | None => findall_from m 0 s'
          end
      end
  end.

Definition findall (m : match_at) (s : string) : list (string * string) :=
  findall_from m 0 s.

(** [_header_method] (one or more word characters at the start of the
    text), [search] then [group(1)]: the word the header starts with,
    if any. *)
Definition header_method (s : string) : option string :=
  match fst (span is_word s) with
  | EmptyString => None
  | w => Some w
  end.


(** Headers in the examples are written with single quotes; [dq] turns
    each into a double quote. *)
Definition dq (s : string) : string :=
  map_string (fun c => if Ascii.eqb c "'" then dquote else c) s.


(** ** Base64, as [binascii] decodes and encodes it *)

Module Base64.

(** The value of a character of the alphabet; [None] for any other
    character.  The pad character is handled apart. *)
Definition value (c : ascii) : option Z :=
  let z := Z_of_ascii c in
  if is_upper c then Some (z - 65)
  else if is_lower c then Some (z - 71)
  else if is_digit c then Some (z + 4)
  else if Ascii.eqb c "+" then Some 62
  else if Ascii.eqb c "/" then Some 63
  else None.

Definition is_pad (c : ascii) : bool := Ascii.eqb c "=".

(** The next character of [s] that is in the alphabet or is the pad
    character. *)
Fixpoint next_valid (s : string) : option ascii :=
  match s with
  | EmptyString => None
  | String c s' =>
      if is_pad c then Some c
      else match value c with
           | Some _ => Some c
           | None => next_valid s'
           end
  end.

(** The decoding loop of [a2b_base64].  Characters outside the
    alphabet are skipped.  A pad character ends the input once at
    least two characters of the current group of four were read (with
    exactly two, only if the next valid character is a pad too); any
    other pad character is skipped.  Bits left over at the end of the
    input are an error ([None], for [binascii.Error]). *)
Fixpoint decode_loop (s : string) (quad_pos leftbits leftchar : Z) : option (list Z) :=
  match s with
  | EmptyString => if leftbits =? 0 then Some [] else None
  | String c s' =>
      if is_pad c then
        if (quad_pos <? 2)
           || ((quad_pos =? 2)
               && negb (match next_valid s' with Some p => is_pad p | None => false end))
        then decode_loop s' quad_pos leftbits leftchar
        else Some []
      else
        match value c with
        | None => decode_loop s' quad_pos leftbits leftchar
        | Some v =>
            let quad_pos' := Z.land (quad_pos + 1) 3 in
            let leftchar' := Z.lor (Z.shiftl leftchar 6) v in
            let leftbits' := leftbits + 6 in
            if 8 <=? leftbits' then
              let lb := leftbits' - 8 in
              match decode_loop s' quad_pos' lb (Z.land leftchar' (Z.shiftl 1 lb - 1)) with
              | Some out => Some (Z.land (Z.shiftr leftchar' lb) 0xff :: out)
              | None => None
              end
            else decode_loop s' quad_pos' leftbits' leftchar'
        end
  end.

(** [compat.base64_decodebytes(data)] *)
Definition decodebytes (data : string) : option string :=
  match decode_loop data 0 0 0 with
  | Some out => Some (string_of_bytes out)
  | None => None
  end.

Definition digit (v : Z) : ascii :=
  if v <? 26 then ascii_of_Z (65 + v)
  else if v <? 52 then ascii_of_Z (71 + v)
  else if v <? 62 then ascii_of_Z (v - 4)
  else if v =? 62 then "+"%char else "/"%char.

Fixpoint encode_loop (bs : list Z) : string :=
  match bs with
  | [] => EmptyString
  | [a] =>
      String (digit (Z.shiftr a 2))
        (String (digit (Z.shiftl (Z.land a 3) 4)) "==")
  | [a; b] =>
      String (digit (Z.shiftr a 2))
        (String (digit (Z.lor (Z.shiftl (Z.land a 3) 4) (Z.shiftr b 4)))
           (String (digit (Z.shiftl (Z.land b 15) 2)) "="))
  | a :: b :: c :: rest =>
      String (digit (Z.shiftr a 2))
        (String (digit (Z.lor (Z.shiftl (Z.land a 3) 4) (Z.shiftr b 4)))
           (String (digit (Z.lor (Z.shiftl (Z.land b 15) 2) (Z.shiftr c 6)))
              (String (digit (Z.land c 63)) (encode_loop rest))))
  end.

Definition encode (data : string) : string :=
  encode_loop (bytes_of_string data).

End Base64.

(** ** Results, requests and responses *)

(** The exceptions of the program.  [OutOfRange] is none of them: it
    marks a run in which a text with a code point above 255 comes up,
    which a [string] cannot hold; the embedding says nothing of such a
    run.  The only place is the decoding of basic credentials. *)
Inductive exn : Type :=
| KeyError (key : string)
| UnboundLocalError (name : string)
| TypeError
| ValueError
| BinasciiError
| UnicodeDecodeError
| OutOfRange.

Inductive result (A : Type) : Type :=
| Ok (a : A)
| Raise (e : exn).
Arguments Ok {A} a.
Arguments Raise {A} e.

Definition bind {A B : Type} (m : result A) (k : A -> result B) : result B :=
  match m with
  | Ok a => k a
  | Raise e => Raise e
  end.

Notation "'do' x <- m ; k" := (bind m (fun x => k))
  (at level 10, x name, m at level 100, k at level 200).

(** [compat.to_native(b)] for a [bytes] object: the text it holds in
    UTF-8. *)
Definition to_native (b : string) : result string :=
  match utf8_decode (bytes_of_string b) with
  | None => Raise UnicodeDecodeError
  | Some points =>
      if forallb (fun p => p <? 256) points then Ok (string_of_bytes points)
      else Raise OutOfRange
  end.

(** [d[key]] *)
Definition item (d : gmap string string) (key : string) : result string :=
  match d !! key with
  | Some v => Ok v
  | None => Raise (KeyError key)
  end.

(** The value of a local variable that is assigned on some paths only. *)
Definition local (name : string) (v : option string) : result string :=
  match v with
  | Some s => Ok s
  | None => Raise (UnboundLocalError name)
  end.

(** A value used where the code needs a string: [None] is refused
    there. *)
Definition as_str (v : option string) : result string :=
  match v with
  | Some s => Ok s
  | None => Raise TypeError
  end.

(** [a + b] where [b] may be [None] *)
Definition str_add (a : string) (b : option string) : result string :=
  match b with
  | Some s => Ok (a +:+ s)
  | None => Raise TypeError
  end.

(** What [start_response] and the returned body carry. *)
Record response : Type := Response {
  status : string;
  headers : list (string * string);
  body : list string
}.

(** What a call of the middleware does: it hands the request, with its
    [environ], to [next_app], or it answers itself. *)
Inductive outcome : Type :=
| Forward (environ : gmap string string)
| Respond (r : response).

(** The domain controller, as far as the authenticator calls it. *)
Record domain_controller : Type := {
  get_domain_realm : string -> gmap string string -> string;
  require_authentication : string -> gmap string string -> bool;
  is_realm_user : string -> string -> gmap string string -> bool;
  auth_domain_user : string -> string -> string -> gmap string string -> bool;
  compute_http_digest_a1 : string -> string -> string;
  supports_http_digest_auth : bool
}.

(** The settings [__init__] reads from [config]. *)
Record config : Type := {
  accept_basic : bool;
  accept_digest : bool;
  default_to_digest : bool;
  trusted_auth_header : option string
}.

(** The two module-level switches. *)
Record hotfixes : Type := {
  HOTFIX_WINXP_AcceptRootShareLogin : bool;
  HOTFIX_WIN_AcceptAnonymousOptions : bool
}.

(** The values the source gives them. *)
Definition source_hotfixes : hotfixes :=
  {| HOTFIX_WINXP_AcceptRootShareLogin := true;
     HOTFIX_WIN_AcceptAnonymousOptions := false |}.

(** What a call reads from the clock and the random generator:
    [str(time.time())], [hex(random.getrandbits(32))[2:]] and
    [util.get_rfc1123_time()]. *)
Record ambient : Type := {
  timekey : string;
  serverkey : string;
  rfc1123_time : string
}.

Definition newline : string := String (ascii_of_nat 10) EmptyString.

(** [HTTPAuthenticator.error_message] *)
Definition error_message : string :=
  newline +:+
  "        <html><head><title>401 Access not authorized</title></head>" +:+ newline +:+
  "        <body>" +:+ newline +:+
  "        <h1>401 Access not authorized</h1>" +:+ newline +:+
  "        </body>" +:+ newline +:+
  "        </html>" +:+ newline +:+
  "        ".

(** Modelled from the spec: [util.calc_hexdigest], which is not among
    the sources; the spec's MD5hex, of the bytes of the text. *)
Definition calc_hexdigest (s : string) : string := MD5.hexdigest (to_bytes s).

(** Modelled from the spec: [util.calc_base64], which is not among the
    sources; the spec's base64, of the bytes of the text. *)
Definition calc_base64 (s : string) : string := Base64.encode (to_bytes s).

(** The local variables of [auth_digest_auth_request] when it reaches
    the test [if not is_invalid_req].  For [req_uri], [req_nonce] and
    [req_response], [None] stands for a variable that was never
    assigned; for the others it is the value [None]. *)
Record digest_locals : Type := {
  is_invalid_req : bool;
  req_username : option string;
  req_uri : option string;
  req_nonce : option string;
  req_qop : option string;
  req_cnonce : option string;
  req_nc : option string;
  req_response : option string
}.

(** Two backslashes in a row occur in [s]: the replacement changes [s]
    exactly then. *)
Definition has_double_backslash (s : string) : bool :=
  negb (String.eqb (replace_double_backslash s) s).

Definition is_some {A : Type} (o : option A) : bool :=
  match o with Some _ => true | None => false end.

(** The loop over the matches of both patterns: a later pair replaces
    an earlier one with the same key. *)
Definition store_header (d : gmap string string) (auth_header : string * string) : gmap string string :=
  <[fst auth_header := strip_quotes (strip (snd auth_header))]> d.

(** [auth_header_dict], from [auth_headers] *)
Definition parse_auth_headers (auth_headers : string) : gmap string string :=
  let auth_header_list := findall header_parser auth_headers in
  let auth_header_fixlist := findall header_fix_parser auth_headers in
  let auth_header_list :=
    match auth_header_fixlist with
    | [] => auth_header_list
    | _ => auth_header_list ++ auth_header_fixlist
    end in
  fold_left store_header auth_header_list ∅.

(** ** The authenticator *)

Section HTTPAuthenticator.

Variable dc : domain_controller.
Variable cfg : config.
Variable hot : hotfixes.
Variable amb : ambient.

(** The two assignments made before the request goes to [next_app]. *)
Definition annotate (environ : gmap string string) (realm user_name : string)
  : gmap string string :=
  <["http_authenticator.user_name" := user_name]>
    (<["http_authenticator.realm" := realm]> environ).

(** The 401 answer both challenges share. *)
Definition challenge (wwwauthheaders : string) : response :=
  {| status := "401 Not Authorized";
     headers := [ ("WWW-Authenticate", wwwauthheaders);
                  ("Content-Type", "text/html");
                  ("Content-Length", str_of_nat (String.length error_message));
                  ("Date", rfc1123_time amb) ];
     body := [error_message] |}.

Definition basic_challenge (realm : string) : string :=
  "Basic realm=" +:+ String dquote (realm +:+ String dquote EmptyString).

Definition digest_challenge (realm nonce : string) : string :=
  "Digest realm=" +:+ String dquote (realm +:+ String dquote
    (", nonce=" +:+ String dquote (nonce +:+ String dquote
      (", algorithm=MD5, qop=" +:+ String dquote ("auth" +:+ String dquote EmptyString))))).

Definition send_basic_auth_response (environ : gmap string string) : result outcome :=
  do path <- item environ "PATH_INFO";
  let realm := get_domain_realm dc path environ in
  let wwwauthheaders := basic_challenge realm in
  Ok (Respond (challenge wwwauthheaders)).

(** The slice of a [str] and its [strip] cannot raise: the [try] is
    without effect. *)
Definition auth_basic_auth_request (environ : gmap string string) : result outcome :=
  do path <- item environ "PATH_INFO";
  let realm := get_domain_realm dc path environ in
  do auth_header <- item environ "HTTP_AUTHORIZATION";
  let authvalue := strip (drop_string (String.length "Basic ") auth_header) in
  match Base64.decodebytes (to_bytes authvalue) with
  | None => Raise BinasciiError
  | Some authvalue =>
      do authvalue <- to_native authvalue;
      match split_colon authvalue with
      | None => Raise ValueError
      | Some (user_name, password) =>
          if auth_domain_user dc realm user_name password environ
          then Ok (Forward (annotate environ realm user_name))
          else send_basic_auth_response environ
      end
  end.

Definition make_nonce (path : string) : string :=
  let etagkey := calc_hexdigest path in
  let nonce_source :=
    timekey amb +:+ calc_hexdigest (timekey amb +:+ ":" +:+ etagkey +:+ ":" +:+ serverkey amb) in
  calc_base64 nonce_source.

Definition send_digest_auth_response (environ : gmap string string) : result outcome :=
  do path <- item environ "PATH_INFO";
  let realm := get_domain_realm dc path environ in
  do path' <- item environ "PATH_INFO";
  let nonce := make_nonce path' in
  let wwwauthheaders := digest_challenge realm nonce in
  Ok (Respond (challenge wwwauthheaders)).

Definition md5h (data : string) : string := MD5.hexdigest (to_bytes data).
Definition md5kd (secret data : string) : string := md5h (secret +:+ ":" +:+ data).

Definition compute_digest_response
    (realm user_name method uri nonce : string) (cnonce qop nc : option string)
  : result string :=
  let A1 := compute_http_digest_a1 dc realm user_name in
  let A2 := method +:+ ":" +:+ uri in
  if truthy qop then
    do s1 <- str_add (nonce +:+ ":") nc;
    do s2 <- str_add (s1 +:+ ":") cnonce;
    do s3 <- str_add (s2 +:+ ":") qop;
    Ok (md5kd A1 (s3 +:+ ":" +:+ md5h A2))
  else
    Ok (md5kd A1 (nonce +:+ ":" +:+ md5h A2)).

(** The checks of [auth_digest_auth_request] on the parsed directives,
    in the order of the source: each sets [is_invalid_req] or leaves
    it. *)
Definition check_digest_directives
    (realm : string) (environ : gmap string string) (auth_headers : string)
    (auth_header_dict : gmap string string)
  : digest_locals :=
  let is_invalid_req := false in
  let is_invalid_req :=
    negb (startswith (strip (lower auth_headers)) "digest") || is_invalid_req in
  let req_username :=
    match auth_header_dict !! "username" with
    | Some u => Some (if has_double_backslash u then replace_double_backslash u else u)
    | None => None
    end in
  let is_invalid_req :=
    match req_username with
    | Some u => negb (is_realm_user dc realm u environ)
    | None => true
    end || is_invalid_req in
  let is_invalid_req :=
    match auth_header_dict !! "realm" with
    | Some r =>
        negb (points_eqb (upper r) (upper realm))
        && negb (HOTFIX_WINXP_AcceptRootShareLogin hot && String.eqb r "/")
    | None => false
    end || is_invalid_req in
  let is_invalid_req :=
    match auth_header_dict !! "algorithm" with
    | Some a => negb (points_eqb (upper a) (code_points "MD5"))
    | None => false
    end || is_invalid_req in
  let req_uri := auth_header_dict !! "uri" in
  let req_nonce := auth_header_dict !! "nonce" in
  let is_invalid_req := negb (is_some req_nonce) || is_invalid_req in
  let req_qop := auth_header_dict !! "qop" in
  let req_has_qop := is_some req_qop in
  let is_invalid_req :=
    match req_qop with
    | Some q => negb (String.eqb (lower q) "auth")
    | None => false
    end || is_invalid_req in
  let req_cnonce := auth_header_dict !! "cnonce" in
  let is_invalid_req := (negb (is_some req_cnonce) && req_has_qop) || is_invalid_req in
  let req_nc := auth_header_dict !! "nc" in
  let is_invalid_req := (negb (is_some req_nc) && req_has_qop) || is_invalid_req in
  let req_response := auth_header_dict !! "response" in
  let is_invalid_req := negb (is_some req_response) || is_invalid_req in
  {| is_invalid_req := is_invalid_req;
     req_username := req_username;
     req_uri := req_uri;
     req_nonce := req_nonce;
     req_qop := req_qop;
     req_cnonce := req_cnonce;
     req_nc := req_nc;
     req_response := req_response |}.

(** [auth_digest_auth_request] up to the test [if not is_invalid_req]. *)
Definition check_digest_headers
    (realm : string) (environ : gmap string string) (auth_headers : string)
  : digest_locals :=
  check_digest_directives realm environ auth_headers (parse_auth_headers auth_headers).

(** The body of [if not is_invalid_req]: the comparison of the
    digests.  The result is the new value of [is_invalid_req]. *)
Definition check_digest
    (realm : string) (environ : gmap string string) (l : digest_locals)
  : result bool :=
  do req_method <- item environ "REQUEST_METHOD";
  do user_name <- as_str (req_username l);
  do uri <- local "req_uri" (req_uri l);
  do nonce <- local "req_nonce" (req_nonce l);
  do required_digest <-
    compute_digest_response realm user_name req_method uri nonce
      (req_cnonce l) (req_qop l) (req_nc l);
  do response <- local "req_response" (req_response l);
  if negb (String.eqb required_digest response) then
    if HOTFIX_WINXP_AcceptRootShareLogin hot then
      do root_digest <-
        compute_digest_response "/" user_name req_method uri nonce
          (req_cnonce l) (req_qop l) (req_nc l);
      if String.eqb root_digest response then Ok false else Ok true
    else Ok true
  else Ok false.

Definition auth_digest_auth_request (environ : gmap string string) : result outcome :=
  do path <- item environ "PATH_INFO";
  let realm := get_domain_realm dc path environ in
  do auth_header <- item environ "HTTP_AUTHORIZATION";
  let auth_headers := auth_header +:+ "," in
  let l := check_digest_headers realm environ auth_headers in
  do is_invalid_req <-
    (if negb (is_invalid_req l) then check_digest realm environ l else Ok true);
  if is_invalid_req then send_digest_auth_response environ
  else
    do user_name <- as_str (req_username l);
    Ok (Forward (annotate environ realm user_name)).

(** [force_allow] in [__call__] *)
Definition force_allow (environ : gmap string string) : result bool :=
  if HOTFIX_WIN_AcceptAnonymousOptions hot then
    do m <- item environ "REQUEST_METHOD";
    Ok (String.eqb m "OPTIONS")
  else Ok false.

(** The user name a trusted upstream server injected: the value of
    [environ.get(self.trusted_auth_header)] when both the setting and
    that value are true as conditions. *)
Definition trusted_user_name (environ : gmap string string) : option string :=
  match trusted_auth_header cfg with
  | Some (String _ _ as h) =>
      match environ !! h with
      | Some (String _ _ as user_name) => Some user_name
      | _ => None
      end
  | _ => None
  end.

(** [auth_method] in [__call__] *)
Definition auth_method_of (auth_header : string) : string :=
  match header_method auth_header with
  | Some w => lower w
  | None => "None"
  end.

Definition bad_request : response :=
  {| status := "400 Bad Request";
     headers := [ ("Content-Length", "0"); ("Date", rfc1123_time amb) ];
     body := [""] |}.

(** [__call__] *)
Definition call (environ : gmap string string) : result outcome :=
  do path <- item environ "PATH_INFO";
  let realm := get_domain_realm dc path environ in
  do force_allow <- force_allow environ;
  if force_allow || negb (require_authentication dc realm environ) then
    Ok (Forward (annotate environ realm ""))
  else
    match trusted_user_name environ with
    | Some user_name => Ok (Forward (annotate environ realm user_name))
    | None =>
        match environ !! "HTTP_AUTHORIZATION" with
        | Some auth_header =>
            let auth_method := auth_method_of auth_header in
            if String.eqb auth_method "digest" && accept_digest cfg then
              auth_digest_auth_request environ
            else if String.eqb auth_method "digest" && accept_basic cfg then
              send_basic_auth_response environ
            else if String.eqb auth_method "basic" && accept_basic cfg then
              auth_basic_auth_request environ
            else if default_to_digest cfg && accept_digest cfg then
              send_digest_auth_response environ
            else if accept_basic cfg then
              send_basic_auth_response environ
            else
              Ok (Respond bad_request)
        | None =>
            if default_to_digest cfg then send_digest_auth_response environ
            else send_basic_auth_response environ
        end
    end.

End HTTPAuthenticator.

(** ** A domain controller and requests for the examples *)

(** One share, [/dav], with one user. *)
Definition example_dc : domain_controller :=
  {| get_domain_realm := fun _ _ => "/dav";
     require_authentication := fun _ _ => true;
     is_realm_user := fun _ user _ => String.eqb user "tester";
     auth_domain_user := fun _ user password _ =>
       String.eqb user "tester" && String.eqb password "secret";
     compute_http_digest_a1 := fun realm user =>
       MD5.hexdigest (to_bytes (user +:+ ":" +:+ realm +:+ ":" +:+ "secret"));
     supports_http_digest_auth := true |}.

(** The same share, open to everyone. *)
Definition open_dc : domain_controller :=
  {| get_domain_realm := fun _ _ => "/dav";
     require_authentication := fun _ _ => false;
     is_realm_user := fun _ user _ => String.eqb user "tester";
     auth_domain_user := fun _ user password _ =>
       String.eqb user "tester" && String.eqb password "secret";
     compute_http_digest_a1 := fun realm user =>
       MD5.hexdigest (to_bytes (user +:+ ":" +:+ realm +:+ ":" +:+ "secret"));
     supports_http_digest_auth := true |}.

Definition example_amb : ambient :=
  {| timekey := "1541426.61";
     serverkey := "9f3a01c2";
     rfc1123_time := "Mon, 05 Nov 2018 14:03:27 GMT" |}.

Definition request (method path : string) (authorization : option string)
  : gmap string string :=
  let environ : gmap string string :=
    <["REQUEST_METHOD" := method]> (<["PATH_INFO" := path]> ∅) in
  match authorization with
  | Some h => <["HTTP_AUTHORIZATION" := h]> environ
  | None => environ
  end.

(** The domain controller of the worked example of RFC 2617, section 3.5. *)
Definition rfc_dc : domain_controller :=
  {| get_domain_realm := fun _ _ => "testrealm@host.com";
     require_authentication := fun _ _ => true;
     is_realm_user := fun _ user _ => String.eqb user "Mufasa";
     auth_domain_user := fun _ _ _ _ => false;
     compute_http_digest_a1 := fun realm user =>
       MD5.hexdigest (to_bytes (user +:+ ":" +:+ realm +:+ ":" +:+ "Circle Of Life"));
     supports_http_digest_auth := true |}.

Definition basic_only : config :=
  {| accept_basic := true; accept_digest := false;
     default_to_digest := false; trusted_auth_header := None |}.

Definition digest_and_basic : config :=
  {| accept_basic := true; accept_digest := true;
     default_to_digest := true; trusted_auth_header := None |}.

Definition no_scheme : config :=
  {| accept_basic := false; accept_digest := false;
     default_to_digest := true; trusted_auth_header := None |}.

Definition digest_header : string :=
  dq "Digest username='tester', realm='/dav', nonce='abc123', uri='/dav/a,b.txt', response='e0b598f61c597a24af6a5c3d3b712b7e', qop=auth, nc=00000001, cnonce='0a4f113b'".

(** The same request with the digest a client computes for the realm
    [/], which is also the realm it names. *)
Definition root_digest_header : string :=
  dq "Digest username='tester', realm='/', nonce='abc123', uri='/dav/a,b.txt', response='d65ad32e5d143bc0ff73afc4ad23e579', qop=auth, nc=00000001, cnonce='0a4f113b'".

(** As [digest_header], without the uri directive. *)
Definition no_uri_header : string :=
  dq "Digest username='tester', realm='/dav', nonce='abc123', response='e0b598f61c597a24af6a5c3d3b712b7e', qop=auth, nc=00000001, cnonce='0a4f113b'".

(** A request without qop, cnonce and nc, with its digest. *)
Definition plain_digest_header : string :=
  dq "Digest username='tester', realm='/dav', nonce='abc123', uri='/dav/file.txt', response='be7fc877b5696f25a31c262e0349fc72'".

(** As [digest_header], with the qop the code does not support. *)
Definition auth_int_header : string :=
  dq "Digest username='tester', realm='/dav', nonce='abc123', uri='/dav/a,b.txt', response='e0b598f61c597a24af6a5c3d3b712b7e', qop=auth-int, nc=00000001, cnonce='0a4f113b'".

Definition root_share_off : hotfixes :=
  {| HOTFIX_WINXP_AcceptRootShareLogin := false;
     HOTFIX_WIN_AcceptAnonymousOptions := false |}.

Definition basic_default : config :=
  {| accept_basic := true; accept_digest := true;
     default_to_digest := false; trusted_auth_header := None |}.

(** ** Notions used in the statements *)

(** The value of the last pair of [l] whose key is [key]: what a pass
    of the tokenizer produces for that key. *)
Fixpoint last_value (key : string) (l : list (string * string)) : option string :=
  match l with
  | [] => None
  | (k, v) :: l' =>
      match last_value key l' with
      | Some v' => Some v'
      | None => if String.eqb k key then Some v else None
      end
  end.

Definition first_char (s : string) : option ascii :=
  match s with
  | EmptyString => None
  | String c _ => Some c
  end.

Fixpoint last_char (s : string) : option ascii :=
  match s with
  | EmptyString => None
  | String c s' =>
      match s' with
      | EmptyString => Some c
      | String _ _ => last_char s'
      end
  end.

(** [s] neither starts nor ends with a character of the class [p]. *)
Definition no_surrounding (p : ascii -> bool) (s : string) : Prop :=
  (forall c, first_char s = Some c -> p c = false)
  /\ (forall c, last_char s = Some c -> p c = false).

(** A header whose uri value holds a comma the client did not encode. *)
Definition comma_header : string :=
  dq "Digest username='user',realm='/',uri='a,b.txt',nc=00000001".

(** ** Notions used in further statements *)

(** The value of the first header called [name]. *)
Fixpoint header_value (name : string) (headers : list (string * string)) : option string :=
  match headers with
  | [] => None
  | (n, v) :: rest => if String.eqb n name then Some v else header_value name rest
  end.

(** The requests whose runs the embedding follows to the end: all but
    the basic requests whose payload is UTF-8 text with a code point
    above 255. *)
Definition in_scope (environ : gmap string string) : bool :=
  match environ !! "HTTP_AUTHORIZATION" with
  | Some auth_header =>
      negb (String.eqb (auth_method_of auth_header) "basic")
      || match Base64.decodebytes (to_bytes (strip (drop_string 6 auth_header))) with
         | Some payload =>
             match to_native payload with
             | Raise OutOfRange => false
             | _ => true
             end
         | None => true
         end
  | None => true
  end.

(** The number of bytes of the body of a response. *)
Definition body_length (r : response) : nat :=
  fold_right (fun chunk n => (String.length chunk + n)%nat) 0%nat (body r).

(** The domain controller [dc] with another [auth_domain_user]. *)
Definition with_auth_domain_user
    (dc : domain_controller)
    (f : string -> string -> string -> gmap string string -> bool) : domain_controller :=
  {| get_domain_realm := get_domain_realm dc;
     require_authentication := require_authentication dc;
     is_realm_user := is_realm_user dc;
     auth_domain_user := f;
     compute_http_digest_a1 := compute_http_digest_a1 dc;
     supports_http_digest_auth := supports_http_digest_auth dc |}.

(** The domain controller [dc] with another [is_realm_user] and another
    [compute_http_digest_a1]. *)
Definition with_digest_lookups
    (dc : domain_controller)
    (f : string -> string -> gmap string string -> bool)
    (g : string -> string -> string) : domain_controller :=
  {| get_domain_realm := get_domain_realm dc;
     require_authentication := require_authentication dc;
     is_realm_user := f;
     auth_domain_user := auth_domain_user dc;
     compute_http_digest_a1 := g;
     supports_http_digest_auth := supports_http_digest_auth dc |}.


Definition digest_only : config :=
  {| accept_basic := false; accept_digest := true;
     default_to_digest := true; trusted_auth_header := None |}.

Definition anonymous_options_on : hotfixes :=
  {| HOTFIX_WINXP_AcceptRootShareLogin := true;
     HOTFIX_WIN_AcceptAnonymousOptions := true |}.

(** ** [__init__] *)

(** The dictionary [config["http_authenticator"]], as far as [__init__]
    reads it: for each setting, its value, or [None] when the key is
    absent (for the trusted header also when its value is [None]).  A
    missing dictionary is the one with every key absent. *)
Record auth_conf : Type := {
  conf_accept_basic : option bool;
  conf_accept_digest : option bool;
  conf_default_to_digest : option bool;
  conf_trusted_auth_header : option string
}.

(** [d.get(key, default)] *)
Definition get_or {A : Type} (v : option A) (default : A) : A :=
  match v with
  | Some x => x
  | None => default
  end.

(** [__init__], for the domain controller [make_domain_controller]
    returned: the settings of the new authenticator, or [None] when it
    raises [RuntimeError]. *)
Definition init (dc : domain_controller) (conf : auth_conf) : option config :=
  let accept_basic := get_or (conf_accept_basic conf) true in
  let accept_digest := get_or (conf_accept_digest conf) true in
  let default_to_digest := get_or (conf_default_to_digest conf) true in
  let trusted_auth_header := conf_trusted_auth_header conf in
  if negb (supports_http_digest_auth dc)
     && (accept_digest || default_to_digest || negb accept_basic)
  then None
  else Some {| accept_basic := accept_basic;
               accept_digest := accept_digest;
               default_to_digest := default_to_digest;
               trusted_auth_header := trusted_auth_header |}.

(** A domain controller that checks plain passwords only. *)
Definition plain_dc : domain_controller :=
  {| get_domain_realm := fun _ _ => "/dav";
     require_authentication := fun _ _ => true;
     is_realm_user := fun _ user _ => String.eqb user "tester";
     auth_domain_user := fun _ user password _ =>
       String.eqb user "tester" && String.eqb password "secret";
     compute_http_digest_a1 := fun _ _ => "";
     supports_http_digest_auth := false |}.

Definition basic_conf : auth_conf :=
  {| conf_accept_basic := None;
     conf_accept_digest := Some false;
     conf_default_to_digest := Some false;
     conf_trusted_auth_header := None |}.

(** Every character of [s] is in the class [p]. *)
Fixpoint all_chars (p : ascii -> bool) (s : string) : bool :=
  match s with
  | EmptyString => true
  | String c s' => p c && all_chars p s'
  end.

Definition is_equals (c : ascii) : bool := Ascii.eqb c "=".

(** The header a client sends for basic authentication: the user name,
    a colon and the password, in UTF-8 and then in base64. *)
Definition basic_credentials (user_name password : string) : string :=
  "Basic " +:+ Base64.encode (to_bytes (user_name +:+ ":" +:+ password)).

Definition is_colon (c : ascii) : bool := Ascii.eqb c ":".

(** The characters that are one byte in UTF-8. *)
Definition is_ascii (c : ascii) : bool := Z_of_ascii c <? 128.

(** The values of a byte. *)
Definition byte_values : list Z := map Z.of_nat (seq 0 256).

Definition is_byte (b : Z) : bool := (0 <=? b) && (b <? 256).

(** The values of a base64 digit. *)
Definition is_digit_value (v : Z) : bool := (0 <=? v) && (v <? 64).

(** A digit stands for its own value and is neither the pad character
    nor a blank. *)
Definition digit_check (v : Z) : bool :=
  negb (Base64.is_pad (Base64.digit v))
  && negb (is_space (Base64.digit v))
  && match Base64.value (Base64.digit v) with
     | Some w => w =? v
     | None => false
     end.

(** A digit is an ASCII character. *)
Definition digit_ascii_check (v : Z) : bool :=
  negb (is_digit_value v) || is_ascii (Base64.digit v).

(** What [to_bytes] writes for the code point [z], [utf8_decode] reads
    back: one byte below 128, or a first byte 194 or 195 and a
    continuation byte. *)
Definition utf8_check (z : Z) : bool :=
  if z <? 128 then true
  else
    let b0 := Z.lor 192 (Z.shiftr z 6) in
    let b1 := Z.lor 128 (Z.land z 63) in
    is_byte b0 && is_byte b1
    && negb (b0 <? 128) && (194 <=? b0) && (b0 <=? 223) && is_cont b1
    && (Z.lor (Z.shiftl (Z.land b0 31) 6) (Z.land b1 63) =? z).

(** The arithmetic of one group of four digits, as [encode_loop]
    writes it and [decode_loop] reads it back.  [check_first a b]: the
    first two digits of the bytes [a], [b] give [a] back and leave the
    high four bits of [b]. *)
Definition check_first (a b : Z) : bool :=
  let v1 := Z.shiftr a 2 in
  let v2 := Z.lor (Z.shiftl (Z.land a 3) 4) (Z.shiftr b 4) in
  is_digit_value v1 && is_digit_value v2
  && (Z.land (Z.shiftr (Z.lor (Z.shiftl v1 6) v2) 4) 0xff =? a)
  && (Z.land (Z.lor (Z.shiftl v1 6) v2) 15 =? Z.shiftr b 4).

(** [check_second b c]: the third digit gives [b] back and leaves the
    high two bits of [c]. *)
Definition check_second (b c : Z) : bool :=
  let v3 := Z.lor (Z.shiftl (Z.land b 15) 2) (Z.shiftr c 6) in
  is_digit_value v3
  && (Z.land (Z.shiftr (Z.lor (Z.shiftl (Z.shiftr b 4) 6) v3) 2) 0xff =? b)
  && (Z.land (Z.lor (Z.shiftl (Z.shiftr b 4) 6) v3) 3 =? Z.shiftr c 6).

(** [check_third c]: the fourth digit gives [c] back. *)
Definition check_third (c : Z) : bool :=
  let v4 := Z.land c 63 in
  is_digit_value v4
  && (Z.land (Z.shiftr (Z.lor (Z.shiftl (Z.shiftr c 6) 6) v4) 0) 0xff =? c).

(** ** Digest headers as clients write them *)

(** [v] between double quotes. *)
Definition quoted (v : string) : string :=
  String dquote (v +:+ String dquote EmptyString).

(** The directives of a header, each after a blank and followed by a
    comma: the text [auth_headers] holds after the scheme name. *)
Fixpoint directives_text (l : list (string * string)) : string :=
  match l with
  | [] => EmptyString
  | (k, v) :: l' => " " +:+ k +:+ "=" +:+ quoted v +:+ "," +:+ directives_text l'
  end.

(** The same without the last comma. *)
Fixpoint join_directives (l : list (string * string)) : string :=
  match l with
  | [] => EmptyString
  | (k, v) :: l' =>
      match l' with
      | [] => " " +:+ k +:+ "=" +:+ quoted v
      | _ :: _ => " " +:+ k +:+ "=" +:+ quoted v +:+ "," +:+ join_directives l'
      end
  end.

(** The Authorization header with the directives [l], each value in
    double quotes. *)
Definition digest_credentials (l : list (string * string)) : string :=
  "Digest" +:+ join_directives l.

(** A name of word characters and a value without comma and without
    double quote. *)
Definition well_formed_directive (p : string * string) : bool :=
  negb (String.eqb (fst p) "")
  && all_chars is_word (fst p)
  && negb (contains_char is_comma (snd p))
  && negb (contains_char is_quote (snd p)).

(** The dictionary of the directives [l], a later one replacing an
    earlier one of the same name. *)
Definition directives_dict (l : list (string * string)) : gmap string string :=
  fold_left (fun d p => <[fst p := snd p]> d) l ∅.

(** The digits [hexdigest] writes. *)
Definition is_lower_hex (c : ascii) : bool :=
  is_digit c || in_range 97 102 c.

(** Both digits of a byte are such digits. *)
Definition hex_check (b : Z) : bool :=
  is_lower_hex (MD5.hex_digit (Z.shiftr b 4))
  && is_lower_hex (MD5.hex_digit (Z.land b 0xf)).

(** A Basic header whose payload is the bytes 255, 58, 120: the byte
    255 occurs in no UTF-8 text. *)
Definition not_utf8_header : string := "Basic /zp4".

(** ** Characters outside ASCII, for the examples *)

(** The small and the capital e with acute accent, the micro sign, the
    sharp s, and the control 31, which is a space character for
    Python. *)
Definition e_acute : ascii := ascii_of_nat 233.
Definition capital_e_acute : ascii := ascii_of_nat 201.
Definition micro_sign : ascii := ascii_of_nat 181.
Definition sharp_s : ascii := ascii_of_nat 223.
Definition unit_separator : ascii := ascii_of_nat 31.

(** A share whose name has such a letter, and its domain controller. *)
Definition cafe : string := "/caf" +:+ String e_acute EmptyString.

Definition cafe_dc : domain_controller :=
  {| get_domain_realm := fun _ _ => cafe;
     require_authentication := fun _ _ => true;
     is_realm_user := fun _ user _ => String.eqb user "tester";
     auth_domain_user := fun _ user password _ =>
       String.eqb user ("t" +:+ String e_acute "ster")
       && String.eqb password ("s" +:+ String e_acute "cret");
     compute_http_digest_a1 := fun realm user =>
       MD5.hexdigest (to_bytes (user +:+ ":" +:+ realm +:+ ":" +:+ "secret"));
     supports_http_digest_auth := true |}.

(** A digest request for that share that names the realm in capitals. *)
Definition cafe_header : string :=
  dq "Digest username='tester', realm='/CAF" +:+
  String capital_e_acute
    (dq "', nonce='abc123', uri='" +:+ cafe +:+
     dq "/x', response='623bd346b1f78b0129ea9ed8bed460df'").

(** As [plain_digest_header], with the control 31 after the closing
    quote of the user name. *)
Definition trailing_control_header : string :=
  dq "Digest username='tester'" +:+
  String unit_separator
    (dq ", realm='/dav', nonce='abc123', uri='/dav/file.txt', response='be7fc877b5696f25a31c262e0349fc72'").

(** As [plain_digest_header], with a letter in front of the name uri. *)
Definition stray_letter_header : string :=
  dq "Digest username='tester', realm='/dav', nonce='abc123', " +:+
  String e_acute
    (dq "uri='/dav/file.txt', response='be7fc877b5696f25a31c262e0349fc72'").

(** As [digest_header], with the control 31 after the qop. *)
Definition qop_control_header : string :=
  dq "Digest username='tester', realm='/dav', nonce='abc123', uri='/dav/a,b.txt', response='e0b598f61c597a24af6a5c3d3b712b7e', qop=auth" +:+
  String unit_separator (dq ", nc=00000001, cnonce='0a4f113b'").

(** A header whose first word is digest followed by a letter. *)
Definition digest_micro_header : string :=
  "Digest" +:+ String micro_sign " x".

Definition digest_not_default : config :=
  {| accept_basic := false; accept_digest := true;
     default_to_digest := false; trusted_auth_header := None |}.

(** A digest header with an upper-case response. *)
Definition upper_response_header : string :=
  dq "Digest username='tester', realm='/dav', nonce='abc123', uri='/dav/file.txt', response='BE7FC877B5696F25A31C262E0349FC72'".

(** * Properties *)

(** ** The models of the library functions on known vectors *)

Example md5_empty : MD5.hexdigest "" = "d41d8cd98f00b204e9800998ecf8427e".
Proof. vm_compute. reflexivity. Qed.

Example md5_abc : MD5.hexdigest "abc" = "900150983cd24fb0d6963f7d28e17f72".
Proof. vm_compute. reflexivity. Qed.

Example md5_two_blocks :
  MD5.hexdigest
    "12345678901234567890123456789012345678901234567890123456789012345678901234567890"
  = "57edf4a22be3c955ac49da2e2107b67a".
Proof. vm_compute. reflexivity. Qed.

Example base64_decode_pair : Base64.decodebytes "dGVzdGVyOnNlY3JldA==" = Some "tester:secret".
Proof. vm_compute. reflexivity. Qed.

Example base64_decode_short : Base64.decodebytes "abc" = None.
Proof. vm_compute. reflexivity. Qed.

Example base64_encode_pad : Base64.encode "ab" = "YWI=".
Proof. vm_compute. reflexivity. Qed.

(** The character classes and the case maps outside ASCII, as Python 3
    has them: the accented letter is a word character, the
    multiplication sign 215 is none; the control 31 and the no-break
    space 160 are space characters. *)
Example classes_outside_ascii :
  is_word e_acute = true /\ is_word micro_sign = true
  /\ is_word (ascii_of_nat 215) = false /\ is_word (ascii_of_nat 160) = false
  /\ is_space unit_separator = true /\ is_space (ascii_of_nat 160) = true
  /\ is_space (ascii_of_nat 133) = true /\ is_space (ascii_of_nat 0) = false
  /\ lower_char capital_e_acute = e_acute /\ lower_char (ascii_of_nat 215) = ascii_of_nat 215
  /\ strip (String unit_separator (" a " +:+ String (ascii_of_nat 160) EmptyString)) = "a".
Proof. repeat split; vm_compute; reflexivity. Qed.

(** UTF-8: the accented letter is the bytes 195 and 169; a lone byte
    255, an encoding longer than needed (192, 128) and a surrogate
    (237, 160, 128) are refused. *)
Example utf8_vectors :
  to_bytes cafe = "/caf" +:+ string_of_bytes [195; 169]
  /\ to_native ("/caf" +:+ string_of_bytes [195; 169]) = Ok cafe
  /\ to_native (string_of_bytes [255]) = Raise UnicodeDecodeError
  /\ to_native (string_of_bytes [192; 128]) = Raise UnicodeDecodeError
  /\ to_native (string_of_bytes [237; 160; 128]) = Raise UnicodeDecodeError
  /\ to_native (string_of_bytes [195]) = Raise UnicodeDecodeError
  /\ utf8_decode [226; 130; 172] = Some [8364]
  /\ utf8_decode [240; 159; 152; 128] = Some [128512]
  /\ utf8_decode [244; 144; 128; 128] = None.
Proof. repeat split; vm_compute; reflexivity. Qed.

(** A text is hashed in UTF-8. *)
Example md5_utf8 : MD5.hexdigest (to_bytes cafe) = "fa9b2c1834eec27fa9d0fc1cd8723abf".
Proof. vm_compute. reflexivity. Qed.

Example error_message_length : String.length error_message = 167%nat.
Proof. vm_compute. reflexivity. Qed.

(** ** Strings *)

Lemma append_assoc (a b c : string) : (a +:+ b) +:+ c = a +:+ (b +:+ c).
Proof.
  induction a as [|x a IH]; [reflexivity |].
  change (String x ((a +:+ b) +:+ c) = String x (a +:+ (b +:+ c))).
  f_equal. exact IH.
Qed.

Lemma points_eqb_eq (a b : list Z) : points_eqb a b = true <-> a = b.
Proof.
  revert b. induction a as [|x a IH]; intros [|y b]; cbn [points_eqb];
    try (split; [discriminate | discriminate]); [split; reflexivity |].
  rewrite andb_true_iff, Z.eqb_eq, IH. split.
  - intros [-> ->]. reflexivity.
  - intros H. inversion H. auto.
Qed.

Lemma points_eqb_neq (a b : list Z) : points_eqb a b = false <-> a <> b.
Proof.
  rewrite <- points_eqb_eq. destruct (points_eqb a b); split; congruence.
Qed.

(** ** Results and lookups *)

Lemma item_Some (d : gmap string string) (key v : string) :
  d !! key = Some v -> item d key = Ok v.
Proof. intros H. unfold item. now rewrite H. Qed.

Lemma truthy_Some (s : string) : truthy (Some s) = true <-> s <> "".
Proof. destruct s; simpl; split; intros; congruence. Qed.

Lemma truthy_false (v : option string) :
  truthy v = false <-> v = None \/ v = Some "".
Proof.
  destruct v as [[|c s]|]; simpl; split; intros H; auto; try discriminate;
    destruct H; discriminate.
Qed.

Lemma annotate_realm (environ : gmap string string) (realm user_name : string) :
  annotate environ realm user_name !! "http_authenticator.realm" = Some realm.
Proof.
  unfold annotate. rewrite lookup_insert_ne by discriminate.
  apply lookup_insert_eq.
Qed.

Lemma annotate_user_name (environ : gmap string string) (realm user_name : string) :
  annotate environ realm user_name !! "http_authenticator.user_name" = Some user_name.
Proof. unfold annotate. apply lookup_insert_eq. Qed.

(** ** The digest computation *)

(** The worked example of RFC 2617, section 3.5. *)
Example rfc2617_response :
  compute_digest_response rfc_dc "testrealm@host.com" "Mufasa" "GET" "/dir/index.html"
    "dcd98b7102dd2f0e8b11d0f600bfb0c093" (Some "0a4f113b") (Some "auth") (Some "00000001")
  = Ok "6629fae49393a05397450978507c4ef1".
Proof. vm_compute. reflexivity. Qed.

(** C1.  [compute_digest_response] returns
    MD5hex(A1:nonce:nc:cnonce:qop:MD5hex(method:uri)) when qop is set,
    that is a non-empty string, with the strings nc and cnonce; and
    MD5hex(A1:nonce:MD5hex(method:uri)) when qop is not set, that is
    [None] or empty, whatever cnonce and nc are.  A1 is what the domain
    controller returns for the realm and the user name; MD5hex is the
    MD5 of a text, taken in UTF-8, in lower-case hexadecimal. *)
Theorem compute_digest_response_formula
    (dc : domain_controller) (realm username method uri nonce cnonce qop nc : string)
    (Hset : qop <> "") :
  let MD5hex := fun text => MD5.hexdigest (to_bytes text) in
  let A1 := compute_http_digest_a1 dc realm username in
  let HA2 := MD5hex (method +:+ ":" +:+ uri) in
  compute_digest_response dc realm username method uri nonce (Some cnonce) (Some qop) (Some nc)
  = Ok (MD5hex
          (A1 +:+ ":" +:+ nonce +:+ ":" +:+ nc +:+ ":" +:+ cnonce +:+ ":" +:+ qop +:+ ":" +:+ HA2))
  /\ forall unset cnonce' nc',
       truthy unset = false ->
       compute_digest_response dc realm username method uri nonce cnonce' unset nc'
       = Ok (MD5hex (A1 +:+ ":" +:+ nonce +:+ ":" +:+ HA2)).
Proof.
  intros MD5hex A1 HA2. split.
  - unfold compute_digest_response.
    apply truthy_Some in Hset. rewrite Hset. simpl.
    unfold md5kd, md5h. fold A1. fold (MD5hex (method +:+ ":" +:+ uri)). fold HA2.
    unfold MD5hex. f_equal. f_equal. f_equal.
    rewrite !append_assoc. reflexivity.
  - intros unset cnonce' nc' Hu. unfold compute_digest_response.
    rewrite Hu. reflexivity.
Qed.

Lemma compute_digest_response_formula_witness :
  "auth" <> "" /\
  compute_digest_response rfc_dc "testrealm@host.com" "Mufasa" "GET" "/dir/index.html"
    "dcd98b7102dd2f0e8b11d0f600bfb0c093" (Some "0a4f113b") (Some "auth") (Some "00000001")
  = Ok (MD5.hexdigest
          (to_bytes
             (compute_http_digest_a1 rfc_dc "testrealm@host.com" "Mufasa" +:+ ":" +:+
              "dcd98b7102dd2f0e8b11d0f600bfb0c093" +:+ ":" +:+ "00000001" +:+ ":" +:+
              "0a4f113b" +:+ ":" +:+ "auth" +:+ ":" +:+
              MD5.hexdigest (to_bytes ("GET" +:+ ":" +:+ "/dir/index.html"))))).
Proof.
  split; [discriminate |].
  pose proof (compute_digest_response_formula rfc_dc "testrealm@host.com" "Mufasa" "GET"
                "/dir/index.html" "dcd98b7102dd2f0e8b11d0f600bfb0c093" "0a4f113b" "auth"
                "00000001") as H.
  cbv beta zeta in H. destruct H as [H _]; [discriminate | exact H].
Defined.

(** An empty qop counts as not set: the short formula is used. *)
Example compute_digest_response_empty_qop :
  compute_digest_response example_dc "/dav" "tester" "GET" "/x" "abc123"
    (Some "0a4f113b") (Some "") (Some "00000001")
  = Ok "67a1b4fcd9ee4b68c00c8f9b1584f551".
Proof. vm_compute. reflexivity. Qed.

(** With qop set, a missing nc or cnonce cannot be joined to the text. *)
Lemma compute_digest_response_None
    (dc : domain_controller) (realm username method uri nonce qop : string)
    (cnonce nc : option string) :
  qop <> "" -> cnonce = None \/ nc = None ->
  compute_digest_response dc realm username method uri nonce cnonce (Some qop) nc
  = Raise TypeError.
Proof.
  intros Hq H. unfold compute_digest_response.
  apply truthy_Some in Hq. rewrite Hq.
  destruct nc as [n|]; simpl; [|reflexivity].
  destruct cnonce as [c|]; simpl; [|reflexivity].
  destruct H; discriminate.
Qed.

(** ** The gate *)

Lemma force_allow_total (hot : hotfixes) (environ : gmap string string) (method : string) :
  environ !! "REQUEST_METHOD" = Some method ->
  exists b, force_allow hot environ = Ok b.
Proof.
  intros Hm. unfold force_allow.
  destruct (HOTFIX_WIN_AcceptAnonymousOptions hot); [|eauto].
  rewrite (item_Some _ _ _ Hm). simpl. eauto.
Qed.

Lemma send_basic_auth_response_Ok
    (dc : domain_controller) (amb : ambient) (environ : gmap string string) (path : string) :
  environ !! "PATH_INFO" = Some path ->
  send_basic_auth_response dc amb environ
  = Ok (Respond (challenge amb (basic_challenge (get_domain_realm dc path environ)))).
Proof.
  intros Hp. unfold send_basic_auth_response.
  rewrite (item_Some _ _ _ Hp). reflexivity.
Qed.

Lemma send_digest_auth_response_Ok
    (dc : domain_controller) (amb : ambient) (environ : gmap string string) (path : string) :
  environ !! "PATH_INFO" = Some path ->
  send_digest_auth_response dc amb environ
  = Ok (Respond (challenge amb
          (digest_challenge (get_domain_realm dc path environ) (make_nonce amb path)))).
Proof.
  intros Hp. unfold send_digest_auth_response.
  rewrite (item_Some _ _ _ Hp). reflexivity.
Qed.

(** Where [__call__] arrives when the request is neither let through
    without credentials nor vouched for by a trusted header. *)
Lemma call_dispatch
    (dc : domain_controller) (cfg : config) (hot : hotfixes) (amb : ambient)
    (environ : gmap string string) (path auth_header : string) :
  environ !! "PATH_INFO" = Some path ->
  force_allow hot environ = Ok false ->
  require_authentication dc (get_domain_realm dc path environ) environ = true ->
  trusted_user_name cfg environ = None ->
  environ !! "HTTP_AUTHORIZATION" = Some auth_header ->
  call dc cfg hot amb environ =
    let auth_method := auth_method_of auth_header in
    if String.eqb auth_method "digest" && accept_digest cfg then
      auth_digest_auth_request dc hot amb environ
    else if String.eqb auth_method "digest" && accept_basic cfg then
      send_basic_auth_response dc amb environ
    else if String.eqb auth_method "basic" && accept_basic cfg then
      auth_basic_auth_request dc amb environ
    else if default_to_digest cfg && accept_digest cfg then
      send_digest_auth_response dc amb environ
    else if accept_basic cfg then
      send_basic_auth_response dc amb environ
    else Ok (Respond (bad_request amb)).
Proof.
  intros Hp Hf Hr Ht Ha. unfold call.
  rewrite (item_Some _ _ _ Hp). simpl.
  rewrite Hf. simpl. rewrite Hr. simpl. rewrite Ht, Ha. reflexivity.
Qed.

(** C9.  A request whose realm does not require authentication goes to
    the protected application, annotated with the realm and with the
    empty user name; no challenge is issued, whatever the request
    carries. *)
Theorem open_realm_is_forwarded
    (dc : domain_controller) (cfg : config) (hot : hotfixes) (amb : ambient)
    (environ : gmap string string) (path method : string) :
  environ !! "PATH_INFO" = Some path ->
  environ !! "REQUEST_METHOD" = Some method ->
  require_authentication dc (get_domain_realm dc path environ) environ = false ->
  exists environ',
    call dc cfg hot amb environ = Ok (Forward environ')
    /\ environ' = annotate environ (get_domain_realm dc path environ) ""
    /\ environ' !! "http_authenticator.realm" = Some (get_domain_realm dc path environ)
    /\ environ' !! "http_authenticator.user_name" = Some "".
Proof.
  intros Hp Hm Hr.
  exists (annotate environ (get_domain_realm dc path environ) "").
  split; [| split; [reflexivity | split; [apply annotate_realm | apply annotate_user_name]]].
  unfold call. rewrite (item_Some _ _ _ Hp). simpl.
  destruct (force_allow_total hot environ method Hm) as [b Hb].
  rewrite Hb. simpl. rewrite Hr. simpl.
  now rewrite orb_true_r.
Qed.

Lemma open_realm_is_forwarded_witness :
  exists environ',
    call open_dc digest_and_basic source_hotfixes example_amb
      (request "GET" "/dav/a,b.txt" (Some digest_header)) = Ok (Forward environ')
    /\ environ' = annotate (request "GET" "/dav/a,b.txt" (Some digest_header)) "/dav" ""
    /\ environ' !! "http_authenticator.realm" = Some "/dav"
    /\ environ' !! "http_authenticator.user_name" = Some "".
Proof.
  apply (open_realm_is_forwarded open_dc digest_and_basic source_hotfixes example_amb
           (request "GET" "/dav/a,b.txt" (Some digest_header)) "/dav/a,b.txt" "GET");
    vm_compute; reflexivity.
Defined.

(** C7, as stated, fails: a request with a Digest header, to a gate
    that accepts basic only, is not answered with a Basic challenge
    when its realm needs no authentication; it is forwarded. *)
Lemma digest_downgrade_counterexample :
  let environ := request "GET" "/dav/a,b.txt" (Some digest_header) in
  environ !! "HTTP_AUTHORIZATION" = Some digest_header
  /\ auth_method_of digest_header = "digest"
  /\ accept_digest basic_only = false
  /\ accept_basic basic_only = true
  /\ call open_dc basic_only source_hotfixes example_amb environ
     = Ok (Forward (annotate environ "/dav" ""))
  /\ ~ exists r, call open_dc basic_only source_hotfixes example_amb environ
                 = Ok (Respond r).
Proof.
  cbv zeta. repeat split; try (vm_compute; reflexivity).
  intros [r Hr]. vm_compute in Hr. discriminate.
Qed.

(** C7, amended.  When the request reaches the inspection of its
    Authorization header (it is not let through without credentials,
    and no trusted header names a user), the first word of that header
    is digest in any case of letters, digest is not accepted and basic
    is: the answer is the 401 with the Basic challenge. *)
Theorem digest_downgrade
    (dc : domain_controller) (cfg : config) (hot : hotfixes) (amb : ambient)
    (environ : gmap string string) (path auth_header : string) :
  environ !! "PATH_INFO" = Some path ->
  force_allow hot environ = Ok false ->
  require_authentication dc (get_domain_realm dc path environ) environ = true ->
  trusted_user_name cfg environ = None ->
  environ !! "HTTP_AUTHORIZATION" = Some auth_header ->
  auth_method_of auth_header = "digest" ->
  accept_digest cfg = false ->
  accept_basic cfg = true ->
  call dc cfg hot amb environ
  = Ok (Respond
          {| status := "401 Not Authorized";
             headers := [ ("WWW-Authenticate",
                           basic_challenge (get_domain_realm dc path environ));
                          ("Content-Type", "text/html");
                          ("Content-Length", "167");
                          ("Date", rfc1123_time amb) ];
             body := [error_message] |}).
Proof.
  intros Hp Hf Hr Ht Ha Hm Hd Hb.
  rewrite (call_dispatch dc cfg hot amb environ path auth_header Hp Hf Hr Ht Ha).
  cbv zeta. rewrite Hm, Hd, Hb. simpl.
  apply send_basic_auth_response_Ok. exact Hp.
Qed.

Lemma digest_downgrade_witness :
  call example_dc basic_only source_hotfixes example_amb
    (request "GET" "/dav/a,b.txt" (Some digest_header))
  = Ok (Respond
          {| status := "401 Not Authorized";
             headers := [ ("WWW-Authenticate", basic_challenge "/dav");
                          ("Content-Type", "text/html");
                          ("Content-Length", "167");
                          ("Date", rfc1123_time example_amb) ];
             body := [error_message] |}).
Proof.
  apply (digest_downgrade example_dc basic_only source_hotfixes example_amb
           (request "GET" "/dav/a,b.txt" (Some digest_header)) "/dav/a,b.txt" digest_header);
    vm_compute; reflexivity.
Defined.

(** C8, as stated, fails: a request whose header names an unknown
    scheme, to a gate that accepts neither scheme, is not answered with
    400 when its realm needs no authentication; it is forwarded. *)
Lemma unsupported_method_counterexample :
  let environ := request "GET" "/dav/a,b.txt" (Some "Bearer abcdef") in
  environ !! "HTTP_AUTHORIZATION" = Some "Bearer abcdef"
  /\ auth_method_of "Bearer abcdef" <> "digest"
  /\ auth_method_of "Bearer abcdef" <> "basic"
  /\ (default_to_digest no_scheme && accept_digest no_scheme) = false
  /\ accept_basic no_scheme = false
  /\ call open_dc no_scheme source_hotfixes example_amb environ
     = Ok (Forward (annotate environ "/dav" ""))
  /\ ~ exists r, call open_dc no_scheme source_hotfixes example_amb environ
                 = Ok (Respond r).
Proof.
  cbv zeta. repeat split; try (vm_compute; reflexivity);
    try (vm_compute; discriminate).
  intros [r Hr]. vm_compute in Hr. discriminate.
Qed.

(** C8, amended.  When the request reaches the inspection of its
    Authorization header (it is not let through without credentials,
    and no trusted header names a user) and the first word of that
    header is neither digest nor basic: the answer is the Digest
    challenge if digest is the default and is accepted, else the Basic
    challenge if basic is accepted, else 400 with an empty body and
    Content-Length 0. *)
Theorem unsupported_method
    (dc : domain_controller) (cfg : config) (hot : hotfixes) (amb : ambient)
    (environ : gmap string string) (path auth_header : string) :
  environ !! "PATH_INFO" = Some path ->
  force_allow hot environ = Ok false ->
  require_authentication dc (get_domain_realm dc path environ) environ = true ->
  trusted_user_name cfg environ = None ->
  environ !! "HTTP_AUTHORIZATION" = Some auth_header ->
  auth_method_of auth_header <> "digest" ->
  auth_method_of auth_header <> "basic" ->
  call dc cfg hot amb environ
  = Ok (Respond
          (if default_to_digest cfg && accept_digest cfg then
             {| status := "401 Not Authorized";
                headers := [ ("WWW-Authenticate",
                              digest_challenge (get_domain_realm dc path environ)
                                (make_nonce amb path));
                             ("Content-Type", "text/html");
                             ("Content-Length", "167");
                             ("Date", rfc1123_time amb) ];
                body := [error_message] |}
           else if accept_basic cfg then
             {| status := "401 Not Authorized";
                headers := [ ("WWW-Authenticate",
                              basic_challenge (get_domain_realm dc path environ));
                             ("Content-Type", "text/html");
                             ("Content-Length", "167");
                             ("Date", rfc1123_time amb) ];
                body := [error_message] |}
           else
             {| status := "400 Bad Request";
                headers := [ ("Content-Length", "0"); ("Date", rfc1123_time amb) ];
                body := [""] |})).
Proof.
  intros Hp Hf Hr Ht Ha Hd Hb.
  rewrite (call_dispatch dc cfg hot amb environ path auth_header Hp Hf Hr Ht Ha).
  cbv zeta.
  apply String.eqb_neq in Hd. apply String.eqb_neq in Hb. rewrite Hd, Hb. simpl.
  destruct (default_to_digest cfg && accept_digest cfg).
  - apply send_digest_auth_response_Ok. exact Hp.
  - destruct (accept_basic cfg).
    + apply send_basic_auth_response_Ok. exact Hp.
    + reflexivity.
Qed.

Lemma unsupported_method_witness :
  call example_dc no_scheme source_hotfixes example_amb
    (request "GET" "/dav/a,b.txt" (Some "Bearer abcdef"))
  = Ok (Respond
          (if default_to_digest no_scheme && accept_digest no_scheme then
             {| status := "401 Not Authorized";
                headers := [ ("WWW-Authenticate",
                              digest_challenge "/dav" (make_nonce example_amb "/dav/a,b.txt"));
                             ("Content-Type", "text/html");
                             ("Content-Length", "167");
                             ("Date", rfc1123_time example_amb) ];
                body := [error_message] |}
           else if accept_basic no_scheme then
             {| status := "401 Not Authorized";
                headers := [ ("WWW-Authenticate", basic_challenge "/dav");
                             ("Content-Type", "text/html");
                             ("Content-Length", "167");
                             ("Date", rfc1123_time example_amb) ];
                body := [error_message] |}
           else
             {| status := "400 Bad Request";
                headers := [ ("Content-Length", "0");
                             ("Date", rfc1123_time example_amb) ];
                body := [""] |})).
Proof.
  apply (unsupported_method example_dc no_scheme source_hotfixes example_amb
           (request "GET" "/dav/a,b.txt" (Some "Bearer abcdef"))
           "/dav/a,b.txt" "Bearer abcdef");
    try (vm_compute; reflexivity); vm_compute; discriminate.
Defined.

(** The three branches on examples. *)
Example unsupported_method_400 :
  call example_dc no_scheme source_hotfixes example_amb
    (request "GET" "/dav/a,b.txt" (Some "Bearer abcdef"))
  = Ok (Respond {| status := "400 Bad Request";
                   headers := [ ("Content-Length", "0");
                                ("Date", "Mon, 05 Nov 2018 14:03:27 GMT") ];
                   body := [""] |}).
Proof. vm_compute. reflexivity. Qed.

Example unsupported_method_basic :
  call example_dc basic_only source_hotfixes example_amb
    (request "GET" "/dav/a,b.txt" (Some "Bearer abcdef"))
  = Ok (Respond (challenge example_amb (basic_challenge "/dav"))).
Proof. vm_compute. reflexivity. Qed.

Example unsupported_method_digest :
  call example_dc digest_and_basic source_hotfixes example_amb
    (request "GET" "/dav/a,b.txt" (Some "Bearer abcdef"))
  = Ok (Respond (challenge example_amb
                   (digest_challenge "/dav" (make_nonce example_amb "/dav/a,b.txt")))).
Proof. vm_compute. reflexivity. Qed.

(** ** The digest validator *)

Lemma lower_auth_nonempty (q : string) : lower q = "auth" -> q <> "".
Proof. intros H ->. discriminate. Qed.

(** What a request that is valid so far has bound. *)
Lemma valid_so_far
    (dc : domain_controller) (hot : hotfixes) (realm : string)
    (environ : gmap string string) (auth_headers : string) (d : gmap string string) :
  let l := check_digest_directives dc hot realm environ auth_headers d in
  is_invalid_req l = false ->
  (exists user_name nonce response,
      req_username l = Some user_name
      /\ req_nonce l = Some nonce
      /\ req_response l = Some response)
  /\ (req_qop l = None
      \/ exists q cnonce nc,
           req_qop l = Some q /\ lower q = "auth"
           /\ req_cnonce l = Some cnonce /\ req_nc l = Some nc).
Proof.
  cbv zeta. unfold check_digest_directives. cbn [is_invalid_req req_username req_nonce
    req_response req_qop req_cnonce req_nc].
  intros H.
  repeat (apply orb_false_elim in H; destruct H as [? H]).
  destruct (d !! "username") as [u|]; [|discriminate].
  destruct (d !! "nonce") as [n|]; [|discriminate].
  destruct (d !! "response") as [r|]; [|discriminate].
  split; [eauto 10 |].
  destruct (d !! "qop") as [q|]; [|now left].
  right.
  destruct (d !! "cnonce") as [c|]; [|discriminate].
  destruct (d !! "nc") as [k|]; [|discriminate].
  exists q, c, k. repeat split; try reflexivity.
  match goal with
  | Hq : negb (String.eqb (lower q) "auth") = false |- _ =>
      apply negb_false_iff, String.eqb_eq in Hq; exact Hq
  end.
Qed.

(** For such a request the digest computation returns a digest,
    whatever the realm. *)
Lemma valid_so_far_digest
    (dc : domain_controller) (hot : hotfixes) (realm : string)
    (environ : gmap string string) (auth_headers : string) (d : gmap string string)
    (realm' user_name method uri nonce : string) :
  let l := check_digest_directives dc hot realm environ auth_headers d in
  is_invalid_req l = false ->
  exists digest,
    compute_digest_response dc realm' user_name method uri nonce
      (req_cnonce l) (req_qop l) (req_nc l) = Ok digest.
Proof.
  intros l Hv.
  destruct (valid_so_far dc hot realm environ auth_headers d Hv) as [_ Hq].
  fold l in Hq. unfold compute_digest_response.
  destruct Hq as [Hq | (q & c & k & Hq & Ha & Hc & Hk)].
  - rewrite Hq. simpl. eauto.
  - rewrite Hq, Hc, Hk.
    apply lower_auth_nonempty, truthy_Some in Ha. rewrite Ha. simpl. eauto.
Qed.

Lemma auth_digest_auth_request_eq
    (dc : domain_controller) (hot : hotfixes) (amb : ambient)
    (environ : gmap string string) (path auth_header : string) :
  environ !! "PATH_INFO" = Some path ->
  environ !! "HTTP_AUTHORIZATION" = Some auth_header ->
  let realm := get_domain_realm dc path environ in
  let l := check_digest_headers dc hot realm environ (auth_header +:+ ",") in
  auth_digest_auth_request dc hot amb environ
  = bind (if negb (is_invalid_req l) then check_digest dc hot realm environ l else Ok true)
      (fun invalid =>
         if invalid then send_digest_auth_response dc amb environ
         else bind (as_str (req_username l))
                (fun user_name => Ok (Forward (annotate environ realm user_name)))).
Proof.
  intros Hp Ha realm l. unfold auth_digest_auth_request.
  rewrite (item_Some _ _ _ Hp). cbn [bind]. rewrite (item_Some _ _ _ Ha). reflexivity.
Qed.

(** The result of [auth_digest_auth_request] from the value of
    [is_invalid_req] at its end. *)
Lemma auth_digest_auth_request_rejects
    (dc : domain_controller) (hot : hotfixes) (amb : ambient)
    (environ : gmap string string) (path auth_header : string) :
  environ !! "PATH_INFO" = Some path ->
  environ !! "HTTP_AUTHORIZATION" = Some auth_header ->
  let realm := get_domain_realm dc path environ in
  let l := check_digest_headers dc hot realm environ (auth_header +:+ ",") in
  is_invalid_req l = true \/ check_digest dc hot realm environ l = Ok true ->
  auth_digest_auth_request dc hot amb environ
  = Ok (Respond (challenge amb (digest_challenge realm (make_nonce amb path)))).
Proof.
  intros Hp Ha realm l H.
  rewrite (auth_digest_auth_request_eq dc hot amb environ path auth_header Hp Ha).
  cbv zeta. fold realm. fold l.
  destruct (is_invalid_req l) eqn:Hi; cbn [negb bind].
  - apply send_digest_auth_response_Ok. exact Hp.
  - destruct H as [H | H]; [discriminate |].
    rewrite H. cbn [bind]. apply send_digest_auth_response_Ok. exact Hp.
Qed.

(** C2.  For a digest request that passed every structural check and
    carries a uri: the expected digest is computed with the resolved
    realm and the request is forwarded when it equals the response
    directive; on a mismatch, with the root-share switch on, the digest
    is recomputed with the realm / and the request is forwarded exactly
    when that one matches; with the switch off, a mismatch is rejected
    with the Digest challenge. *)
Theorem digest_verdict
    (dc : domain_controller) (hot : hotfixes) (amb : ambient)
    (environ : gmap string string) (path auth_header method uri : string) :
  environ !! "PATH_INFO" = Some path ->
  environ !! "HTTP_AUTHORIZATION" = Some auth_header ->
  environ !! "REQUEST_METHOD" = Some method ->
  let realm := get_domain_realm dc path environ in
  let l := check_digest_headers dc hot realm environ (auth_header +:+ ",") in
  is_invalid_req l = false ->
  req_uri l = Some uri ->
  exists user_name nonce response expected root_expected,
    req_username l = Some user_name
    /\ req_nonce l = Some nonce
    /\ req_response l = Some response
    /\ compute_digest_response dc realm user_name method uri nonce
         (req_cnonce l) (req_qop l) (req_nc l) = Ok expected
    /\ compute_digest_response dc "/" user_name method uri nonce
         (req_cnonce l) (req_qop l) (req_nc l) = Ok root_expected
    /\ auth_digest_auth_request dc hot amb environ
       = if String.eqb expected response then
           Ok (Forward (annotate environ realm user_name))
         else if HOTFIX_WINXP_AcceptRootShareLogin hot then
           if String.eqb root_expected response then
             Ok (Forward (annotate environ realm user_name))
           else
             Ok (Respond (challenge amb (digest_challenge realm (make_nonce amb path))))
         else
           Ok (Respond (challenge amb (digest_challenge realm (make_nonce amb path)))).
Proof.
  intros Hp Ha Hm realm l Hv Hu.
  destruct (valid_so_far dc hot realm environ (auth_header +:+ ",")
              (parse_auth_headers (auth_header +:+ ",")) Hv)
    as [(user_name & nonce & response & Hun & Hn & Hr) _].
  fold (check_digest_headers dc hot realm environ (auth_header +:+ ",")) in Hun, Hn, Hr.
  fold l in Hun, Hn, Hr.
  destruct (valid_so_far_digest dc hot realm environ (auth_header +:+ ",")
              (parse_auth_headers (auth_header +:+ ",")) realm user_name method uri nonce Hv)
    as [expected He].
  destruct (valid_so_far_digest dc hot realm environ (auth_header +:+ ",")
              (parse_auth_headers (auth_header +:+ ",")) "/" user_name method uri nonce Hv)
    as [root_expected Hre].
  fold (check_digest_headers dc hot realm environ (auth_header +:+ ",")) in He, Hre.
  fold l in He, Hre.
  exists user_name, nonce, response, expected, root_expected.
  repeat (split; [assumption |]).
  rewrite (auth_digest_auth_request_eq dc hot amb environ path auth_header Hp Ha).
  cbv zeta. fold realm. fold l. rewrite Hv. cbn [negb].
  unfold check_digest. rewrite (item_Some _ _ _ Hm). cbn [bind].
  rewrite Hun, Hu, Hn. cbn [bind as_str local]. rewrite He. cbn [bind].
  rewrite Hr. cbn [bind local].
  destruct (String.eqb expected response); cbn [negb bind]; [reflexivity |].
  destruct (HOTFIX_WINXP_AcceptRootShareLogin hot); cbn [bind].
  - rewrite Hre. cbn [bind].
    destruct (String.eqb root_expected response); cbn [bind]; [reflexivity |].
    apply send_digest_auth_response_Ok. exact Hp.
  - apply send_digest_auth_response_Ok. exact Hp.
Qed.

Lemma digest_verdict_witness :
  let environ := request "GET" "/dav/a,b.txt" (Some root_digest_header) in
  let l := check_digest_headers example_dc source_hotfixes "/dav" environ
             (root_digest_header +:+ ",") in
  exists user_name nonce response expected root_expected,
    req_username l = Some user_name
    /\ req_nonce l = Some nonce
    /\ req_response l = Some response
    /\ compute_digest_response example_dc "/dav" user_name "GET" "/dav/a,b.txt" nonce
         (req_cnonce l) (req_qop l) (req_nc l) = Ok expected
    /\ compute_digest_response example_dc "/" user_name "GET" "/dav/a,b.txt" nonce
         (req_cnonce l) (req_qop l) (req_nc l) = Ok root_expected
    /\ auth_digest_auth_request example_dc source_hotfixes example_amb environ
       = if String.eqb expected response then
           Ok (Forward (annotate environ "/dav" user_name))
         else if HOTFIX_WINXP_AcceptRootShareLogin source_hotfixes then
           if String.eqb root_expected response then
             Ok (Forward (annotate environ "/dav" user_name))
           else
             Ok (Respond (challenge example_amb
                            (digest_challenge "/dav" (make_nonce example_amb "/dav/a,b.txt"))))
         else
           Ok (Respond (challenge example_amb
                          (digest_challenge "/dav" (make_nonce example_amb "/dav/a,b.txt")))).
Proof.
  apply (digest_verdict example_dc source_hotfixes example_amb
           (request "GET" "/dav/a,b.txt" (Some root_digest_header))
           "/dav/a,b.txt" root_digest_header "GET" "/dav/a,b.txt");
    vm_compute; reflexivity.
Defined.

(** The scenario of the specification: a digest computed for the realm
    / is accepted for the realm /dav with the switch on, and rejected
    with it off. *)
Example root_share_on :
  call example_dc digest_and_basic source_hotfixes example_amb
    (request "GET" "/dav/a,b.txt" (Some root_digest_header))
  = Ok (Forward (annotate (request "GET" "/dav/a,b.txt" (Some root_digest_header))
                   "/dav" "tester")).
Proof. vm_compute. reflexivity. Qed.

Example root_share_off_rejects :
  call example_dc digest_and_basic root_share_off example_amb
    (request "GET" "/dav/a,b.txt" (Some root_digest_header))
  = Ok (Respond (challenge example_amb
                   (digest_challenge "/dav" (make_nonce example_amb "/dav/a,b.txt")))).
Proof. vm_compute. reflexivity. Qed.

(** A request that is valid so far and has no uri directive: the code
    reads [req_uri], which was never assigned. *)
Lemma missing_uri_raises
    (dc : domain_controller) (hot : hotfixes) (amb : ambient)
    (environ : gmap string string) (path auth_header method : string) :
  environ !! "PATH_INFO" = Some path ->
  environ !! "HTTP_AUTHORIZATION" = Some auth_header ->
  environ !! "REQUEST_METHOD" = Some method ->
  let realm := get_domain_realm dc path environ in
  let l := check_digest_headers dc hot realm environ (auth_header +:+ ",") in
  is_invalid_req l = false ->
  parse_auth_headers (auth_header +:+ ",") !! "uri" = None ->
  auth_digest_auth_request dc hot amb environ = Raise (UnboundLocalError "req_uri").
Proof.
  intros Hp Ha Hm realm l Hv Hu.
  destruct (valid_so_far dc hot realm environ (auth_header +:+ ",")
              (parse_auth_headers (auth_header +:+ ",")) Hv)
    as [(user_name & nonce & response & Hun & Hn & Hr) _].
  fold (check_digest_headers dc hot realm environ (auth_header +:+ ",")) in Hun.
  fold l in Hun.
  rewrite (auth_digest_auth_request_eq dc hot amb environ path auth_header Hp Ha).
  cbv zeta. fold realm. fold l. rewrite Hv. cbn [negb].
  unfold check_digest. rewrite (item_Some _ _ _ Hm). cbn [bind].
  rewrite Hun. cbn [bind as_str].
  replace (req_uri l) with (@None string) by (symmetry; exact Hu).
  reflexivity.
Qed.

(** C3, on the code: with every other directive of a valid request
    present and the uri directive missing, the call ends in an
    exception and no challenge is sent. *)
Theorem missing_uri_is_not_rejected :
  parse_auth_headers (no_uri_header +:+ ",") !! "uri" = None
  /\ is_invalid_req
       (check_digest_headers example_dc source_hotfixes "/dav"
          (request "GET" "/dav/a,b.txt" (Some no_uri_header)) (no_uri_header +:+ ","))
     = false
  /\ call example_dc digest_and_basic source_hotfixes example_amb
       (request "GET" "/dav/a,b.txt" (Some no_uri_header))
     = Raise (UnboundLocalError "req_uri").
Proof. repeat split; vm_compute; reflexivity. Qed.

(** C10.  When digest verification rejects a request, because of a
    failed check or because no digest matches, the answer is the 401
    with the Digest challenge; so it is through the gate, whatever the
    configuration says about the default scheme and about basic. *)
Theorem rejected_digest_gets_digest_challenge
    (dc : domain_controller) (cfg : config) (hot : hotfixes) (amb : ambient)
    (environ : gmap string string) (path auth_header : string) :
  environ !! "PATH_INFO" = Some path ->
  environ !! "HTTP_AUTHORIZATION" = Some auth_header ->
  let realm := get_domain_realm dc path environ in
  let l := check_digest_headers dc hot realm environ (auth_header +:+ ",") in
  is_invalid_req l = true \/ check_digest dc hot realm environ l = Ok true ->
  let answer :=
    Respond {| status := "401 Not Authorized";
               headers := [ ("WWW-Authenticate",
                             "Digest realm=" +:+
                               String dquote (realm +:+ String dquote
                                 (", nonce=" +:+ String dquote (make_nonce amb path +:+
                                    String dquote
                                      (", algorithm=MD5, qop=" +:+ String dquote
                                         ("auth" +:+ String dquote EmptyString))))));
                            ("Content-Type", "text/html");
                            ("Content-Length", "167");
                            ("Date", rfc1123_time amb) ];
               body := [error_message] |} in
  auth_digest_auth_request dc hot amb environ = Ok answer
  /\ (force_allow hot environ = Ok false ->
      require_authentication dc realm environ = true ->
      trusted_user_name cfg environ = None ->
      auth_method_of auth_header = "digest" ->
      accept_digest cfg = true ->
      call dc cfg hot amb environ = Ok answer).
Proof.
  intros Hp Ha realm l H answer.
  assert (Hd : auth_digest_auth_request dc hot amb environ = Ok answer)
    by exact (auth_digest_auth_request_rejects dc hot amb environ path auth_header Hp Ha H).
  split; [exact Hd |].
  intros Hf Hr Ht Hm Hacc.
  rewrite (call_dispatch dc cfg hot amb environ path auth_header Hp Hf Hr Ht Ha).
  cbv zeta. rewrite Hm, Hacc. exact Hd.
Qed.

Lemma rejected_digest_gets_digest_challenge_witness :
  let environ := request "GET" "/dav/a,b.txt" (Some auth_int_header) in
  let answer :=
    Respond {| status := "401 Not Authorized";
               headers := [ ("WWW-Authenticate",
                             "Digest realm=" +:+
                               String dquote ("/dav" +:+ String dquote
                                 (", nonce=" +:+ String dquote
                                    (make_nonce example_amb "/dav/a,b.txt" +:+
                                    String dquote
                                      (", algorithm=MD5, qop=" +:+ String dquote
                                         ("auth" +:+ String dquote EmptyString))))));
                            ("Content-Type", "text/html");
                            ("Content-Length", "167");
                            ("Date", rfc1123_time example_amb) ];
               body := [error_message] |} in
  auth_digest_auth_request example_dc source_hotfixes example_amb environ = Ok answer
  /\ (force_allow source_hotfixes environ = Ok false ->
      require_authentication example_dc "/dav" environ = true ->
      trusted_user_name basic_default environ = None ->
      auth_method_of auth_int_header = "digest" ->
      accept_digest basic_default = true ->
      call example_dc basic_default source_hotfixes example_amb environ = Ok answer).
Proof.
  apply (rejected_digest_gets_digest_challenge example_dc basic_default source_hotfixes
           example_amb (request "GET" "/dav/a,b.txt" (Some auth_int_header))
           "/dav/a,b.txt" auth_int_header);
    [ vm_compute; reflexivity | vm_compute; reflexivity | left; vm_compute; reflexivity ].
Defined.

(** A digest request rejected by a gate whose default scheme is basic:
    the challenge is a Digest challenge all the same. *)
Example rejected_digest_basic_default :
  call example_dc basic_default source_hotfixes example_amb
    (request "GET" "/dav/a,b.txt" (Some auth_int_header))
  = Ok (Respond (challenge example_amb
                   (digest_challenge "/dav" (make_nonce example_amb "/dav/a,b.txt")))).
Proof. vm_compute. reflexivity. Qed.

(** C6.  With a qop directive, the request is invalid unless qop is
    auth in any case of letters, and it is invalid when cnonce or nc is
    missing: the answer is then the Digest challenge.  Without a qop
    directive, the presence of cnonce and nc has no part in the
    verdict: any directives that differ from the parsed ones in cnonce
    and nc only are judged the same. *)
Theorem qop_requirements
    (dc : domain_controller) (hot : hotfixes) (amb : ambient)
    (environ : gmap string string) (path auth_header : string) :
  environ !! "PATH_INFO" = Some path ->
  environ !! "HTTP_AUTHORIZATION" = Some auth_header ->
  let realm := get_domain_realm dc path environ in
  let auth_headers := auth_header +:+ "," in
  let d := parse_auth_headers auth_headers in
  (forall q,
      d !! "qop" = Some q ->
      lower q <> "auth" \/ d !! "cnonce" = None \/ d !! "nc" = None ->
      is_invalid_req (check_digest_headers dc hot realm environ auth_headers) = true
      /\ auth_digest_auth_request dc hot amb environ
         = Ok (Respond (challenge amb (digest_challenge realm (make_nonce amb path)))))
  /\ (d !! "qop" = None ->
      forall d' : gmap string string,
        (forall key, key <> "cnonce" -> key <> "nc" -> d' !! key = d !! key) ->
        is_invalid_req (check_digest_directives dc hot realm environ auth_headers d')
        = is_invalid_req (check_digest_headers dc hot realm environ auth_headers)).
Proof.
  intros Hp Ha realm auth_headers d. split.
  - intros q Hq H.
    assert (Hi : is_invalid_req (check_digest_headers dc hot realm environ auth_headers) = true).
    { unfold check_digest_headers, check_digest_directives.
      cbn [is_invalid_req]. fold d. rewrite Hq. cbn [is_some].
      destruct H as [H | [H | H]].
      - apply String.eqb_neq in H. rewrite H. cbn [negb].
        rewrite !orb_true_l, ?orb_true_r. reflexivity.
      - rewrite H. cbn [is_some negb andb].
        rewrite !orb_true_l, ?orb_true_r. reflexivity.
      - rewrite H. cbn [is_some negb andb].
        rewrite !orb_true_l, ?orb_true_r. reflexivity. }
    split; [exact Hi |].
    apply (auth_digest_auth_request_rejects dc hot amb environ path auth_header Hp Ha).
    left. exact Hi.
  - intros Hq d' Hd'.
    unfold check_digest_headers, check_digest_directives.
    cbn [is_invalid_req]. fold d.
    rewrite (Hd' "response"), (Hd' "qop"), (Hd' "nonce"), (Hd' "algorithm"),
      (Hd' "realm"), (Hd' "username") by discriminate.
    rewrite Hq. cbn [is_some].
    rewrite !andb_false_r. reflexivity.
Qed.

Lemma qop_requirements_witness :
  (let environ := request "GET" "/dav/a,b.txt" (Some auth_int_header) in
   is_invalid_req (check_digest_headers example_dc source_hotfixes "/dav" environ
                     (auth_int_header +:+ ",")) = true
   /\ auth_digest_auth_request example_dc source_hotfixes example_amb environ
      = Ok (Respond (challenge example_amb
                       (digest_challenge "/dav" (make_nonce example_amb "/dav/a,b.txt")))))
  /\ (let environ := request "GET" "/dav/file.txt" (Some plain_digest_header) in
      let auth_headers := plain_digest_header +:+ "," in
      let d := parse_auth_headers auth_headers in
      d !! "qop" = None
      /\ forall d' : gmap string string,
           (forall key, key <> "cnonce" -> key <> "nc" -> d' !! key = d !! key) ->
           is_invalid_req (check_digest_directives example_dc source_hotfixes "/dav" environ
                             auth_headers d')
           = is_invalid_req (check_digest_headers example_dc source_hotfixes "/dav" environ
                               auth_headers)).
Proof.
  split.
  - cbv zeta.
    destruct (qop_requirements example_dc source_hotfixes example_amb
                (request "GET" "/dav/a,b.txt" (Some auth_int_header))
                "/dav/a,b.txt" auth_int_header) as [H _];
      [vm_compute; reflexivity | vm_compute; reflexivity |].
    apply (H "auth-int"); [vm_compute; reflexivity | left; vm_compute; discriminate].
  - cbv zeta. split; [vm_compute; reflexivity |].
    destruct (qop_requirements example_dc source_hotfixes example_amb
                (request "GET" "/dav/file.txt" (Some plain_digest_header))
                "/dav/file.txt" plain_digest_header) as [_ H];
      [vm_compute; reflexivity | vm_compute; reflexivity |].
    apply H. vm_compute. reflexivity.
Defined.

(** Without qop, a cnonce and an nc that come on top change nothing:
    the request of [plain_digest_header] is valid with them too. *)
Example cnonce_without_qop :
  let environ := request "GET" "/dav/file.txt" (Some plain_digest_header) in
  let auth_headers := plain_digest_header +:+ "," in
  let d := parse_auth_headers auth_headers in
  d !! "cnonce" = None
  /\ is_invalid_req (check_digest_headers example_dc source_hotfixes "/dav" environ
                       auth_headers) = false
  /\ is_invalid_req (check_digest_directives example_dc source_hotfixes "/dav" environ
                       auth_headers (<["cnonce" := "0a4f113b"]> (<["nc" := "00000001"]> d)))
     = false.
Proof. cbv zeta. repeat split; vm_compute; reflexivity. Qed.

(** A request without qop, cnonce and nc is accepted on its digest. *)
Example no_qop_is_accepted :
  call example_dc digest_and_basic source_hotfixes example_amb
    (request "GET" "/dav/file.txt" (Some plain_digest_header))
  = Ok (Forward (annotate (request "GET" "/dav/file.txt" (Some plain_digest_header))
                   "/dav" "tester")).
Proof. vm_compute. reflexivity. Qed.

(** A qop other than auth is rejected, with a digest that would match. *)
Example auth_int_is_rejected :
  parse_auth_headers (auth_int_header +:+ ",") !! "qop" = Some "auth-int"
  /\ call example_dc digest_and_basic source_hotfixes example_amb
       (request "GET" "/dav/a,b.txt" (Some auth_int_header))
     = Ok (Respond (challenge example_amb
                      (digest_challenge "/dav" (make_nonce example_amb "/dav/a,b.txt")))).
Proof. split; vm_compute; reflexivity. Qed.

(** ** The header tokenizer *)

Lemma lstrip_first (p : ascii -> bool) (s : string) (c : ascii) :
  first_char (lstrip p s) = Some c -> p c = false.
Proof.
  induction s as [|a s IH]; cbn [lstrip]; [discriminate |].
  destruct (p a) eqn:Hpa; [exact IH |].
  cbn [first_char]. intros H. inversion H. subst. exact Hpa.
Qed.

Lemma rstrip_first (p : ascii -> bool) (s : string) (c : ascii) :
  first_char (rstrip p s) = Some c -> first_char s = Some c.
Proof.
  destruct s as [|a s]; cbn [rstrip]; [discriminate |].
  destruct (rstrip p s); [destruct (p a) |]; cbn [first_char]; congruence.
Qed.

Lemma rstrip_last (p : ascii -> bool) (s : string) (c : ascii) :
  last_char (rstrip p s) = Some c -> p c = false.
Proof.
  induction s as [|a s IH]; cbn [rstrip]; [discriminate |].
  destruct (rstrip p s) as [|b r] eqn:Hr.
  - destruct (p a) eqn:Hpa; cbn [last_char]; [discriminate |].
    intros H. inversion H. subst. exact Hpa.
  - cbn [last_char]. exact IH.
Qed.

Lemma strip_chars_no_surrounding (p : ascii -> bool) (s : string) :
  no_surrounding p (strip_chars p s).
Proof.
  unfold strip_chars. split; intros c H.
  - apply rstrip_first in H. exact (lstrip_first p s c H).
  - exact (rstrip_last p _ c H).
Qed.

Lemma last_value_app (key : string) (l1 l2 : list (string * string)) :
  last_value key (l1 ++ l2)
  = match last_value key l2 with
    | Some v => Some v
    | None => last_value key l1
    end.
Proof.
  induction l1 as [|[k v] l1 IH]; cbn [app last_value].
  - destruct (last_value key l2); reflexivity.
  - rewrite IH. destruct (last_value key l2); reflexivity.
Qed.

Lemma last_value_elem (key v : string) (l : list (string * string)) :
  last_value key l = Some v -> In (key, v) l.
Proof.
  induction l as [|[k w] l IH]; cbn [last_value]; [discriminate |].
  destruct (last_value key l) as [v'|].
  - intros H. right. apply IH. exact H.
  - destruct (String.eqb k key) eqn:Hk; [|discriminate].
    apply String.eqb_eq in Hk. intros H. inversion H. subst. left. reflexivity.
Qed.

(** The dictionary after the loop: for each key, the cleaned value of
    the last pair with that key, else what the dictionary held. *)
Lemma fold_store_header_lookup
    (l : list (string * string)) (d : gmap string string) (key : string) :
  fold_left store_header l d !! key
  = match last_value key l with
    | Some v => Some (strip_quotes (strip v))
    | None => d !! key
    end.
Proof.
  revert d. induction l as [|[k v] l IH]; intros d; cbn [fold_left last_value].
  - reflexivity.
  - rewrite IH. destruct (last_value key l); [reflexivity |].
    unfold store_header. cbn [fst snd].
    destruct (String.eqb k key) eqn:Hk.
    + apply String.eqb_eq in Hk. subst. apply lookup_insert_eq.
    + apply String.eqb_neq in Hk. rewrite lookup_insert_ne by exact Hk. reflexivity.
Qed.

Lemma parse_auth_headers_lookup (auth_headers key : string) :
  parse_auth_headers auth_headers !! key
  = match last_value key (findall header_parser auth_headers
                            ++ findall header_fix_parser auth_headers) with
    | Some v => Some (strip_quotes (strip v))
    | None => None
    end.
Proof.
  unfold parse_auth_headers.
  destruct (findall header_fix_parser auth_headers) as [|m ms] eqn:Hfix.
  - rewrite app_nil_r, fold_store_header_lookup.
    destruct (last_value key (findall header_parser auth_headers)); [reflexivity |].
    apply lookup_empty.
  - rewrite fold_store_header_lookup.
    destruct (last_value key (findall header_parser auth_headers ++ m :: ms));
      [reflexivity | apply lookup_empty].
Qed.

(** C5.  When both passes of the tokenizer produce a value for a key,
    the directives hold the value of the fallback pass.  Every stored
    value is a matched value with its surrounding whitespace stripped
    and then its surrounding double quotes stripped. *)
Theorem fallback_pass_wins (auth_headers key primary fallback : string) :
  last_value key (findall header_parser auth_headers) = Some primary ->
  last_value key (findall header_fix_parser auth_headers) = Some fallback ->
  parse_auth_headers auth_headers !! key = Some (strip_quotes (strip fallback))
  /\ forall k v,
       parse_auth_headers auth_headers !! k = Some v ->
       exists raw,
         In (k, raw) (findall header_parser auth_headers
                        ++ findall header_fix_parser auth_headers)
         /\ v = strip_quotes (strip raw)
         /\ no_surrounding is_space (strip raw)
         /\ no_surrounding is_quote v.
Proof.
  intros Hprimary Hfallback. split.
  - rewrite parse_auth_headers_lookup, last_value_app, Hfallback. reflexivity.
  - intros k v Hv. rewrite parse_auth_headers_lookup in Hv.
    destruct (last_value k (findall header_parser auth_headers
                              ++ findall header_fix_parser auth_headers))
      as [raw|] eqn:Hraw; [|discriminate].
    inversion Hv. subst v. exists raw.
    split; [exact (last_value_elem k raw _ Hraw) |].
    split; [reflexivity |].
    split; apply strip_chars_no_surrounding.
Qed.

Lemma fallback_pass_wins_witness :
  parse_auth_headers (comma_header +:+ ",") !! "uri"
  = Some (strip_quotes (strip (dq "'a,b.txt'")))
  /\ forall k v,
       parse_auth_headers (comma_header +:+ ",") !! k = Some v ->
       exists raw,
         In (k, raw) (findall header_parser (comma_header +:+ ",")
                        ++ findall header_fix_parser (comma_header +:+ ","))
         /\ v = strip_quotes (strip raw)
         /\ no_surrounding is_space (strip raw)
         /\ no_surrounding is_quote v.
Proof.
  apply (fallback_pass_wins (comma_header +:+ ",") "uri" (dq "'a") (dq "'a,b.txt'"));
    vm_compute; reflexivity.
Defined.

(** The example of the comment in the source. *)
Example comma_header_passes :
  findall header_parser (comma_header +:+ ",")
  = [ ("username", dq "'user'"); ("realm", dq "'/'"); ("uri", dq "'a");
      ("nc", "00000001") ]
  /\ findall header_fix_parser (comma_header +:+ ",") = [ ("uri", dq "'a,b.txt'") ]
  /\ parse_auth_headers (comma_header +:+ ",") !! "uri" = Some "a,b.txt".
Proof. repeat split; vm_compute; reflexivity. Qed.

(** Whitespace inside the quotes is part of the value: it is stripped
    before the quotes are, not after. *)
Example whitespace_inside_quotes_is_kept :
  parse_auth_headers (dq "Digest a= ' x ' " +:+ ",") !! "a" = Some " x ".
Proof. vm_compute. reflexivity. Qed.

(** The scenario of the specification: with the uri recovered, a
    request with valid credentials is verified. *)
Example comma_uri_is_verified :
  parse_auth_headers (digest_header +:+ ",") !! "uri" = Some "/dav/a,b.txt"
  /\ call example_dc digest_and_basic source_hotfixes example_amb
       (request "GET" "/dav/a,b.txt" (Some digest_header))
     = Ok (Forward (annotate (request "GET" "/dav/a,b.txt" (Some digest_header))
                      "/dav" "tester")).
Proof. split; vm_compute; reflexivity. Qed.

(** ** Basic verification *)

Lemma auth_basic_auth_request_malformed
    (dc : domain_controller) (amb : ambient)
    (environ : gmap string string) (path auth_header : string) :
  environ !! "PATH_INFO" = Some path ->
  environ !! "HTTP_AUTHORIZATION" = Some auth_header ->
  let authvalue := strip (drop_string 6 auth_header) in
  (Base64.decodebytes (to_bytes authvalue) = None ->
   auth_basic_auth_request dc amb environ = Raise BinasciiError)
  /\ (forall payload,
         Base64.decodebytes (to_bytes authvalue) = Some payload ->
         to_native payload = Raise UnicodeDecodeError ->
         auth_basic_auth_request dc amb environ = Raise UnicodeDecodeError)
  /\ (forall payload text,
         Base64.decodebytes (to_bytes authvalue) = Some payload ->
         to_native payload = Ok text ->
         split_colon text = None ->
         auth_basic_auth_request dc amb environ = Raise ValueError).
Proof.
  intros Hp Ha authvalue. unfold auth_basic_auth_request.
  rewrite (item_Some _ _ _ Hp). cbn [bind]. rewrite (item_Some _ _ _ Ha). cbn [bind].
  change (String.length "Basic ") with 6%nat. fold authvalue.
  split; [| split].
  - intros H. rewrite H. reflexivity.
  - intros payload H Hn. rewrite H, Hn. reflexivity.
  - intros payload text H Hn Hs. rewrite H, Hn. cbn [bind]. rewrite Hs. reflexivity.
Qed.

(** C4, on the code: a Basic header whose payload is not base64, or
    decodes to a text without a colon, ends the call in an exception;
    only wrong credentials get the Basic challenge. *)
Theorem malformed_basic_is_not_challenged :
  call example_dc digest_and_basic source_hotfixes example_amb
    (request "GET" "/dav/file.txt" (Some "Basic dGVzdGVy"))
  = Raise ValueError
  /\ call example_dc digest_and_basic source_hotfixes example_amb
       (request "GET" "/dav/file.txt" (Some "Basic abc"))
     = Raise BinasciiError
  /\ call example_dc digest_and_basic source_hotfixes example_amb
       (request "GET" "/dav/file.txt" (Some "Basic"))
     = Raise ValueError
  /\ call example_dc digest_and_basic source_hotfixes example_amb
       (request "GET" "/dav/file.txt" (Some "Basic dGVzdGVyOndyb25n"))
     = Ok (Respond (challenge example_amb (basic_challenge "/dav"))).
Proof. repeat split; vm_compute; reflexivity. Qed.

Example basic_round_trip :
  call example_dc digest_and_basic source_hotfixes example_amb
    (request "GET" "/dav/file.txt" (Some "Basic dGVzdGVyOnNlY3JldA=="))
  = Ok (Forward (annotate (request "GET" "/dav/file.txt" (Some "Basic dGVzdGVyOnNlY3JldA=="))
                   "/dav" "tester")).
Proof. vm_compute. reflexivity. Qed.

(** * Further properties of the gate *)

Lemma force_allow_off (hot : hotfixes) (environ : gmap string string) :
  HOTFIX_WIN_AcceptAnonymousOptions hot = false ->
  force_allow hot environ = Ok false.
Proof. intros H. unfold force_allow. rewrite H. reflexivity. Qed.

Lemma call_protected
    (dc : domain_controller) (cfg : config) (hot : hotfixes) (amb : ambient)
    (environ : gmap string string) (path : string) :
  environ !! "PATH_INFO" = Some path ->
  force_allow hot environ = Ok false ->
  require_authentication dc (get_domain_realm dc path environ) environ = true ->
  call dc cfg hot amb environ =
    match trusted_user_name cfg environ with
    | Some user_name =>
        Ok (Forward (annotate environ (get_domain_realm dc path environ) user_name))
    | None =>
        match environ !! "HTTP_AUTHORIZATION" with
        | Some auth_header =>
            let auth_method := auth_method_of auth_header in
            if String.eqb auth_method "digest" && accept_digest cfg then
              auth_digest_auth_request dc hot amb environ
            else if String.eqb auth_method "digest" && accept_basic cfg then
              send_basic_auth_response dc amb environ
            else if String.eqb auth_method "basic" && accept_basic cfg then
              auth_basic_auth_request dc amb environ
            else if default_to_digest cfg && accept_digest cfg then
              send_digest_auth_response dc amb environ
            else if accept_basic cfg then
              send_basic_auth_response dc amb environ
            else Ok (Respond (bad_request amb))
        | None =>
            if default_to_digest cfg then send_digest_auth_response dc amb environ
            else send_basic_auth_response dc amb environ
        end
    end.
Proof.
  intros Hp Hf Hr. unfold call.
  rewrite (item_Some _ _ _ Hp). cbn [bind]. rewrite Hf. cbn [bind].
  rewrite Hr. reflexivity.
Qed.



(** A trusted header that is not configured, configured as the empty
    name, absent from the request or empty there names no user. *)
Lemma empty_trusted_header_names_no_user
    (cfg : config) (environ : gmap string string) :
  trusted_user_name cfg environ = None
  <-> (trusted_auth_header cfg = None
       \/ trusted_auth_header cfg = Some ""
       \/ exists header,
            trusted_auth_header cfg = Some header
            /\ (environ !! header = None \/ environ !! header = Some "")).
Proof.
  unfold trusted_user_name.
  destruct (trusted_auth_header cfg) as [[|c h]|] eqn:Hc.
  - split; auto.
  - destruct (environ !! String c h) as [[|u us]|] eqn:He.
    + split; [intros _ | reflexivity].
      right. right. exists (String c h). auto.
    + split; [discriminate |].
      intros [H | [H | (header & H & [H' | H'])]]; try discriminate;
        inversion H; subst; congruence.
    + split; [intros _ | reflexivity].
      right. right. exists (String c h). auto.
  - split; auto.
Qed.

(** X2.  Without an Authorization header, a request that needs
    credentials is challenged with the scheme [default_to_digest]
    names, whether or not that scheme is accepted. *)
Theorem no_authorization_header
    (dc : domain_controller) (cfg : config) (hot : hotfixes) (amb : ambient)
    (environ : gmap string string) (path : string) :
  environ !! "PATH_INFO" = Some path ->
  force_allow hot environ = Ok false ->
  require_authentication dc (get_domain_realm dc path environ) environ = true ->
  trusted_user_name cfg environ = None ->
  environ !! "HTTP_AUTHORIZATION" = None ->
  call dc cfg hot amb environ
  = Ok (Respond (challenge amb
          (if default_to_digest cfg
           then digest_challenge (get_domain_realm dc path environ) (make_nonce amb path)
           else basic_challenge (get_domain_realm dc path environ)))).
Proof.
  intros Hp Hf Hr Ht Ha.
  rewrite (call_protected dc cfg hot amb environ path Hp Hf Hr), Ht, Ha.
  destruct (default_to_digest cfg).
  - apply send_digest_auth_response_Ok. exact Hp.
  - apply send_basic_auth_response_Ok. exact Hp.
Qed.

Lemma no_authorization_header_witness :
  call example_dc no_scheme source_hotfixes example_amb (request "GET" "/dav/x" None)
  = Ok (Respond (challenge example_amb
          (if default_to_digest no_scheme
           then digest_challenge "/dav" (make_nonce example_amb "/dav/x")
           else basic_challenge "/dav"))).
Proof.
  apply (no_authorization_header example_dc no_scheme source_hotfixes example_amb
           (request "GET" "/dav/x" None) "/dav/x");
    vm_compute; reflexivity.
Defined.

(** X3.  With the anonymous-OPTIONS switch on, an OPTIONS request is
    forwarded with the empty user name, also to a realm that requires
    authentication and whatever credentials it carries. *)
Theorem anonymous_options
    (dc : domain_controller) (cfg : config) (hot : hotfixes) (amb : ambient)
    (environ : gmap string string) (path : string) :
  HOTFIX_WIN_AcceptAnonymousOptions hot = true ->
  environ !! "PATH_INFO" = Some path ->
  environ !! "REQUEST_METHOD" = Some "OPTIONS" ->
  call dc cfg hot amb environ
  = Ok (Forward (annotate environ (get_domain_realm dc path environ) "")).
Proof.
  intros Hh Hp Hm. unfold call.
  rewrite (item_Some _ _ _ Hp). cbn [bind].
  unfold force_allow. rewrite Hh, (item_Some _ _ _ Hm). reflexivity.
Qed.

Lemma anonymous_options_witness :
  call example_dc digest_and_basic anonymous_options_on example_amb
    (request "OPTIONS" "/dav/x" None)
  = Ok (Forward (annotate (request "OPTIONS" "/dav/x" None) "/dav" "")).
Proof.
  apply (anonymous_options example_dc digest_and_basic anonymous_options_on example_amb
           (request "OPTIONS" "/dav/x" None) "/dav/x");
    vm_compute; reflexivity.
Defined.

(** ** What the verifiers can return *)

(** The checks a request has passed when it is valid so far. *)
Lemma valid_so_far_checks
    (dc : domain_controller) (hot : hotfixes) (realm : string)
    (environ : gmap string string) (auth_headers : string) (d : gmap string string) :
  let l := check_digest_directives dc hot realm environ auth_headers d in
  is_invalid_req l = false ->
  startswith (strip (lower auth_headers)) "digest" = true
  /\ (exists user_name,
         req_username l = Some user_name
         /\ is_realm_user dc realm user_name environ = true)
  /\ (forall r, d !! "realm" = Some r ->
         upper r = upper realm
         \/ (HOTFIX_WINXP_AcceptRootShareLogin hot = true /\ r = "/"))
  /\ (forall a, d !! "algorithm" = Some a -> upper a = code_points "MD5").
Proof.
  cbv zeta. unfold check_digest_directives. cbn [is_invalid_req req_username].
  intros H.
  repeat (apply orb_false_elim in H; destruct H as [? H]).
  repeat match goal with
         | Hx : negb _ = false |- _ => apply negb_false_iff in Hx
         end.
  split; [assumption |].
  split.
  - destruct (d !! "username") as [u|]; [|discriminate].
    eexists. split; [reflexivity |].
    match goal with
    | Hx : negb (is_realm_user _ _ _ _) = false |- _ => apply negb_false_iff in Hx; exact Hx
    | Hx : is_realm_user _ _ _ _ = true |- _ => exact Hx
    end.
  - split.
    + intros r Hr.
      match goal with
      | Hx : match d !! "realm" with _ => _ end = false |- _ => rewrite Hr in Hx;
          apply andb_false_iff in Hx; destruct Hx as [Hx | Hx];
          apply negb_false_iff in Hx; rename Hx into Hrealm
      end.
      * left. apply points_eqb_eq. assumption.
      * right.
        match goal with
        | Hy : _ && String.eqb r "/" = true |- _ =>
            apply andb_true_iff in Hy; destruct Hy as [Hh He];
            apply String.eqb_eq in He; auto
        end.
    + intros a Ha'.
      match goal with
      | Hx : match d !! "algorithm" with _ => _ end = false |- _ => rewrite Ha' in Hx;
          apply negb_false_iff, points_eqb_eq in Hx; exact Hx
      end.
Qed.

(** The comparison of the digests for a request that is valid so far:
    it ends in the exception of the missing uri, or in the verdict of
    the two digests. *)
Lemma check_digest_valid
    (dc : domain_controller) (hot : hotfixes) (realm : string)
    (environ : gmap string string) (auth_headers method : string)
    (d : gmap string string) :
  let l := check_digest_directives dc hot realm environ auth_headers d in
  is_invalid_req l = false ->
  environ !! "REQUEST_METHOD" = Some method ->
  (req_uri l = None
   /\ check_digest dc hot realm environ l = Raise (UnboundLocalError "req_uri"))
  \/ exists user_name uri nonce response expected root_expected,
       req_username l = Some user_name
       /\ req_uri l = Some uri
       /\ req_nonce l = Some nonce
       /\ req_response l = Some response
       /\ compute_digest_response dc realm user_name method uri nonce
            (req_cnonce l) (req_qop l) (req_nc l) = Ok expected
       /\ compute_digest_response dc "/" user_name method uri nonce
            (req_cnonce l) (req_qop l) (req_nc l) = Ok root_expected
       /\ check_digest dc hot realm environ l
          = Ok (negb (String.eqb expected response)
                && negb (HOTFIX_WINXP_AcceptRootShareLogin hot
                         && String.eqb root_expected response)).
Proof.
  intros l Hv Hm.
  destruct (valid_so_far dc hot realm environ auth_headers d Hv)
    as [(user_name & nonce & response & Hun & Hn & Hr) _].
  fold l in Hun, Hn, Hr.
  unfold check_digest. rewrite (item_Some _ _ _ Hm). cbn [bind].
  rewrite Hun. cbn [bind as_str].
  destruct (req_uri l) as [uri|] eqn:Hu; [| left; split; reflexivity].
  right. cbn [bind local]. rewrite Hn. cbn [bind local].
  destruct (valid_so_far_digest dc hot realm environ auth_headers d realm user_name
              method uri nonce Hv) as [expected He].
  destruct (valid_so_far_digest dc hot realm environ auth_headers d "/" user_name
              method uri nonce Hv) as [root_expected Hre].
  fold l in He, Hre.
  exists user_name, uri, nonce, response, expected, root_expected.
  repeat (split; [first [assumption | reflexivity] |]).
  rewrite He. cbn [bind]. rewrite Hr. cbn [bind local].
  destruct (String.eqb expected response); cbn [negb andb]; [reflexivity |].
  destruct (HOTFIX_WINXP_AcceptRootShareLogin hot); cbn [andb negb]; [| reflexivity].
  rewrite Hre. cbn [bind].
  destruct (String.eqb root_expected response); reflexivity.
Qed.

(** Every way [auth_digest_auth_request] can end. *)
Lemma auth_digest_auth_request_cases
    (dc : domain_controller) (hot : hotfixes) (amb : ambient)
    (environ : gmap string string) (path auth_header method : string) :
  environ !! "PATH_INFO" = Some path ->
  environ !! "HTTP_AUTHORIZATION" = Some auth_header ->
  environ !! "REQUEST_METHOD" = Some method ->
  let realm := get_domain_realm dc path environ in
  let l := check_digest_headers dc hot realm environ (auth_header +:+ ",") in
  (is_invalid_req l = false /\ req_uri l = None
   /\ auth_digest_auth_request dc hot amb environ = Raise (UnboundLocalError "req_uri"))
  \/ auth_digest_auth_request dc hot amb environ
     = Ok (Respond (challenge amb (digest_challenge realm (make_nonce amb path))))
  \/ exists user_name uri nonce response digest,
       is_invalid_req l = false
       /\ req_username l = Some user_name
       /\ req_uri l = Some uri
       /\ req_nonce l = Some nonce
       /\ req_response l = Some response
       /\ (compute_digest_response dc realm user_name method uri nonce
             (req_cnonce l) (req_qop l) (req_nc l) = Ok digest
           \/ (HOTFIX_WINXP_AcceptRootShareLogin hot = true
               /\ compute_digest_response dc "/" user_name method uri nonce
                    (req_cnonce l) (req_qop l) (req_nc l) = Ok digest))
       /\ digest = response
       /\ auth_digest_auth_request dc hot amb environ
          = Ok (Forward (annotate environ realm user_name)).
Proof.
  intros Hp Ha Hm realm l.
  destruct (is_invalid_req l) eqn:Hv.
  { right. left.
    apply (auth_digest_auth_request_rejects dc hot amb environ path auth_header Hp Ha).
    left. exact Hv. }
  destruct (check_digest_valid dc hot realm environ (auth_header +:+ ",") method
              (parse_auth_headers (auth_header +:+ ",")) Hv Hm)
    as [[Hu Hc] | (user_name & uri & nonce & response & expected & root_expected
                   & Hun & Hu & Hn & Hr & He & Hre & Hc)].
  - fold (check_digest_headers dc hot realm environ (auth_header +:+ ",")) in Hu, Hc.
    fold l in Hu, Hc.
    left. repeat split; try assumption.
    rewrite (auth_digest_auth_request_eq dc hot amb environ path auth_header Hp Ha).
    cbv zeta. fold realm. fold l. rewrite Hv. cbn [negb]. rewrite Hc. reflexivity.
  - fold (check_digest_headers dc hot realm environ (auth_header +:+ ","))
      in Hun, Hu, Hn, Hr, He, Hre, Hc.
    fold l in Hun, Hu, Hn, Hr, He, Hre, Hc.
    right.
    assert (Hreq : auth_digest_auth_request dc hot amb environ
                   = if negb (String.eqb expected response)
                        && negb (HOTFIX_WINXP_AcceptRootShareLogin hot
                                 && String.eqb root_expected response)
                     then send_digest_auth_response dc amb environ
                     else Ok (Forward (annotate environ realm user_name))).
    { rewrite (auth_digest_auth_request_eq dc hot amb environ path auth_header Hp Ha).
      cbv zeta. fold realm. fold l. rewrite Hv. cbn [negb]. rewrite Hc. cbn [bind].
      destruct (negb (String.eqb expected response)
                && negb (HOTFIX_WINXP_AcceptRootShareLogin hot
                         && String.eqb root_expected response)); [reflexivity |].
      rewrite Hun. reflexivity. }
    destruct (String.eqb expected response) eqn:Hee; cbn [negb andb] in Hreq.
    + right. exists user_name, uri, nonce, response, expected.
      apply String.eqb_eq in Hee. repeat (split; [first [assumption | auto] |]).
      exact Hreq.
    + destruct (HOTFIX_WINXP_AcceptRootShareLogin hot) eqn:Hh; cbn [negb andb] in Hreq.
      * destruct (String.eqb root_expected response) eqn:Hrr; cbn [negb] in Hreq.
        -- right. exists user_name, uri, nonce, response, root_expected.
           apply String.eqb_eq in Hrr. repeat (split; [first [assumption | auto] |]).
           exact Hreq.
        -- left. rewrite Hreq. apply send_digest_auth_response_Ok. exact Hp.
      * left. rewrite Hreq. apply send_digest_auth_response_Ok. exact Hp.
Qed.

(** Every way [auth_basic_auth_request] can end. *)
Lemma auth_basic_auth_request_cases
    (dc : domain_controller) (amb : ambient)
    (environ : gmap string string) (path auth_header : string) :
  environ !! "PATH_INFO" = Some path ->
  environ !! "HTTP_AUTHORIZATION" = Some auth_header ->
  let realm := get_domain_realm dc path environ in
  let authvalue := strip (drop_string 6 auth_header) in
  (Base64.decodebytes (to_bytes authvalue) = None
   /\ auth_basic_auth_request dc amb environ = Raise BinasciiError)
  \/ (exists payload e,
         Base64.decodebytes (to_bytes authvalue) = Some payload
         /\ to_native payload = Raise e
         /\ (e = UnicodeDecodeError \/ e = OutOfRange)
         /\ auth_basic_auth_request dc amb environ = Raise e)
  \/ (exists payload text,
         Base64.decodebytes (to_bytes authvalue) = Some payload
         /\ to_native payload = Ok text /\ split_colon text = None
         /\ auth_basic_auth_request dc amb environ = Raise ValueError)
  \/ exists payload text user_name password,
       Base64.decodebytes (to_bytes authvalue) = Some payload
       /\ to_native payload = Ok text
       /\ split_colon text = Some (user_name, password)
       /\ auth_basic_auth_request dc amb environ
          = if auth_domain_user dc realm user_name password environ
            then Ok (Forward (annotate environ realm user_name))
            else Ok (Respond (challenge amb (basic_challenge realm))).
Proof.
  intros Hp Ha realm authvalue. unfold auth_basic_auth_request.
  rewrite (item_Some _ _ _ Hp). cbn [bind]. rewrite (item_Some _ _ _ Ha). cbn [bind].
  change (String.length "Basic ") with 6%nat. fold authvalue. fold realm.
  destruct (Base64.decodebytes (to_bytes authvalue)) as [payload|];
    [| left; split; reflexivity].
  right. destruct (to_native payload) as [text|e] eqn:Hn; cbn [bind].
  2:{ left. exists payload, e.
      assert (He : e = UnicodeDecodeError \/ e = OutOfRange).
      { unfold to_native in Hn.
        destruct (utf8_decode (bytes_of_string payload)) as [points|].
        - destruct (forallb (fun p => p <? 256) points); [discriminate |].
          inversion Hn. now right.
        - inversion Hn. now left. }
      auto. }
  right. destruct (split_colon text) as [[user_name password]|] eqn:Hs.
  - right. exists payload, text, user_name, password.
    repeat (split; [first [assumption | reflexivity] |]).
    destruct (auth_domain_user dc realm user_name password environ); [reflexivity |].
    apply send_basic_auth_response_Ok. exact Hp.
  - left. exists payload, text. repeat split; assumption.
Qed.

Lemma auth_digest_auth_request_Ok
    (dc : domain_controller) (hot : hotfixes) (amb : ambient)
    (environ : gmap string string) (o : outcome) :
  auth_digest_auth_request dc hot amb environ = Ok o ->
  exists path,
    environ !! "PATH_INFO" = Some path
    /\ ((exists user_name,
            o = Forward (annotate environ (get_domain_realm dc path environ) user_name))
        \/ o = Respond (challenge amb
                 (digest_challenge (get_domain_realm dc path environ) (make_nonce amb path)))).
Proof.
  unfold auth_digest_auth_request, item.
  destruct (environ !! "PATH_INFO") as [path|] eqn:Hp; cbn [bind]; [|discriminate].
  destruct (environ !! "HTTP_AUTHORIZATION") as [auth_header|]; cbn [bind]; [|discriminate].
  intros H. exists path. split; [reflexivity |].
  match type of H with
  | bind ?m _ = _ => destruct m as [[|]|e]; cbn [bind] in H; [| | discriminate]
  end.
  - right. rewrite (send_digest_auth_response_Ok dc amb environ path Hp) in H.
    inversion H. reflexivity.
  - left.
    match type of H with
    | bind ?m _ = _ => destruct m as [user_name|e]; cbn [bind] in H; [| discriminate]
    end.
    inversion H. eauto.
Qed.

Lemma auth_basic_auth_request_Ok
    (dc : domain_controller) (amb : ambient)
    (environ : gmap string string) (o : outcome) :
  auth_basic_auth_request dc amb environ = Ok o ->
  exists path,
    environ !! "PATH_INFO" = Some path
    /\ ((exists user_name,
            o = Forward (annotate environ (get_domain_realm dc path environ) user_name))
        \/ o = Respond (challenge amb (basic_challenge (get_domain_realm dc path environ)))).
Proof.
  unfold auth_basic_auth_request, item.
  destruct (environ !! "PATH_INFO") as [path|] eqn:Hp; cbn [bind]; [|discriminate].
  destruct (environ !! "HTTP_AUTHORIZATION") as [auth_header|]; cbn [bind]; [|discriminate].
  intros H. exists path. split; [reflexivity |].
  match type of H with
  | match ?m with _ => _ end = _ => destruct m as [payload|]; [| discriminate]
  end.
  destruct (to_native payload) as [text|e]; cbn [bind] in H; [| discriminate].
  destruct (split_colon text) as [[user_name password]|]; [| discriminate].
  destruct (auth_domain_user dc (get_domain_realm dc path environ) user_name password environ).
  - left. inversion H. eauto.
  - right. rewrite (send_basic_auth_response_Ok dc amb environ path Hp) in H.
    inversion H. reflexivity.
Qed.

(** Every result of [__call__] that is not an exception. *)
Lemma call_Ok
    (dc : domain_controller) (cfg : config) (hot : hotfixes) (amb : ambient)
    (environ : gmap string string) (o : outcome) :
  call dc cfg hot amb environ = Ok o ->
  exists path,
    environ !! "PATH_INFO" = Some path
    /\ ((exists user_name,
            o = Forward (annotate environ (get_domain_realm dc path environ) user_name))
        \/ o = Respond (challenge amb (basic_challenge (get_domain_realm dc path environ)))
        \/ o = Respond (challenge amb
                 (digest_challenge (get_domain_realm dc path environ) (make_nonce amb path)))
        \/ o = Respond (bad_request amb)).
Proof.
  intros H.
  assert (Hb : forall o', send_basic_auth_response dc amb environ = Ok o' ->
            exists path, environ !! "PATH_INFO" = Some path
              /\ o' = Respond (challenge amb (basic_challenge (get_domain_realm dc path environ)))).
  { unfold send_basic_auth_response, item. intros o'.
    destruct (environ !! "PATH_INFO") as [p|]; cbn [bind]; [| discriminate].
    intros Ho. inversion Ho. eauto. }
  assert (Hd : forall o', send_digest_auth_response dc amb environ = Ok o' ->
            exists path, environ !! "PATH_INFO" = Some path
              /\ o' = Respond (challenge amb
                   (digest_challenge (get_domain_realm dc path environ) (make_nonce amb path)))).
  { unfold send_digest_auth_response, item. intros o'.
    destruct (environ !! "PATH_INFO") as [p|]; cbn [bind]; [| discriminate].
    intros Ho. inversion Ho. eauto. }
  unfold call, item in H.
  destruct (environ !! "PATH_INFO") as [path|] eqn:Hp; cbn [bind] in H; [| discriminate].
  exists path. split; [reflexivity |].
  destruct (force_allow hot environ) as [fa|e]; cbn [bind] in H; [| discriminate].
  destruct (fa || negb (require_authentication dc (get_domain_realm dc path environ) environ)).
  { left. inversion H. eauto. }
  destruct (trusted_user_name cfg environ) as [u|].
  { left. inversion H. eauto. }
  assert (Hbasic : send_basic_auth_response dc amb environ = Ok o ->
            o = Respond (challenge amb (basic_challenge (get_domain_realm dc path environ)))).
  { intros Ho. destruct (Hb o Ho) as (p & Hp' & ->).
    inversion Hp'. reflexivity. }
  assert (Hdigest : send_digest_auth_response dc amb environ = Ok o ->
            o = Respond (challenge amb
                  (digest_challenge (get_domain_realm dc path environ) (make_nonce amb path)))).
  { intros Ho. destruct (Hd o Ho) as (p & Hp' & ->).
    inversion Hp'. reflexivity. }
  destruct (environ !! "HTTP_AUTHORIZATION") as [auth_header|].
  - cbv zeta in H.
    destruct (String.eqb (auth_method_of auth_header) "digest" && accept_digest cfg).
    { destruct (auth_digest_auth_request_Ok dc hot amb environ o H) as (p & Hp' & Ho).
      rewrite Hp in Hp'. inversion Hp'. subst p.
      destruct Ho as [Ho | Ho]; auto. }
    destruct (String.eqb (auth_method_of auth_header) "digest" && accept_basic cfg).
    { right. left. auto. }
    destruct (String.eqb (auth_method_of auth_header) "basic" && accept_basic cfg).
    { destruct (auth_basic_auth_request_Ok dc amb environ o H) as (p & Hp' & Ho).
      rewrite Hp in Hp'. inversion Hp'. subst p.
      destruct Ho as [Ho | Ho]; auto. }
    destruct (default_to_digest cfg && accept_digest cfg).
    { right. right. left. auto. }
    destruct (accept_basic cfg).
    { right. left. auto. }
    right. right. right. inversion H. reflexivity.
  - destruct (default_to_digest cfg).
    + right. right. left. auto.
    + right. left. auto.
Qed.

(** X4.  A forwarded request carries the environ it came with and the
    two annotations: the realm resolved for its path and a user name;
    no other key is added, changed or removed. *)
Theorem forward_only_annotates
    (dc : domain_controller) (cfg : config) (hot : hotfixes) (amb : ambient)
    (environ environ' : gmap string string) :
  call dc cfg hot amb environ = Ok (Forward environ') ->
  exists path user_name,
    environ !! "PATH_INFO" = Some path
    /\ environ' !! "http_authenticator.realm" = Some (get_domain_realm dc path environ)
    /\ environ' !! "http_authenticator.user_name" = Some user_name
    /\ forall key,
         key <> "http_authenticator.realm" ->
         key <> "http_authenticator.user_name" ->
         environ' !! key = environ !! key.
Proof.
  intros H.
  destruct (call_Ok dc cfg hot amb environ _ H) as (path & Hp & Ho).
  destruct Ho as [[user_name Ho] | [Ho | [Ho | Ho]]]; try discriminate.
  inversion Ho. subst environ'.
  exists path, user_name.
  split; [exact Hp |].
  split; [apply annotate_realm |].
  split; [apply annotate_user_name |].
  intros key Hr Hu. unfold annotate.
  rewrite lookup_insert_ne by congruence.
  rewrite lookup_insert_ne by congruence. reflexivity.
Qed.

Lemma forward_only_annotates_witness :
  exists path user_name,
    request "GET" "/dav/a,b.txt" (Some digest_header) !! "PATH_INFO" = Some path
    /\ annotate (request "GET" "/dav/a,b.txt" (Some digest_header)) "/dav" "tester"
         !! "http_authenticator.realm"
       = Some (get_domain_realm example_dc path
                 (request "GET" "/dav/a,b.txt" (Some digest_header)))
    /\ annotate (request "GET" "/dav/a,b.txt" (Some digest_header)) "/dav" "tester"
         !! "http_authenticator.user_name" = Some user_name
    /\ forall key,
         key <> "http_authenticator.realm" ->
         key <> "http_authenticator.user_name" ->
         annotate (request "GET" "/dav/a,b.txt" (Some digest_header)) "/dav" "tester" !! key
         = request "GET" "/dav/a,b.txt" (Some digest_header) !! key.
Proof.
  apply (forward_only_annotates example_dc digest_and_basic source_hotfixes example_amb
           (request "GET" "/dav/a,b.txt" (Some digest_header))).
  vm_compute. reflexivity.
Defined.

(** X5.  Every answer the gate gives itself is a 400 or a 401; its
    Content-Length is the length of its body and its Date is the time
    of the call; a 401 carries the Basic or the Digest challenge for the
    realm of the path. *)
Theorem responses_are_well_formed
    (dc : domain_controller) (cfg : config) (hot : hotfixes) (amb : ambient)
    (environ : gmap string string) (r : response) :
  call dc cfg hot amb environ = Ok (Respond r) ->
  header_value "Content-Length" (headers r) = Some (str_of_nat (body_length r))
  /\ header_value "Date" (headers r) = Some (rfc1123_time amb)
  /\ ((status r = "400 Bad Request"
       /\ header_value "WWW-Authenticate" (headers r) = None
       /\ body_length r = 0%nat)
      \/ (status r = "401 Not Authorized"
          /\ body r = [error_message]
          /\ exists path,
               environ !! "PATH_INFO" = Some path
               /\ (header_value "WWW-Authenticate" (headers r)
                   = Some (basic_challenge (get_domain_realm dc path environ))
                   \/ header_value "WWW-Authenticate" (headers r)
                      = Some (digest_challenge (get_domain_realm dc path environ)
                                (make_nonce amb path))))).
Proof.
  intros H.
  destruct (call_Ok dc cfg hot amb environ _ H) as (path & Hp & Ho).
  destruct Ho as [[user_name Ho] | [Ho | [Ho | Ho]]]; try discriminate;
    inversion Ho; subst r.
  - repeat split; try reflexivity. right. repeat split; try reflexivity.
    exists path. split; [exact Hp | left; reflexivity].
  - repeat split; try reflexivity. right. repeat split; try reflexivity.
    exists path. split; [exact Hp | right; reflexivity].
  - repeat split; try reflexivity. left. repeat split; reflexivity.
Qed.

Lemma responses_are_well_formed_witness :
  let r := challenge example_amb
             (digest_challenge "/dav" (make_nonce example_amb "/dav/a,b.txt")) in
  header_value "Content-Length" (headers r) = Some (str_of_nat (body_length r))
  /\ header_value "Date" (headers r) = Some (rfc1123_time example_amb)
  /\ ((status r = "400 Bad Request"
       /\ header_value "WWW-Authenticate" (headers r) = None
       /\ body_length r = 0%nat)
      \/ (status r = "401 Not Authorized"
          /\ body r = [error_message]
          /\ exists path,
               request "GET" "/dav/a,b.txt" (Some auth_int_header) !! "PATH_INFO" = Some path
               /\ (header_value "WWW-Authenticate" (headers r)
                   = Some (basic_challenge
                             (get_domain_realm example_dc path
                                (request "GET" "/dav/a,b.txt" (Some auth_int_header))))
                   \/ header_value "WWW-Authenticate" (headers r)
                      = Some (digest_challenge
                                (get_domain_realm example_dc path
                                   (request "GET" "/dav/a,b.txt" (Some auth_int_header)))
                                (make_nonce example_amb path))))).
Proof.
  apply (responses_are_well_formed example_dc basic_default source_hotfixes example_amb
           (request "GET" "/dav/a,b.txt" (Some auth_int_header))).
  vm_compute. reflexivity.
Defined.

(** X6.  A request in the scope of the embedding, to a realm that
    requires authentication, not let through as an anonymous OPTIONS
    request and not vouched for by a trusted header, is forwarded only
    with verified credentials: basic
    credentials, the UTF-8 text of the payload split at its first
    colon, that the domain controller accepts, with basic accepted; or,
    with digest accepted, a realm user whose response directive equals
    the digest computed for the realm (or for the realm / with the
    root-share switch on).  The user name annotated is the verified
    one. *)
Theorem forward_needs_credentials
    (dc : domain_controller) (cfg : config) (hot : hotfixes) (amb : ambient)
    (environ environ' : gmap string string) (path method : string) :
  environ !! "PATH_INFO" = Some path ->
  environ !! "REQUEST_METHOD" = Some method ->
  force_allow hot environ = Ok false ->
  require_authentication dc (get_domain_realm dc path environ) environ = true ->
  trusted_user_name cfg environ = None ->
  in_scope environ = true ->
  call dc cfg hot amb environ = Ok (Forward environ') ->
  let realm := get_domain_realm dc path environ in
  exists auth_header user_name,
    environ !! "HTTP_AUTHORIZATION" = Some auth_header
    /\ environ' = annotate environ realm user_name
    /\ ((auth_method_of auth_header = "basic"
         /\ accept_basic cfg = true
         /\ exists payload text password,
              Base64.decodebytes (to_bytes (strip (drop_string 6 auth_header))) = Some payload
              /\ to_native payload = Ok text
              /\ split_colon text = Some (user_name, password)
              /\ auth_domain_user dc realm user_name password environ = true)
        \/ (auth_method_of auth_header = "digest"
            /\ accept_digest cfg = true
            /\ is_realm_user dc realm user_name environ = true
            /\ let l := check_digest_headers dc hot realm environ (auth_header +:+ ",") in
               exists uri nonce response,
                 req_username l = Some user_name
                 /\ req_uri l = Some uri
                 /\ req_nonce l = Some nonce
                 /\ req_response l = Some response
                 /\ (compute_digest_response dc realm user_name method uri nonce
                       (req_cnonce l) (req_qop l) (req_nc l) = Ok response
                     \/ (HOTFIX_WINXP_AcceptRootShareLogin hot = true
                         /\ compute_digest_response dc "/" user_name method uri nonce
                              (req_cnonce l) (req_qop l) (req_nc l) = Ok response)))).
Proof.
  intros Hp Hm Hf Hr Ht _ H realm.
  rewrite (call_protected dc cfg hot amb environ path Hp Hf Hr), Ht in H.
  destruct (environ !! "HTTP_AUTHORIZATION") as [auth_header|] eqn:Ha.
  2:{ destruct (default_to_digest cfg).
      - rewrite (send_digest_auth_response_Ok dc amb environ path Hp) in H. discriminate.
      - rewrite (send_basic_auth_response_Ok dc amb environ path Hp) in H. discriminate. }
  exists auth_header. cbv zeta in H.
  destruct (String.eqb (auth_method_of auth_header) "digest") eqn:Hdig; cbn [andb] in H.
  - apply String.eqb_eq in Hdig.
    destruct (accept_digest cfg) eqn:Had.
    + destruct (auth_digest_auth_request_cases dc hot amb environ path auth_header method
                  Hp Ha Hm)
        as [(_ & _ & Hx) | [Hx | (user_name & uri & nonce & response & digest & Hv & Hun
                                  & Hu & Hn & Hre & Hd & He & Hx)]];
        rewrite Hx in H; try discriminate.
      inversion H. subst digest.
      exists user_name. split; [reflexivity |]. split; [reflexivity |].
      right. split; [exact Hdig |]. split; [reflexivity |].
      destruct (valid_so_far_checks dc hot (get_domain_realm dc path environ) environ
                  (auth_header +:+ ",") (parse_auth_headers (auth_header +:+ ",")) Hv)
        as (_ & (u & Hu' & Hiu) & _).
      fold (check_digest_headers dc hot (get_domain_realm dc path environ) environ
              (auth_header +:+ ",")) in Hu'.
      rewrite Hun in Hu'. inversion Hu'. subst u.
      split; [exact Hiu |].
      cbv zeta. exists uri, nonce, response. auto 10.
    + destruct (accept_basic cfg).
      * rewrite (send_basic_auth_response_Ok dc amb environ path Hp) in H. discriminate.
      * rewrite !andb_false_r in H. discriminate.
  - destruct (String.eqb (auth_method_of auth_header) "basic") eqn:Hbas; cbn [andb] in H.
    + apply String.eqb_eq in Hbas.
      destruct (accept_basic cfg) eqn:Hab.
      * destruct (auth_basic_auth_request_cases dc amb environ path auth_header Hp Ha)
          as [[_ Hx] | [(payload & e & _ & _ & _ & Hx) | [(payload & text & _ & _ & _ & Hx)
               | (payload & text & user_name & password & Hd & Hn & Hs & Hx)]]];
          rewrite Hx in H; try discriminate.
        destruct (auth_domain_user dc (get_domain_realm dc path environ) user_name
                    password environ) eqn:Hau; [| discriminate].
        inversion H.
        exists user_name. split; [reflexivity |]. split; [reflexivity |].
        left. split; [exact Hbas |]. split; [reflexivity |].
        exists payload, text, password. auto.
      * destruct (default_to_digest cfg && accept_digest cfg).
        -- rewrite (send_digest_auth_response_Ok dc amb environ path Hp) in H. discriminate.
        -- discriminate.
    + destruct (default_to_digest cfg && accept_digest cfg).
      * rewrite (send_digest_auth_response_Ok dc amb environ path Hp) in H. discriminate.
      * destruct (accept_basic cfg).
        -- rewrite (send_basic_auth_response_Ok dc amb environ path Hp) in H. discriminate.
        -- discriminate.
Qed.

Lemma forward_needs_credentials_witness :
  let environ := request "GET" "/dav/file.txt" (Some "Basic dGVzdGVyOnNlY3JldA==") in
  let environ' := annotate environ "/dav" "tester" in
  let realm := get_domain_realm example_dc "/dav/file.txt" environ in
  exists auth_header user_name,
    environ !! "HTTP_AUTHORIZATION" = Some auth_header
    /\ environ' = annotate environ realm user_name
    /\ ((auth_method_of auth_header = "basic"
         /\ accept_basic digest_and_basic = true
         /\ exists payload text password,
              Base64.decodebytes (to_bytes (strip (drop_string 6 auth_header))) = Some payload
              /\ to_native payload = Ok text
              /\ split_colon text = Some (user_name, password)
              /\ auth_domain_user example_dc realm user_name password environ = true)
        \/ (auth_method_of auth_header = "digest"
            /\ accept_digest digest_and_basic = true
            /\ is_realm_user example_dc realm user_name environ = true
            /\ let l := check_digest_headers example_dc source_hotfixes realm environ
                          (auth_header +:+ ",") in
               exists uri nonce response,
                 req_username l = Some user_name
                 /\ req_uri l = Some uri
                 /\ req_nonce l = Some nonce
                 /\ req_response l = Some response
                 /\ (compute_digest_response example_dc realm user_name "GET" uri nonce
                       (req_cnonce l) (req_qop l) (req_nc l) = Ok response
                     \/ (HOTFIX_WINXP_AcceptRootShareLogin source_hotfixes = true
                         /\ compute_digest_response example_dc "/" user_name "GET" uri nonce
                              (req_cnonce l) (req_qop l) (req_nc l) = Ok response)))).
Proof.
  apply (forward_needs_credentials example_dc digest_and_basic source_hotfixes example_amb
           (request "GET" "/dav/file.txt" (Some "Basic dGVzdGVyOnNlY3JldA=="))
           (annotate (request "GET" "/dav/file.txt" (Some "Basic dGVzdGVyOnNlY3JldA=="))
              "/dav" "tester")
           "/dav/file.txt" "GET");
    vm_compute; reflexivity.
Defined.

(** X7.  Among the requests that need credentials, the answer is 400
    exactly for those with an Authorization header when basic is not
    accepted and digest is not accepted either, or is accepted but is
    neither the scheme the header names nor the default. *)
Theorem bad_request_exactly
    (dc : domain_controller) (cfg : config) (hot : hotfixes) (amb : ambient)
    (environ : gmap string string) (path : string) :
  environ !! "PATH_INFO" = Some path ->
  force_allow hot environ = Ok false ->
  require_authentication dc (get_domain_realm dc path environ) environ = true ->
  trusted_user_name cfg environ = None ->
  (call dc cfg hot amb environ
   = Ok (Respond {| status := "400 Bad Request";
                    headers := [ ("Content-Length", "0"); ("Date", rfc1123_time amb) ];
                    body := [""] |})
   <-> exists auth_header,
         environ !! "HTTP_AUTHORIZATION" = Some auth_header
         /\ accept_basic cfg = false
         /\ (accept_digest cfg = false
             \/ (auth_method_of auth_header <> "digest" /\ default_to_digest cfg = false))).
Proof.
  intros Hp Hf Hr Ht.
  rewrite (call_protected dc cfg hot amb environ path Hp Hf Hr), Ht.
  destruct (environ !! "HTTP_AUTHORIZATION") as [auth_header|] eqn:Ha.
  2:{ split.
      - destruct (default_to_digest cfg).
        + rewrite (send_digest_auth_response_Ok dc amb environ path Hp). discriminate.
        + rewrite (send_basic_auth_response_Ok dc amb environ path Hp). discriminate.
      - intros (h & Hh & _). discriminate. }
  cbv zeta.
  rewrite (send_basic_auth_response_Ok dc amb environ path Hp).
  rewrite (send_digest_auth_response_Ok dc amb environ path Hp).
  destruct (accept_basic cfg) eqn:Hab.
  - split.
    + rewrite !andb_true_r.
      destruct (String.eqb (auth_method_of auth_header) "digest"); cbn [andb].
      * destruct (accept_digest cfg).
        -- intros H.
           destruct (auth_digest_auth_request_Ok dc hot amb environ _ H)
             as (p & _ & [[u Hu] | Hu]); discriminate.
        -- discriminate.
      * destruct (String.eqb (auth_method_of auth_header) "basic").
        -- intros H.
           destruct (auth_basic_auth_request_Ok dc amb environ _ H)
             as (p & _ & [[u Hu] | Hu]); discriminate.
        -- destruct (default_to_digest cfg && accept_digest cfg); discriminate.
    + intros (h & _ & Hx & _). discriminate.
  - rewrite !andb_false_r.
    destruct (accept_digest cfg) eqn:Had.
    + rewrite !andb_true_r.
      destruct (String.eqb (auth_method_of auth_header) "digest") eqn:Hdig.
      * split.
        -- intros H.
           destruct (auth_digest_auth_request_Ok dc hot amb environ _ H)
             as (p & _ & [[u Hu] | Hu]); discriminate.
        -- intros (h & Hh & _ & [Hx | [Hx _]]); [discriminate |].
           inversion Hh. subst h. apply String.eqb_eq in Hdig. contradiction.
      * apply String.eqb_neq in Hdig.
        destruct (default_to_digest cfg).
        -- split; [discriminate |].
           intros (h & _ & _ & [Hx | [_ Hx]]); discriminate.
        -- split; [| reflexivity].
           intros _. exists auth_header. auto.
    + rewrite !andb_false_r. split; [| reflexivity].
      intros _. exists auth_header. auto.
Qed.

Lemma bad_request_exactly_witness :
  call example_dc digest_only source_hotfixes example_amb
    (request "GET" "/dav/x" (Some "Basic dGVzdGVyOnNlY3JldA=="))
  = Ok (Respond {| status := "400 Bad Request";
                   headers := [ ("Content-Length", "0");
                                ("Date", rfc1123_time example_amb) ];
                   body := [""] |})
  <-> exists auth_header,
        request "GET" "/dav/x" (Some "Basic dGVzdGVyOnNlY3JldA==") !! "HTTP_AUTHORIZATION"
        = Some auth_header
        /\ accept_basic digest_only = false
        /\ (accept_digest digest_only = false
            \/ (auth_method_of auth_header <> "digest"
                /\ default_to_digest digest_only = false)).
Proof.
  apply (bad_request_exactly example_dc digest_only source_hotfixes example_amb
           (request "GET" "/dav/x" (Some "Basic dGVzdGVyOnNlY3JldA==")) "/dav/x");
    vm_compute; reflexivity.
Defined.

(** X8.  With basic not accepted, the gate never asks the domain
    controller to check a password: its result is the same whatever
    [auth_domain_user] would answer. *)
Theorem basic_off_ignores_passwords
    (dc : domain_controller) (cfg : config) (hot : hotfixes) (amb : ambient)
    (environ : gmap string string)
    (f : string -> string -> string -> gmap string string -> bool) :
  accept_basic cfg = false ->
  call (with_auth_domain_user dc f) cfg hot amb environ = call dc cfg hot amb environ.
Proof.
  intros Hab. unfold call.
  destruct (item environ "PATH_INFO") as [path|e]; cbn [bind]; [| reflexivity].
  destruct (force_allow hot environ) as [fa|e]; cbn [bind]; [| reflexivity].
  cbn [get_domain_realm require_authentication with_auth_domain_user].
  destruct (fa || negb (require_authentication dc (get_domain_realm dc path environ) environ));
    [reflexivity |].
  destruct (trusted_user_name cfg environ); [reflexivity |].
  destruct (environ !! "HTTP_AUTHORIZATION") as [auth_header|]; [| reflexivity].
  cbv zeta. rewrite Hab, !andb_false_r. reflexivity.
Qed.

Lemma basic_off_ignores_passwords_witness :
  call (with_auth_domain_user example_dc (fun _ _ _ _ => true)) digest_only source_hotfixes
    example_amb (request "GET" "/dav/x" (Some "Basic dGVzdGVyOndyb25n"))
  = call example_dc digest_only source_hotfixes example_amb
      (request "GET" "/dav/x" (Some "Basic dGVzdGVyOndyb25n")).
Proof.
  apply (basic_off_ignores_passwords example_dc digest_only source_hotfixes example_amb
           (request "GET" "/dav/x" (Some "Basic dGVzdGVyOndyb25n")) (fun _ _ _ _ => true)).
  reflexivity.
Defined.

Lemma call_digest_off
    (dc : domain_controller) (cfg : config) (hot : hotfixes) (amb : ambient)
    (environ : gmap string string)
    (f : string -> string -> gmap string string -> bool)
    (g : string -> string -> string) :
  accept_digest cfg = false ->
  call (with_digest_lookups dc f g) cfg hot amb environ = call dc cfg hot amb environ.
Proof.
  intros Had. unfold call.
  destruct (item environ "PATH_INFO") as [path|e]; cbn [bind]; [| reflexivity].
  destruct (force_allow hot environ) as [fa|e]; cbn [bind]; [| reflexivity].
  cbn [get_domain_realm require_authentication with_digest_lookups].
  destruct (fa || negb (require_authentication dc (get_domain_realm dc path environ) environ));
    [reflexivity |].
  destruct (trusted_user_name cfg environ); [reflexivity |].
  destruct (environ !! "HTTP_AUTHORIZATION") as [auth_header|]; [| reflexivity].
  cbv zeta. rewrite Had, !andb_false_r. reflexivity.
Qed.

(** X9.  With digest not accepted, the gate never verifies a digest:
    its result is the same whatever [is_realm_user] and
    [compute_http_digest_a1] would answer. *)
Theorem digest_off_ignores_digests
    (dc : domain_controller) (cfg : config) (hot : hotfixes) (amb : ambient)
    (environ : gmap string string)
    (f : string -> string -> gmap string string -> bool)
    (g : string -> string -> string) :
  accept_digest cfg = false ->
  call (with_digest_lookups dc f g) cfg hot amb environ = call dc cfg hot amb environ.
Proof. exact (call_digest_off dc cfg hot amb environ f g). Qed.

Lemma digest_off_ignores_digests_witness :
  call (with_digest_lookups example_dc (fun _ _ _ => true) (fun _ _ => "")) basic_only
    source_hotfixes example_amb (request "GET" "/dav/a,b.txt" (Some digest_header))
  = call example_dc basic_only source_hotfixes example_amb
      (request "GET" "/dav/a,b.txt" (Some digest_header)).
Proof.
  apply (digest_off_ignores_digests example_dc basic_only source_hotfixes example_amb
           (request "GET" "/dav/a,b.txt" (Some digest_header))
           (fun _ _ _ => true) (fun _ _ => "")).
  reflexivity.
Defined.

(** * The construction of the authenticator *)

(** X10.  For a domain controller without digest support, [__init__]
    succeeds exactly when digest is switched off explicitly, both as an
    accepted scheme and as the default, and basic is not switched off;
    in particular it raises for the default settings.  The settings it
    then stores are basic only. *)
Theorem init_plain_passwords (dc : domain_controller) (conf : auth_conf) :
  supports_http_digest_auth dc = false ->
  ((exists cfg, init dc conf = Some cfg)
   <-> (conf_accept_digest conf = Some false
        /\ conf_default_to_digest conf = Some false
        /\ conf_accept_basic conf <> Some false))
  /\ (forall cfg, init dc conf = Some cfg ->
        accept_basic cfg = true /\ accept_digest cfg = false
        /\ default_to_digest cfg = false
        /\ trusted_auth_header cfg = conf_trusted_auth_header conf).
Proof.
  intros Hs. unfold init. rewrite Hs.
  destruct conf as [[[|]|] [[|]|] [[|]|] t]; cbn [conf_accept_basic conf_accept_digest
    conf_default_to_digest conf_trusted_auth_header get_or negb andb orb];
    (split; [split; [intros [cfg H] | intros (H1 & H2 & H3)] | intros cfg H]);
    try discriminate; try congruence; eauto;
    inversion H; cbn; auto.
Qed.

Lemma init_plain_passwords_witness :
  ((exists cfg, init plain_dc basic_conf = Some cfg)
   <-> (conf_accept_digest basic_conf = Some false
        /\ conf_default_to_digest basic_conf = Some false
        /\ conf_accept_basic basic_conf <> Some false))
  /\ (forall cfg, init plain_dc basic_conf = Some cfg ->
        accept_basic cfg = true /\ accept_digest cfg = false
        /\ default_to_digest cfg = false
        /\ trusted_auth_header cfg = conf_trusted_auth_header basic_conf).
Proof. apply (init_plain_passwords plain_dc basic_conf). reflexivity. Defined.

(** With digest support, [__init__] accepts every combination. *)
Lemma init_digest_support (dc : domain_controller) (conf : auth_conf) :
  supports_http_digest_auth dc = true -> exists cfg, init dc conf = Some cfg.
Proof. intros Hs. unfold init. rewrite Hs. cbn [negb andb]. eauto. Qed.

(** The defaults are refused for such a domain controller. *)
Example init_defaults_plain :
  init plain_dc {| conf_accept_basic := None; conf_accept_digest := None;
                   conf_default_to_digest := None; conf_trusted_auth_header := None |}
  = None.
Proof. reflexivity. Qed.

(** X11.  An authenticator that [__init__] built for a domain
    controller without digest support answers with the Basic challenge
    whenever it answers itself, never with a Digest challenge or a 400,
    and never consults that controller about digests. *)
Theorem plain_passwords_mean_basic
    (dc : domain_controller) (conf : auth_conf) (cfg : config)
    (hot : hotfixes) (amb : ambient) (environ : gmap string string) :
  supports_http_digest_auth dc = false ->
  init dc conf = Some cfg ->
  (forall r, call dc cfg hot amb environ = Ok (Respond r) ->
     exists path,
       environ !! "PATH_INFO" = Some path
       /\ r = {| status := "401 Not Authorized";
                 headers := [ ("WWW-Authenticate",
                               basic_challenge (get_domain_realm dc path environ));
                              ("Content-Type", "text/html");
                              ("Content-Length", "167");
                              ("Date", rfc1123_time amb) ];
                 body := [error_message] |})
  /\ (forall f g,
        call (with_digest_lookups dc f g) cfg hot amb environ
        = call dc cfg hot amb environ).
Proof.
  intros Hs Hi.
  assert (Hcfg : accept_basic cfg = true /\ accept_digest cfg = false
                 /\ default_to_digest cfg = false).
  { unfold init in Hi. rewrite Hs in Hi. cbn [negb andb] in Hi.
    destruct (get_or (conf_accept_digest conf) true); [discriminate |].
    destruct (get_or (conf_default_to_digest conf) true); [discriminate |].
    destruct (get_or (conf_accept_basic conf) true); [| discriminate].
    inversion Hi. cbn. auto. }
  destruct Hcfg as (Hab & Had & Hdd).
  split.
  - intros r H. unfold call, item in H.
    destruct (environ !! "PATH_INFO") as [path|] eqn:Hp; cbn [bind] in H; [| discriminate].
    exists path. split; [reflexivity |].
    destruct (force_allow hot environ) as [fa|e]; cbn [bind] in H; [| discriminate].
    destruct (fa || negb (require_authentication dc (get_domain_realm dc path environ) environ));
      [discriminate |].
    destruct (trusted_user_name cfg environ); [discriminate |].
    assert (Hb : send_basic_auth_response dc amb environ
                 = Ok (Respond (challenge amb
                         (basic_challenge (get_domain_realm dc path environ)))))
      by (apply send_basic_auth_response_Ok; exact Hp).
    destruct (environ !! "HTTP_AUTHORIZATION") as [auth_header|] eqn:Ha.
    + cbv zeta in H. rewrite Hab, Had, Hdd, Hb in H.
      rewrite !andb_false_r, !andb_true_r in H.
      destruct (String.eqb (auth_method_of auth_header) "digest").
      * inversion H. reflexivity.
      * destruct (String.eqb (auth_method_of auth_header) "basic").
        -- destruct (auth_basic_auth_request_Ok dc amb environ _ H)
             as (p & Hp' & [[u Hu] | Hu]); [discriminate |].
           rewrite Hp in Hp'. inversion Hp'. subst p. inversion Hu. reflexivity.
        -- inversion H. reflexivity.
    + rewrite Hdd, Hb in H. inversion H. reflexivity.
  - intros f g. apply call_digest_off. exact Had.
Qed.

Lemma plain_passwords_mean_basic_witness :
  (forall r, call plain_dc basic_only source_hotfixes example_amb
               (request "GET" "/dav/a,b.txt" (Some digest_header)) = Ok (Respond r) ->
     exists path,
       request "GET" "/dav/a,b.txt" (Some digest_header) !! "PATH_INFO" = Some path
       /\ r = {| status := "401 Not Authorized";
                 headers := [ ("WWW-Authenticate",
                               basic_challenge
                                 (get_domain_realm plain_dc path
                                    (request "GET" "/dav/a,b.txt" (Some digest_header))));
                              ("Content-Type", "text/html");
                              ("Content-Length", "167");
                              ("Date", rfc1123_time example_amb) ];
                 body := [error_message] |})
  /\ (forall f g,
        call (with_digest_lookups plain_dc f g) basic_only source_hotfixes example_amb
          (request "GET" "/dav/a,b.txt" (Some digest_header))
        = call plain_dc basic_only source_hotfixes example_amb
            (request "GET" "/dav/a,b.txt" (Some digest_header))).
Proof.
  apply (plain_passwords_mean_basic plain_dc basic_conf basic_only source_hotfixes
           example_amb (request "GET" "/dav/a,b.txt" (Some digest_header)));
    reflexivity.
Defined.

(** * The exceptions of the gate *)

(** Every way [__call__] can end in an exception, on an environ with
    PATH_INFO and REQUEST_METHOD; the last case is the one the
    embedding leaves aside. *)
Lemma call_Raise
    (dc : domain_controller) (cfg : config) (hot : hotfixes) (amb : ambient)
    (environ : gmap string string) (path method : string) (e : exn) :
  environ !! "PATH_INFO" = Some path ->
  environ !! "REQUEST_METHOD" = Some method ->
  call dc cfg hot amb environ = Raise e ->
  exists auth_header,
    environ !! "HTTP_AUTHORIZATION" = Some auth_header
    /\ ((e = UnboundLocalError "req_uri"
         /\ auth_method_of auth_header = "digest"
         /\ accept_digest cfg = true
         /\ parse_auth_headers (auth_header +:+ ",") !! "uri" = None
         /\ is_invalid_req
              (check_digest_headers dc hot (get_domain_realm dc path environ) environ
                 (auth_header +:+ ",")) = false)
        \/ (auth_method_of auth_header = "basic"
            /\ accept_basic cfg = true
            /\ let authvalue := strip (drop_string 6 auth_header) in
               (e = BinasciiError
                /\ Base64.decodebytes (to_bytes authvalue) = None)
               \/ (exists payload,
                     Base64.decodebytes (to_bytes authvalue) = Some payload
                     /\ ((e = UnicodeDecodeError
                          /\ to_native payload = Raise UnicodeDecodeError)
                         \/ (e = OutOfRange /\ to_native payload = Raise OutOfRange)
                         \/ (e = ValueError
                             /\ exists text,
                                  to_native payload = Ok text
                                  /\ split_colon text = None))))).
Proof.
  intros Hp Hm H.
  assert (Hb := send_basic_auth_response_Ok dc amb environ path Hp).
  assert (Hd := send_digest_auth_response_Ok dc amb environ path Hp).
  unfold call in H. rewrite (item_Some _ _ _ Hp) in H. cbn [bind] in H.
  destruct (force_allow_total hot environ method Hm) as [fa Hfa].
  rewrite Hfa in H. cbn [bind] in H.
  destruct (fa || negb (require_authentication dc (get_domain_realm dc path environ) environ));
    [discriminate |].
  destruct (trusted_user_name cfg environ); [discriminate |].
  destruct (environ !! "HTTP_AUTHORIZATION") as [auth_header|] eqn:Ha.
  2:{ rewrite Hb, Hd in H. destruct (default_to_digest cfg); discriminate. }
  exists auth_header. split; [reflexivity |].
  cbv zeta in H. rewrite Hb, Hd in H.
  destruct (String.eqb (auth_method_of auth_header) "digest") eqn:Hdig; cbn [andb] in H.
  - apply String.eqb_eq in Hdig.
    destruct (accept_digest cfg) eqn:Had.
    + destruct (auth_digest_auth_request_cases dc hot amb environ path auth_header method
                  Hp Ha Hm)
        as [(Hv & Hu & Hx) | [Hx | (u & uri & n & r & dg & _ & _ & _ & _ & _ & _ & _ & Hx)]];
        rewrite Hx in H; try discriminate.
      inversion H. left. auto.
    + destruct (accept_basic cfg); [discriminate |].
      rewrite !andb_false_r in H. discriminate.
  - destruct (String.eqb (auth_method_of auth_header) "basic") eqn:Hbas; cbn [andb] in H.
    + apply String.eqb_eq in Hbas.
      destruct (accept_basic cfg) eqn:Hab.
      * right. split; [exact Hbas |]. split; [reflexivity |]. cbv zeta.
        destruct (auth_basic_auth_request_cases dc amb environ path auth_header Hp Ha)
          as [[Hdec Hx] | [(payload & e' & Hdec & Hn & He & Hx)
               | [(payload & text & Hdec & Hn & Hs & Hx)
                  | (payload & text & u & pw & _ & _ & _ & Hx)]]];
          rewrite Hx in H.
        -- inversion H. left. auto.
        -- inversion H. subst e'. right. exists payload. split; [exact Hdec |].
           destruct He as [He | He]; subst e; auto.
        -- inversion H. right. exists payload. split; [exact Hdec |].
           right. right. eauto.
        -- destruct (auth_domain_user dc (get_domain_realm dc path environ) u pw environ);
             discriminate.
      * destruct (default_to_digest cfg && accept_digest cfg); discriminate.
    + destruct (default_to_digest cfg && accept_digest cfg); [discriminate |].
      destruct (accept_basic cfg); discriminate.
Qed.

(** X12.  On an environ with PATH_INFO and REQUEST_METHOD, [__call__]
    raises in four cases only: a digest request, valid so far, without
    a uri directive (UnboundLocalError); a basic request whose payload
    is not base64 (binascii.Error); one whose decoded payload is not
    UTF-8 (UnicodeDecodeError); one whose decoded text has no colon
    (ValueError).  It never raises KeyError or TypeError, and never for
    a request it does not verify.  The request is one in the scope of
    the embedding. *)
Theorem exceptions_of_call
    (dc : domain_controller) (cfg : config) (hot : hotfixes) (amb : ambient)
    (environ : gmap string string) (path method : string) (e : exn) :
  environ !! "PATH_INFO" = Some path ->
  environ !! "REQUEST_METHOD" = Some method ->
  in_scope environ = true ->
  call dc cfg hot amb environ = Raise e ->
  exists auth_header,
    environ !! "HTTP_AUTHORIZATION" = Some auth_header
    /\ ((e = UnboundLocalError "req_uri"
         /\ auth_method_of auth_header = "digest"
         /\ accept_digest cfg = true
         /\ parse_auth_headers (auth_header +:+ ",") !! "uri" = None
         /\ is_invalid_req
              (check_digest_headers dc hot (get_domain_realm dc path environ) environ
                 (auth_header +:+ ",")) = false)
        \/ (e = BinasciiError
            /\ auth_method_of auth_header = "basic"
            /\ accept_basic cfg = true
            /\ Base64.decodebytes (to_bytes (strip (drop_string 6 auth_header))) = None)
        \/ (e = UnicodeDecodeError
            /\ auth_method_of auth_header = "basic"
            /\ accept_basic cfg = true
            /\ exists payload,
                 Base64.decodebytes (to_bytes (strip (drop_string 6 auth_header)))
                 = Some payload
                 /\ utf8_decode (bytes_of_string payload) = None)
        \/ (e = ValueError
            /\ auth_method_of auth_header = "basic"
            /\ accept_basic cfg = true
            /\ exists payload text,
                 Base64.decodebytes (to_bytes (strip (drop_string 6 auth_header)))
                 = Some payload
                 /\ to_native payload = Ok text
                 /\ split_colon text = None)).
Proof.
  intros Hp Hm Hscope H.
  destruct (call_Raise dc cfg hot amb environ path method e Hp Hm H)
    as (auth_header & Ha & [Hx | (Hbas & Hab & Hx)]).
  - exists auth_header. split; [exact Ha |]. left. exact Hx.
  - exists auth_header. split; [exact Ha |]. right. cbv zeta in Hx.
    destruct Hx as [[He Hdec] | (payload & Hdec & [[He Hn] | [[He Hn] | (He & text & Hn & Hs)]])].
    + left. auto.
    + right. left. repeat (split; [assumption |]).
      exists payload. split; [exact Hdec |].
      unfold to_native in Hn.
      destruct (utf8_decode (bytes_of_string payload)) as [points|]; [| reflexivity].
      destruct (forallb (fun p => p <? 256) points); discriminate.
    + exfalso. unfold in_scope in Hscope.
      rewrite Ha, Hbas, Hdec, Hn in Hscope. discriminate.
    + right. right. repeat (split; [assumption |]). eauto.
Qed.

Lemma exceptions_of_call_witness :
  exists auth_header,
    request "GET" "/dav/x" (Some not_utf8_header) !! "HTTP_AUTHORIZATION"
    = Some auth_header
    /\ ((UnicodeDecodeError = UnboundLocalError "req_uri"
         /\ auth_method_of auth_header = "digest"
         /\ accept_digest digest_and_basic = true
         /\ parse_auth_headers (auth_header +:+ ",") !! "uri" = None
         /\ is_invalid_req
              (check_digest_headers example_dc source_hotfixes
                 (get_domain_realm example_dc "/dav/x"
                    (request "GET" "/dav/x" (Some not_utf8_header)))
                 (request "GET" "/dav/x" (Some not_utf8_header))
                 (auth_header +:+ ",")) = false)
        \/ (UnicodeDecodeError = BinasciiError
            /\ auth_method_of auth_header = "basic"
            /\ accept_basic digest_and_basic = true
            /\ Base64.decodebytes (to_bytes (strip (drop_string 6 auth_header))) = None)
        \/ (UnicodeDecodeError = UnicodeDecodeError
            /\ auth_method_of auth_header = "basic"
            /\ accept_basic digest_and_basic = true
            /\ exists payload,
                 Base64.decodebytes (to_bytes (strip (drop_string 6 auth_header)))
                 = Some payload
                 /\ utf8_decode (bytes_of_string payload) = None)
        \/ (UnicodeDecodeError = ValueError
            /\ auth_method_of auth_header = "basic"
            /\ accept_basic digest_and_basic = true
            /\ exists payload text,
                 Base64.decodebytes (to_bytes (strip (drop_string 6 auth_header)))
                 = Some payload
                 /\ to_native payload = Ok text
                 /\ split_colon text = None)).
Proof.
  apply (exceptions_of_call example_dc digest_and_basic source_hotfixes example_amb
           (request "GET" "/dav/x" (Some not_utf8_header)) "/dav/x" "GET"
           UnicodeDecodeError);
    vm_compute; reflexivity.
Defined.

(** * Further properties of the tokenizer *)

Lemma span_spec (p : ascii -> bool) (s a b : string) :
  span p s = (a, b) ->
  s = a +:+ b
  /\ all_chars p a = true
  /\ (b = "" \/ exists c b', b = String c b' /\ p c = false).
Proof.
  revert a b. induction s as [|c s IH]; intros a b; cbn [span].
  - intros H. inversion H. auto.
  - destruct (p c) eqn:Hpc.
    + destruct (span p s) as [a' b'] eqn:Hs. intros H. inversion H. subst a b.
      destruct (IH a' b' eq_refl) as (He & Ha & Hb).
      split; [change (String c s = String c (a' +:+ b')); f_equal; exact He |].
      split; [cbn [all_chars]; now rewrite Hpc, Ha |].
      exact Hb.
    + intros H. inversion H. subst a b.
      split; [reflexivity |]. split; [reflexivity |].
      right. eauto.
Qed.

Lemma contains_char_app (p : ascii -> bool) (a b : string) :
  contains_char p (a +:+ b) = contains_char p a || contains_char p b.
Proof.
  induction a as [|c a IH]; [reflexivity |].
  change (String c a +:+ b) with (String c (a +:+ b)).
  cbn [contains_char]. rewrite IH. apply orb_assoc.
Qed.

Lemma all_chars_contains (p q : ascii -> bool) (s : string) :
  all_chars p s = true -> (forall c, p c = true -> q c = false) ->
  contains_char q s = false.
Proof.
  intros Ha Hpq. induction s as [|c s IH]; [reflexivity |].
  cbn [all_chars] in Ha. apply andb_true_iff in Ha. destruct Ha as [Hc Hs].
  cbn [contains_char]. rewrite (Hpq c Hc), (IH Hs). reflexivity.
Qed.

(** Each match reported by [findall] is a match of the pattern at some
    place of the text. *)
Lemma findall_from_In (m : match_at) (n : nat) (s : string) (x : string * string) :
  In x (findall_from m n s) ->
  exists before t len, s = before +:+ t /\ m t = Some (x, len).
Proof.
  revert n. induction s as [|c s IH]; intros n; cbn [findall_from]; [intros [] |].
  assert (Hrest : forall k, In x (findall_from m k s) ->
            exists before t len, String c s = before +:+ t /\ m t = Some (x, len)).
  { intros k Hk. destruct (IH k Hk) as (before & t & len & He & Hm).
    exists (String c before), t, len. split; [| exact Hm].
    change (String c s = String c (before +:+ t)). f_equal. exact He. }
  destruct n as [|k]; [| apply Hrest].
  destruct (m (String c s)) as [[groups len]|] eqn:Hm; [| apply Hrest].
  intros [Hx | Hx]; [| exact (Hrest _ Hx)].
  subst groups. exists "", (String c s), len. split; [reflexivity | exact Hm].
Qed.

(** The shape of a match of the primary pattern. *)
Lemma header_parser_Some (t key value : string) (len : nat) :
  header_parser t = Some ((key, value), len) ->
  key <> ""
  /\ all_chars is_word key = true
  /\ contains_char is_comma value = false
  /\ exists rest, t = key +:+ "=" +:+ value +:+ "," +:+ rest.
Proof.
  unfold header_parser.
  destruct (span is_word t) as [k r1] eqn:Hk.
  destruct (span_spec _ _ _ _ Hk) as (He & Hw & _).
  destruct k as [|k0 k']; [discriminate |].
  destruct r1 as [|c1 r2]; [discriminate |].
  destruct (Ascii.eqb c1 "=") eqn:Hc1; [| discriminate].
  apply Ascii.eqb_eq in Hc1. subst c1.
  destruct (span (fun c => negb (is_comma c)) r2) as [v r3] eqn:Hv.
  destruct (span_spec _ _ _ _ Hv) as (Hev & Hnv & Hr3).
  destruct r3 as [|c3 r4]; [discriminate |].
  intros H. inversion H. subst key value.
  split; [discriminate |]. split; [exact Hw |].
  split.
  - apply (all_chars_contains (fun c => negb (is_comma c))); [exact Hnv |].
    intros c Hc. now apply negb_true_iff in Hc.
  - destruct Hr3 as [Hr3 | (c & b' & Hr3 & Hc)]; [discriminate |].
    inversion Hr3. subst c b'.
    apply negb_false_iff in Hc. unfold is_comma in Hc. apply Ascii.eqb_eq in Hc. subst c3.
    exists r4. rewrite He, Hev. reflexivity.
Qed.

(** The shape of a match of the fallback pattern. *)
Lemma header_fix_parser_Some (t key value : string) (len : nat) :
  header_fix_parser t = Some ((key, value), len) ->
  key <> ""
  /\ all_chars is_word key = true
  /\ exists inner rest,
       value = String dquote (inner +:+ String dquote EmptyString)
       /\ contains_char is_comma inner = true
       /\ contains_char is_quote inner = false
       /\ t = key +:+ "=" +:+ value +:+ "," +:+ rest.
Proof.
  unfold header_fix_parser.
  destruct (span is_word t) as [k r1] eqn:Hk.
  destruct (span_spec _ _ _ _ Hk) as (He & Hw & _).
  destruct k as [|k0 k']; [discriminate |].
  destruct r1 as [|c1 [|c2 r2]]; [discriminate | discriminate |].
  destruct (Ascii.eqb c1 "=") eqn:Hc1; cbn [andb]; [| discriminate].
  apply Ascii.eqb_eq in Hc1. subst c1.
  destruct (is_quote c2) eqn:Hc2; [| discriminate].
  unfold is_quote in Hc2. apply Ascii.eqb_eq in Hc2. subst c2.
  destruct (span (fun c => negb (is_quote c)) r2) as [inner r3] eqn:Hi.
  destruct (span_spec _ _ _ _ Hi) as (Hei & Hni & Hr3).
  destruct r3 as [|c3 [|c4 r4]]; [discriminate | discriminate |].
  destruct (contains_char is_comma inner) eqn:Hcomma; cbn [andb]; [| discriminate].
  destruct (is_comma c4) eqn:Hc4; [| discriminate].
  unfold is_comma in Hc4. apply Ascii.eqb_eq in Hc4. subst c4.
  intros H. inversion H. subst key value.
  split; [discriminate |]. split; [exact Hw |].
  exists inner, r4.
  split; [reflexivity |]. split; [exact Hcomma |].
  split.
  - apply (all_chars_contains (fun c => negb (is_quote c))); [exact Hni |].
    intros c Hc. now apply negb_true_iff in Hc.
  - destruct Hr3 as [Hr3 | (c & b' & Hr3 & Hc)]; [discriminate |].
    inversion Hr3. subst c b'.
    apply negb_false_iff in Hc. unfold is_quote in Hc. apply Ascii.eqb_eq in Hc. subst c3.
    rewrite He, Hei.
    change (String k0 k' +:+ "=" +:+ String dquote (inner +:+ String dquote EmptyString)
              +:+ "," +:+ r4)
      with (String k0 k' +:+ String "=" (String dquote
              ((inner +:+ String dquote EmptyString) +:+ String "," r4))).
    rewrite append_assoc. reflexivity.
Qed.

Lemma lstrip_contains (p q : ascii -> bool) (s : string) :
  contains_char p (lstrip q s) = true -> contains_char p s = true.
Proof.
  induction s as [|c s IH]; cbn [lstrip]; [discriminate |].
  destruct (q c); [| exact (fun H => H)].
  intros H. cbn [contains_char]. rewrite (IH H). apply orb_true_r.
Qed.

Lemma rstrip_contains (p q : ascii -> bool) (s : string) :
  contains_char p (rstrip q s) = true -> contains_char p s = true.
Proof.
  induction s as [|c s IH]; cbn [rstrip]; [discriminate |].
  destruct (rstrip q s) as [|b r].
  - destruct (q c); cbn [contains_char]; [discriminate |].
    rewrite orb_false_r. intros H. rewrite H. reflexivity.
  - cbn [contains_char] in *. intros H.
    apply orb_true_iff in H. destruct H as [H | H].
    + rewrite H. reflexivity.
    + rewrite (IH H). apply orb_true_r.
Qed.

Lemma rstrip_none (p : ascii -> bool) (s : string) :
  contains_char p s = false -> rstrip p s = s.
Proof.
  induction s as [|c s IH]; [reflexivity |].
  cbn [contains_char rstrip]. intros H.
  apply orb_false_elim in H. destruct H as [Hc Hs].
  rewrite (IH Hs). destruct s; [now rewrite Hc | reflexivity].
Qed.

Lemma rstrip_app_last (p : ascii -> bool) (s : string) (q : ascii) :
  rstrip p (s +:+ String q EmptyString)
  = if p q then rstrip p s else s +:+ String q EmptyString.
Proof.
  induction s as [|c s IH].
  - change ("" +:+ String q EmptyString) with (String q EmptyString).
    cbn [rstrip]. destruct (p q); reflexivity.
  - change (String c s +:+ String q EmptyString)
      with (String c (s +:+ String q EmptyString)).
    cbn [rstrip]. rewrite IH.
    destruct (p q); [reflexivity |].
    destruct s; reflexivity.
Qed.

(** What is stored for a double-quoted value without quotes inside:
    the text between the quotes. *)
Lemma clean_quoted (inner : string) :
  contains_char is_quote inner = false ->
  strip_quotes (strip (String dquote (inner +:+ String dquote EmptyString))) = inner.
Proof.
  intros Hq.
  assert (Hs : strip (String dquote (inner +:+ String dquote EmptyString))
               = String dquote (inner +:+ String dquote EmptyString)).
  { unfold strip, strip_chars. cbn [lstrip].
    change (is_space dquote) with false. cbv iota.
    change (String dquote (inner +:+ String dquote EmptyString))
      with (String dquote inner +:+ String dquote EmptyString).
    rewrite rstrip_app_last. reflexivity. }
  rewrite Hs. unfold strip_quotes, strip_chars. cbn [lstrip].
  change (is_quote dquote) with true. cbv iota.
  destruct inner as [|c i]; [reflexivity |].
  change (String c i +:+ String dquote EmptyString)
    with (String c (i +:+ String dquote EmptyString)).
  cbn [contains_char] in Hq. apply orb_false_elim in Hq. destruct Hq as [Hc Hi].
  cbn [lstrip]. rewrite Hc.
  change (String c (i +:+ String dquote EmptyString))
    with (String c i +:+ String dquote EmptyString).
  rewrite rstrip_app_last. change (is_quote dquote) with true. cbv iota.
  apply rstrip_none. cbn [contains_char]. now rewrite Hc, Hi.
Qed.

Lemma In_last_value (key : string) (l : list (string * string)) :
  last_value key l = None -> forall v, ~ In (key, v) l.
Proof.
  induction l as [|[k w] l IH]; cbn [last_value]; [intros _ v [] |].
  destruct (last_value key l); [discriminate |].
  destruct (String.eqb k key) eqn:Hk; [discriminate |].
  intros _ v [H | H].
  - inversion H. subst. rewrite String.eqb_refl in Hk. discriminate.
  - exact (IH eq_refl v H).
Qed.

(** X13.  Every directive name the tokenizer stores is a non-empty run
    of word characters.  A stored value holds a comma only when the
    fallback pass produced it, and it is then exactly the text between
    the double quotes of that match. *)
Theorem directive_names_and_commas (auth_headers key value : string) :
  parse_auth_headers auth_headers !! key = Some value ->
  key <> ""
  /\ all_chars is_word key = true
  /\ (contains_char is_comma value = true ->
      last_value key (findall header_fix_parser auth_headers)
      = Some (String dquote (value +:+ String dquote EmptyString))
      /\ contains_char is_quote value = false).
Proof.
  intros H. rewrite parse_auth_headers_lookup in H.
  destruct (last_value key (findall header_parser auth_headers
                              ++ findall header_fix_parser auth_headers))
    as [raw|] eqn:Hraw; [| discriminate].
  inversion H as [Hv]. clear H.
  rewrite last_value_app in Hraw.
  destruct (last_value key (findall header_fix_parser auth_headers)) as [raw2|] eqn:Hfix.
  - inversion Hraw. subst raw2.
    destruct (findall_from_In _ _ _ _ (last_value_elem _ _ _ Hfix))
      as (before & t & len & _ & Hm).
    destruct (header_fix_parser_Some _ _ _ _ Hm)
      as (Hk & Hw & inner & rest & Hr & Hcomma & Hquote & _).
    subst raw. rewrite (clean_quoted inner Hquote).
    split; [exact Hk |]. split; [exact Hw |].
    intros _. split; [reflexivity | exact Hquote].
  - destruct (findall_from_In _ _ _ _ (last_value_elem _ _ _ Hraw))
      as (before & t & len & _ & Hm).
    destruct (header_parser_Some _ _ _ _ Hm) as (Hk & Hw & Hcomma & _).
    split; [exact Hk |]. split; [exact Hw |].
    intros Hc. exfalso.
    unfold strip_quotes, strip, strip_chars in Hc.
    apply rstrip_contains, lstrip_contains, rstrip_contains, lstrip_contains in Hc.
    congruence.
Qed.

Lemma directive_names_and_commas_witness :
  "uri" <> ""
  /\ all_chars is_word "uri" = true
  /\ (contains_char is_comma "a,b.txt" = true ->
      last_value "uri" (findall header_fix_parser (comma_header +:+ ","))
      = Some (String dquote ("a,b.txt" +:+ String dquote EmptyString))
      /\ contains_char is_quote "a,b.txt" = false).
Proof.
  apply (directive_names_and_commas (comma_header +:+ ",") "uri" "a,b.txt").
  vm_compute. reflexivity.
Defined.

Lemma findall_nil (m : match_at) (s : string) :
  (forall before t x len, s = before +:+ t -> m t <> Some (x, len)) ->
  findall m s = [].
Proof.
  intros H. unfold findall.
  destruct (findall_from m 0 s) as [|x l] eqn:Hf; [reflexivity |].
  destruct (findall_from_In m 0 s x) as (before & t & len & He & Hm).
  { rewrite Hf. left. reflexivity. }
  exfalso. exact (H before t x len He Hm).
Qed.

(** A text without an equals sign holds no directive. *)
Lemma parse_auth_headers_no_equals (auth_headers : string) :
  contains_char is_equals auth_headers = false ->
  parse_auth_headers auth_headers = ∅.
Proof.
  intros Hn.
  assert (Hsub : forall before t, auth_headers = before +:+ t ->
            contains_char is_equals t = false).
  { intros before t He. rewrite He, contains_char_app in Hn.
    apply orb_false_elim in Hn. tauto. }
  assert (Hk : forall key rest,
            contains_char is_equals (key +:+ "=" +:+ rest) = true).
  { intros key rest. rewrite contains_char_app.
    change ("=" +:+ rest) with (String "=" rest). cbn [contains_char].
    change (is_equals "=") with true. apply orb_true_r. }
  unfold parse_auth_headers.
  rewrite (findall_nil header_fix_parser), (findall_nil header_parser); [reflexivity | |].
  - intros before t [k v] len He Hm.
    destruct (header_parser_Some _ _ _ _ Hm) as (_ & _ & _ & rest & Ht).
    specialize (Hsub before t He). rewrite Ht, Hk in Hsub. discriminate.
  - intros before t [k v] len He Hm.
    destruct (header_fix_parser_Some _ _ _ _ Hm)
      as (_ & _ & inner & rest & _ & _ & _ & Ht).
    specialize (Hsub before t He). rewrite Ht, Hk in Hsub. discriminate.
Qed.

(** X14.  A digest Authorization header without an equals sign, so
    the bare scheme name too, holds no directive: the request is
    answered with the Digest challenge and no exception is raised. *)
Theorem header_without_directives
    (dc : domain_controller) (hot : hotfixes) (amb : ambient)
    (environ : gmap string string) (path auth_header : string) :
  environ !! "PATH_INFO" = Some path ->
  environ !! "HTTP_AUTHORIZATION" = Some auth_header ->
  contains_char is_equals auth_header = false ->
  parse_auth_headers (auth_header +:+ ",") = ∅
  /\ auth_digest_auth_request dc hot amb environ
     = Ok (Respond (challenge amb
             (digest_challenge (get_domain_realm dc path environ) (make_nonce amb path)))).
Proof.
  intros Hp Ha Hn.
  assert (He : parse_auth_headers (auth_header +:+ ",") = ∅).
  { apply parse_auth_headers_no_equals. rewrite contains_char_app, Hn. reflexivity. }
  split; [exact He |].
  apply (auth_digest_auth_request_rejects dc hot amb environ path auth_header Hp Ha).
  left. unfold check_digest_headers, check_digest_directives. cbn [is_invalid_req].
  rewrite He, !lookup_empty. cbn [is_some negb andb orb]. reflexivity.
Qed.

Lemma header_without_directives_witness :
  parse_auth_headers ("Digest" +:+ ",") = ∅
  /\ auth_digest_auth_request example_dc source_hotfixes example_amb
       (request "GET" "/dav/x" (Some "Digest"))
     = Ok (Respond (challenge example_amb
             (digest_challenge
                (get_domain_realm example_dc "/dav/x" (request "GET" "/dav/x" (Some "Digest")))
                (make_nonce example_amb "/dav/x")))).
Proof.
  apply (header_without_directives example_dc source_hotfixes example_amb
           (request "GET" "/dav/x" (Some "Digest")) "/dav/x" "Digest");
    vm_compute; reflexivity.
Defined.

(** * Base64 and basic authentication *)

Lemma byte_values_In (b : Z) : is_byte b = true -> In b byte_values.
Proof.
  unfold is_byte, byte_values. intros H.
  apply andb_true_iff in H. destruct H as [H0 H1].
  apply Z.leb_le in H0. apply Z.ltb_lt in H1.
  apply in_map_iff. exists (Z.to_nat b). split; [lia |].
  apply in_seq. lia.
Qed.

(** A property of one byte, or of two, that holds for all values by
    enumeration. *)
Lemma for_all_bytes (check : Z -> bool) :
  forallb check byte_values = true ->
  forall a, is_byte a = true -> check a = true.
Proof.
  intros H a Ha. rewrite forallb_forall in H. apply H. apply byte_values_In. exact Ha.
Qed.

Lemma for_all_byte_pairs (check : Z -> Z -> bool) :
  forallb (fun a => forallb (check a) byte_values) byte_values = true ->
  forall a b, is_byte a = true -> is_byte b = true -> check a b = true.
Proof.
  intros H a b Ha Hb.
  apply (for_all_bytes (check a)); [| exact Hb].
  apply (for_all_bytes (fun a => forallb (check a) byte_values)); assumption.
Qed.

Lemma Z_of_ascii_is_byte (c : ascii) : is_byte (Z_of_ascii c) = true.
Proof.
  unfold is_byte, Z_of_ascii. pose proof (nat_ascii_bounded c).
  apply andb_true_iff. split; [apply Z.leb_le | apply Z.ltb_lt]; lia.
Qed.

Lemma ascii_of_Z_of_ascii (c : ascii) : ascii_of_Z (Z_of_ascii c) = c.
Proof.
  unfold ascii_of_Z, Z_of_ascii. rewrite Nat2Z.id. apply ascii_nat_embedding.
Qed.

Lemma string_of_bytes_of_string (s : string) : string_of_bytes (bytes_of_string s) = s.
Proof.
  unfold string_of_bytes, bytes_of_string.
  induction s as [|c s IH]; [reflexivity |].
  cbn [list_ascii_of_string map string_of_list_ascii].
  rewrite ascii_of_Z_of_ascii. f_equal. exact IH.
Qed.

Lemma bytes_of_string_bytes (s : string) : forallb is_byte (bytes_of_string s) = true.
Proof.
  unfold bytes_of_string.
  induction s as [|c s IH]; [reflexivity |].
  cbn [list_ascii_of_string map forallb]. rewrite Z_of_ascii_is_byte. exact IH.
Qed.


Lemma digit_checked (v : Z) : is_digit_value v = true -> digit_check v = true.
Proof.
  intros H.
  assert (Hall : forallb (fun b => negb (is_digit_value b) || digit_check b) byte_values = true)
    by (vm_compute; reflexivity).
  assert (Hb : is_byte v = true).
  { unfold is_digit_value in H. unfold is_byte.
    apply andb_true_iff in H. destruct H as [H0 H1].
    apply Z.ltb_lt in H1. rewrite H0. apply Z.ltb_lt. lia. }
  pose proof (for_all_bytes _ Hall v Hb) as Hc.
  cbv beta in Hc. rewrite H in Hc. exact Hc.
Qed.

Lemma checked_first (a b : Z) :
  is_byte a = true -> is_byte b = true -> check_first a b = true.
Proof. apply for_all_byte_pairs. vm_compute. reflexivity. Qed.

Lemma checked_second (b c : Z) :
  is_byte b = true -> is_byte c = true -> check_second b c = true.
Proof. apply for_all_byte_pairs. vm_compute. reflexivity. Qed.

Lemma checked_third (c : Z) : is_byte c = true -> check_third c = true.
Proof. apply for_all_bytes. vm_compute. reflexivity. Qed.

(** One turn of the decoding loop on a digit. *)
Lemma decode_loop_digit (v : Z) (s : string) (quad_pos leftbits leftchar : Z) :
  is_digit_value v = true ->
  Base64.decode_loop (String (Base64.digit v) s) quad_pos leftbits leftchar
  = if 8 <=? leftbits + 6 then
      match Base64.decode_loop s (Z.land (quad_pos + 1) 3) (leftbits + 6 - 8)
              (Z.land (Z.lor (Z.shiftl leftchar 6) v)
                 (Z.shiftl 1 (leftbits + 6 - 8) - 1)) with
      | Some out =>
          Some (Z.land (Z.shiftr (Z.lor (Z.shiftl leftchar 6) v) (leftbits + 6 - 8)) 0xff
                  :: out)
      | None => None
      end
    else Base64.decode_loop s (Z.land (quad_pos + 1) 3) (leftbits + 6)
           (Z.lor (Z.shiftl leftchar 6) v).
Proof.
  intros H. apply digit_checked in H. unfold digit_check in H.
  apply andb_true_iff in H. destruct H as [H Hv].
  apply andb_true_iff in H. destruct H as [Hp _].
  apply negb_true_iff in Hp.
  cbn [Base64.decode_loop]. rewrite Hp.
  destruct (Base64.value (Base64.digit v)) as [w|]; [| discriminate].
  apply Z.eqb_eq in Hv. subst w. reflexivity.
Qed.

(** The four turns of a group, by the position in the group. *)
Lemma decode_loop_turn0 (v : Z) (s : string) :
  is_digit_value v = true ->
  Base64.decode_loop (String (Base64.digit v) s) 0 0 0 = Base64.decode_loop s 1 6 v.
Proof. intros H. rewrite (decode_loop_digit v s 0 0 0 H). reflexivity. Qed.

Lemma decode_loop_turn1 (v : Z) (s : string) (leftchar : Z) :
  is_digit_value v = true ->
  Base64.decode_loop (String (Base64.digit v) s) 1 6 leftchar
  = match Base64.decode_loop s 2 4 (Z.land (Z.lor (Z.shiftl leftchar 6) v) 15) with
    | Some out => Some (Z.land (Z.shiftr (Z.lor (Z.shiftl leftchar 6) v) 4) 0xff :: out)
    | None => None
    end.
Proof. intros H. rewrite (decode_loop_digit v s 1 6 leftchar H). reflexivity. Qed.

Lemma decode_loop_turn2 (v : Z) (s : string) (leftchar : Z) :
  is_digit_value v = true ->
  Base64.decode_loop (String (Base64.digit v) s) 2 4 leftchar
  = match Base64.decode_loop s 3 2 (Z.land (Z.lor (Z.shiftl leftchar 6) v) 3) with
    | Some out => Some (Z.land (Z.shiftr (Z.lor (Z.shiftl leftchar 6) v) 2) 0xff :: out)
    | None => None
    end.
Proof. intros H. rewrite (decode_loop_digit v s 2 4 leftchar H). reflexivity. Qed.

Lemma decode_loop_turn3 (v : Z) (s : string) (leftchar : Z) :
  is_digit_value v = true ->
  Base64.decode_loop (String (Base64.digit v) s) 3 2 leftchar
  = match Base64.decode_loop s 0 0 0 with
    | Some out => Some (Z.land (Z.shiftr (Z.lor (Z.shiftl leftchar 6) v) 0) 0xff :: out)
    | None => None
    end.
Proof.
  intros H. rewrite (decode_loop_digit v s 3 2 leftchar H).
  change (8 <=? 2 + 6) with true. cbv iota.
  change (Z.land (3 + 1) 3) with 0. change (2 + 6 - 8) with 0.
  change (Z.shiftl 1 0 - 1) with 0. rewrite Z.land_0_r. reflexivity.
Qed.

Ltac split_last H H' :=
  apply andb_true_iff in H; destruct H as [H H']; try apply Z.eqb_eq in H'.

(** The first two digits of a group give the first byte back. *)
Lemma decode_loop_first (a b : Z) (s : string) :
  is_byte a = true -> is_byte b = true ->
  Base64.decode_loop
    (String (Base64.digit (Z.shiftr a 2))
       (String (Base64.digit (Z.lor (Z.shiftl (Z.land a 3) 4) (Z.shiftr b 4))) s)) 0 0 0
  = match Base64.decode_loop s 2 4 (Z.shiftr b 4) with
    | Some out => Some (a :: out)
    | None => None
    end.
Proof.
  intros Ha Hb. pose proof (checked_first a b Ha Hb) as H.
  unfold check_first in H. cbv zeta in H.
  split_last H He2. split_last H He1. split_last H Hd2.
  rewrite decode_loop_turn0 by assumption.
  rewrite decode_loop_turn1 by assumption.
  rewrite He1, He2. reflexivity.
Qed.

(** The third digit gives the second byte back. *)
Lemma decode_loop_second (b c : Z) (s : string) :
  is_byte b = true -> is_byte c = true ->
  Base64.decode_loop
    (String (Base64.digit (Z.lor (Z.shiftl (Z.land b 15) 2) (Z.shiftr c 6))) s)
    2 4 (Z.shiftr b 4)
  = match Base64.decode_loop s 3 2 (Z.shiftr c 6) with
    | Some out => Some (b :: out)
    | None => None
    end.
Proof.
  intros Hb Hc. pose proof (checked_second b c Hb Hc) as H.
  unfold check_second in H. cbv zeta in H.
  split_last H He2. split_last H He1.
  rewrite decode_loop_turn2 by assumption.
  rewrite He1, He2. reflexivity.
Qed.

(** The fourth digit gives the third byte back and ends the group. *)
Lemma decode_loop_third (c : Z) (s : string) :
  is_byte c = true ->
  Base64.decode_loop (String (Base64.digit (Z.land c 63)) s) 3 2 (Z.shiftr c 6)
  = match Base64.decode_loop s 0 0 0 with
    | Some out => Some (c :: out)
    | None => None
    end.
Proof.
  intros Hc. pose proof (checked_third c Hc) as H.
  unfold check_third in H. cbv zeta in H.
  split_last H He1.
  rewrite decode_loop_turn3 by assumption.
  rewrite He1. reflexivity.
Qed.

Lemma list_ind3 {A : Type} (P : list A -> Prop) :
  P [] -> (forall a, P [a]) -> (forall a b, P [a; b]) ->
  (forall a b c l, P l -> P (a :: b :: c :: l)) ->
  forall l, P l.
Proof.
  intros H0 H1 H2 H3.
  assert (H : forall l, P l /\ (forall a, P (a :: l)) /\ (forall a b, P (a :: b :: l))).
  { induction l as [|x l (IH0 & IH1 & IH2)].
    - auto.
    - split; [apply IH1 |]. split; [intros a; apply IH2 |].
      intros a b. apply H3. exact IH0. }
  intros l. apply H.
Qed.

Lemma lor_shiftr_0 (x n : Z) : 0 < n -> Z.lor x (Z.shiftr 0 n) = x.
Proof. intros Hn. rewrite Z.shiftr_0_l. apply Z.lor_0_r. Qed.

(** What [encode_loop] writes, [decode_loop] reads back. *)
Lemma decode_encode_loop (bs : list Z) :
  forallb is_byte bs = true ->
  Base64.decode_loop (Base64.encode_loop bs) 0 0 0 = Some bs.
Proof.
  induction bs as [| a | a b | a b c l IH] using list_ind3; cbn [forallb Base64.encode_loop].
  - reflexivity.
  - intros H. apply andb_true_iff in H. destruct H as [Ha _].
    rewrite <- (lor_shiftr_0 (Z.shiftl (Z.land a 3) 4) 4) by lia.
    rewrite (decode_loop_first a 0 _ Ha eq_refl). reflexivity.
  - intros H. apply andb_true_iff in H. destruct H as [Ha H].
    apply andb_true_iff in H. destruct H as [Hb _].
    rewrite (decode_loop_first a b _ Ha Hb).
    rewrite <- (lor_shiftr_0 (Z.shiftl (Z.land b 15) 2) 6) by lia.
    rewrite (decode_loop_second b 0 _ Hb eq_refl). reflexivity.
  - intros H. apply andb_true_iff in H. destruct H as [Ha H].
    apply andb_true_iff in H. destruct H as [Hb H].
    apply andb_true_iff in H. destruct H as [Hc Hl].
    rewrite (decode_loop_first a b _ Ha Hb), (decode_loop_second b c _ Hb Hc),
      (decode_loop_third c _ Hc), (IH Hl).
    reflexivity.
Qed.

Lemma base64_round_trip (s : string) : Base64.decodebytes (Base64.encode s) = Some s.
Proof.
  unfold Base64.decodebytes, Base64.encode.
  rewrite (decode_encode_loop _ (bytes_of_string_bytes s)).
  now rewrite string_of_bytes_of_string.
Qed.

Lemma digit_not_space (v : Z) : is_digit_value v = true -> is_space (Base64.digit v) = false.
Proof.
  intros H. apply digit_checked in H. unfold digit_check in H.
  apply andb_true_iff in H. destruct H as [H _].
  apply andb_true_iff in H. destruct H as [_ H].
  now apply negb_true_iff in H.
Qed.

(** The encoded text holds no blank. *)
Lemma encode_loop_no_space (bs : list Z) :
  forallb is_byte bs = true ->
  contains_char is_space (Base64.encode_loop bs) = false.
Proof.
  assert (Hab : forall a b, is_byte a = true -> is_byte b = true ->
            is_space (Base64.digit (Z.shiftr a 2)) = false
            /\ is_space (Base64.digit (Z.lor (Z.shiftl (Z.land a 3) 4) (Z.shiftr b 4))) = false).
  { intros a b Ha Hb. pose proof (checked_first a b Ha Hb) as H.
    unfold check_first in H. cbv zeta in H.
    split_last H He2. split_last H He1. split_last H Hd2.
    split; apply digit_not_space; assumption. }
  assert (Hbc : forall b c, is_byte b = true -> is_byte c = true ->
            is_space (Base64.digit (Z.lor (Z.shiftl (Z.land b 15) 2) (Z.shiftr c 6))) = false).
  { intros b c Hb Hc. pose proof (checked_second b c Hb Hc) as H.
    unfold check_second in H. cbv zeta in H.
    split_last H He2. split_last H He1.
    apply digit_not_space; assumption. }
  assert (Hc : forall c, is_byte c = true ->
            is_space (Base64.digit (Z.land c 63)) = false).
  { intros c Hc. pose proof (checked_third c Hc) as H.
    unfold check_third in H. cbv zeta in H. split_last H He1.
    apply digit_not_space; assumption. }
  induction bs as [| a | a b | a b c l IH] using list_ind3;
    cbn [forallb Base64.encode_loop contains_char].
  - reflexivity.
  - intros H. apply andb_true_iff in H. destruct H as [Ha _].
    destruct (Hab a 0 Ha eq_refl) as [H1 H2].
    rewrite lor_shiftr_0 in H2 by lia. rewrite H1, H2. reflexivity.
  - intros H. apply andb_true_iff in H. destruct H as [Ha H].
    apply andb_true_iff in H. destruct H as [Hb _].
    destruct (Hab a b Ha Hb) as [H1 H2].
    pose proof (Hbc b 0 Hb eq_refl) as H3.
    rewrite lor_shiftr_0 in H3 by lia. rewrite H1, H2, H3. reflexivity.
  - intros H. apply andb_true_iff in H. destruct H as [Ha H].
    apply andb_true_iff in H. destruct H as [Hb H].
    apply andb_true_iff in H. destruct H as [Hc' Hl].
    destruct (Hab a b Ha Hb) as [H1 H2].
    rewrite H1, H2, (Hbc b c Hb Hc'), (Hc c Hc'), (IH Hl). reflexivity.
Qed.

Lemma lstrip_none (p : ascii -> bool) (s : string) :
  contains_char p s = false -> lstrip p s = s.
Proof.
  destruct s as [|c s]; [reflexivity |].
  cbn [contains_char lstrip]. intros H.
  apply orb_false_elim in H. destruct H as [Hc _]. now rewrite Hc.
Qed.

Lemma strip_chars_none (p : ascii -> bool) (s : string) :
  contains_char p s = false -> strip_chars p s = s.
Proof.
  intros H. unfold strip_chars. rewrite (lstrip_none p s H). apply rstrip_none. exact H.
Qed.

Lemma split_colon_app (user_name password : string) :
  contains_char is_colon user_name = false ->
  split_colon (user_name +:+ ":" +:+ password) = Some (user_name, password).
Proof.
  induction user_name as [|c u IH].
  - intros _. reflexivity.
  - cbn [contains_char]. intros H. apply orb_false_elim in H. destruct H as [Hc Hu].
    change (String c u +:+ ":" +:+ password) with (String c (u +:+ ":" +:+ password)).
    cbn [split_colon]. unfold is_colon in Hc. rewrite Hc, (IH Hu). reflexivity.
Qed.

(** The characters of the encoded text: digits and pad characters. *)
Lemma encode_loop_chars (p : ascii -> bool) (bs : list Z) :
  (forall v, is_digit_value v = true -> p (Base64.digit v) = true) ->
  p "="%char = true ->
  forallb is_byte bs = true ->
  all_chars p (Base64.encode_loop bs) = true.
Proof.
  intros Hdigit Hpad.
  assert (Hab : forall a b, is_byte a = true -> is_byte b = true ->
            p (Base64.digit (Z.shiftr a 2)) = true
            /\ p (Base64.digit (Z.lor (Z.shiftl (Z.land a 3) 4) (Z.shiftr b 4))) = true).
  { intros a b Ha Hb. pose proof (checked_first a b Ha Hb) as H.
    unfold check_first in H. cbv zeta in H.
    split_last H He2. split_last H He1. split_last H Hd2.
    split; apply Hdigit; assumption. }
  assert (Hbc : forall b c, is_byte b = true -> is_byte c = true ->
            p (Base64.digit (Z.lor (Z.shiftl (Z.land b 15) 2) (Z.shiftr c 6))) = true).
  { intros b c Hb Hc. pose proof (checked_second b c Hb Hc) as H.
    unfold check_second in H. cbv zeta in H.
    split_last H He2. split_last H He1.
    apply Hdigit; assumption. }
  assert (Hc : forall c, is_byte c = true -> p (Base64.digit (Z.land c 63)) = true).
  { intros c Hc. pose proof (checked_third c Hc) as H.
    unfold check_third in H. cbv zeta in H. split_last H He1.
    apply Hdigit; assumption. }
  induction bs as [| a | a b | a b c l IH] using list_ind3;
    cbn [forallb Base64.encode_loop all_chars].
  - reflexivity.
  - intros H. apply andb_true_iff in H. destruct H as [Ha _].
    destruct (Hab a 0 Ha eq_refl) as [H1 H2].
    rewrite lor_shiftr_0 in H2 by lia. rewrite H1, H2, Hpad. reflexivity.
  - intros H. apply andb_true_iff in H. destruct H as [Ha H].
    apply andb_true_iff in H. destruct H as [Hb _].
    destruct (Hab a b Ha Hb) as [H1 H2].
    pose proof (Hbc b 0 Hb eq_refl) as H3.
    rewrite lor_shiftr_0 in H3 by lia. rewrite H1, H2, H3, Hpad. reflexivity.
  - intros H. apply andb_true_iff in H. destruct H as [Ha H].
    apply andb_true_iff in H. destruct H as [Hb H].
    apply andb_true_iff in H. destruct H as [Hc' Hl].
    destruct (Hab a b Ha Hb) as [H1 H2].
    rewrite H1, H2, (Hbc b c Hb Hc'), (Hc c Hc'), (IH Hl). reflexivity.
Qed.

Lemma digit_is_ascii (v : Z) : is_digit_value v = true -> is_ascii (Base64.digit v) = true.
Proof.
  intros H.
  assert (Hall : forallb digit_ascii_check byte_values = true) by (vm_compute; reflexivity).
  assert (Hb : is_byte v = true).
  { unfold is_digit_value in H. unfold is_byte.
    apply andb_true_iff in H. destruct H as [H0 H1].
    apply Z.ltb_lt in H1. rewrite H0. apply Z.ltb_lt. lia. }
  pose proof (for_all_bytes _ Hall v Hb) as Hc.
  unfold digit_ascii_check in Hc. rewrite H in Hc. exact Hc.
Qed.

(** Text of one-byte characters is its own UTF-8 encoding. *)
Lemma to_bytes_ascii (s : string) : all_chars is_ascii s = true -> to_bytes s = s.
Proof.
  induction s as [|c s IH]; [reflexivity |].
  cbn [all_chars to_bytes]. intros H. apply andb_true_iff in H. destruct H as [Hc Hs].
  unfold is_ascii in Hc. cbv zeta. rewrite Hc, (IH Hs). reflexivity.
Qed.

Lemma Z_of_ascii_of_Z (b : Z) : is_byte b = true -> Z_of_ascii (ascii_of_Z b) = b.
Proof.
  unfold is_byte, Z_of_ascii, ascii_of_Z. intros H.
  apply andb_true_iff in H. destruct H as [H0 H1].
  apply Z.leb_le in H0. apply Z.ltb_lt in H1.
  rewrite nat_ascii_embedding by lia. lia.
Qed.

(** One turn of the decoder on a character of two bytes. *)
Lemma utf8_decode_two (b0 b1 : Z) (r : list Z) :
  (b0 <? 128) = false -> (194 <=? b0) = true -> (b0 <=? 223) = true ->
  is_cont b1 = true ->
  utf8_decode (b0 :: b1 :: r)
  = cons_point (Z.lor (Z.shiftl (Z.land b0 31) 6) (Z.land b1 63)) (utf8_decode r).
Proof.
  intros H0 H1 H2 H3.
  cbn [utf8_decode]. rewrite H0, H1, H2. cbn [andb]. rewrite H3. reflexivity.
Qed.

(** Decoding undoes encoding. *)
Lemma utf8_decode_to_bytes (s : string) :
  utf8_decode (bytes_of_string (to_bytes s)) = Some (bytes_of_string s).
Proof.
  assert (Hall : forallb utf8_check byte_values = true) by (vm_compute; reflexivity).
  induction s as [|c s IH]; [reflexivity |].
  pose proof (for_all_bytes _ Hall (Z_of_ascii c) (Z_of_ascii_is_byte c)) as Hc.
  unfold utf8_check in Hc. cbn [to_bytes]. cbv zeta in *.
  destruct (Z_of_ascii c <? 128) eqn:Hlow.
  - change (bytes_of_string (String c (to_bytes s)))
      with (Z_of_ascii c :: bytes_of_string (to_bytes s)).
    change (bytes_of_string (String c s)) with (Z_of_ascii c :: bytes_of_string s).
    cbn [utf8_decode]. rewrite Hlow, IH. reflexivity.
  - set (b0 := Z.lor 192 (Z.shiftr (Z_of_ascii c) 6)) in *.
    set (b1 := Z.lor 128 (Z.land (Z_of_ascii c) 63)) in *.
    apply andb_true_iff in Hc. destruct Hc as [Hc Hpoint].
    apply andb_true_iff in Hc. destruct Hc as [Hc Hcont].
    apply andb_true_iff in Hc. destruct Hc as [Hc Hhi].
    apply andb_true_iff in Hc. destruct Hc as [Hc Hlo].
    apply andb_true_iff in Hc. destruct Hc as [Hc Hnot].
    apply andb_true_iff in Hc. destruct Hc as [Hb0 Hb1].
    apply negb_true_iff in Hnot. apply Z.eqb_eq in Hpoint.
    change (bytes_of_string (String (ascii_of_Z b0) (String (ascii_of_Z b1) (to_bytes s))))
      with (Z_of_ascii (ascii_of_Z b0) :: Z_of_ascii (ascii_of_Z b1)
              :: bytes_of_string (to_bytes s)).
    change (bytes_of_string (String c s)) with (Z_of_ascii c :: bytes_of_string s).
    rewrite (Z_of_ascii_of_Z b0 Hb0), (Z_of_ascii_of_Z b1 Hb1).
    rewrite (utf8_decode_two b0 b1 _ Hnot Hlo Hhi Hcont), Hpoint, IH. reflexivity.
Qed.

Lemma to_native_to_bytes (s : string) : to_native (to_bytes s) = Ok s.
Proof.
  unfold to_native. rewrite utf8_decode_to_bytes.
  assert (H : forallb (fun p => p <? 256) (bytes_of_string s) = true).
  { pose proof (bytes_of_string_bytes s) as Hb.
    rewrite forallb_forall in *. intros x Hx. specialize (Hb x Hx).
    unfold is_byte in Hb. apply andb_true_iff in Hb. tauto. }
  rewrite H, string_of_bytes_of_string. reflexivity.
Qed.

(** X15.  A request that needs credentials and carries the Basic
    header of a user name without a colon and of any password, sent in
    UTF-8, with basic accepted, is forwarded as that user when the
    domain controller accepts exactly this pair, and gets the Basic
    challenge when it does not. *)
Theorem basic_credentials_are_checked
    (dc : domain_controller) (cfg : config) (hot : hotfixes) (amb : ambient)
    (environ : gmap string string) (path user_name password : string) :
  environ !! "PATH_INFO" = Some path ->
  force_allow hot environ = Ok false ->
  require_authentication dc (get_domain_realm dc path environ) environ = true ->
  trusted_user_name cfg environ = None ->
  accept_basic cfg = true ->
  contains_char is_colon user_name = false ->
  environ !! "HTTP_AUTHORIZATION" = Some (basic_credentials user_name password) ->
  call dc cfg hot amb environ
  = if auth_domain_user dc (get_domain_realm dc path environ) user_name password environ
    then Ok (Forward (annotate environ (get_domain_realm dc path environ) user_name))
    else Ok (Respond (challenge amb (basic_challenge (get_domain_realm dc path environ)))).
Proof.
  intros Hp Hf Hr Ht Hab Hu Ha.
  rewrite (call_dispatch dc cfg hot amb environ path _ Hp Hf Hr Ht Ha).
  cbv zeta.
  assert (Hm : auth_method_of (basic_credentials user_name password) = "basic")
    by reflexivity.
  rewrite Hm, Hab. cbn [String.eqb Ascii.eqb Bool.eqb andb].
  set (payload := to_bytes (user_name +:+ ":" +:+ password)).
  assert (Hv : strip (drop_string 6 (basic_credentials user_name password))
               = Base64.encode payload).
  { unfold basic_credentials. fold payload.
    change (drop_string 6 ("Basic " +:+ ?x)) with x.
    apply strip_chars_none. apply encode_loop_no_space. apply bytes_of_string_bytes. }
  assert (Hascii : to_bytes (Base64.encode payload) = Base64.encode payload).
  { apply to_bytes_ascii. apply encode_loop_chars;
      [exact digit_is_ascii | reflexivity | apply bytes_of_string_bytes]. }
  unfold auth_basic_auth_request.
  rewrite (item_Some _ _ _ Hp). cbn [bind]. rewrite (item_Some _ _ _ Ha). cbn [bind].
  change (String.length "Basic ") with 6%nat.
  rewrite Hv, Hascii, base64_round_trip.
  unfold payload. rewrite to_native_to_bytes. cbn [bind].
  rewrite (split_colon_app _ _ Hu).
  destruct (auth_domain_user dc (get_domain_realm dc path environ) user_name password environ);
    [reflexivity |].
  apply send_basic_auth_response_Ok. exact Hp.
Qed.

Lemma basic_credentials_are_checked_witness :
  call example_dc digest_and_basic source_hotfixes example_amb
    (request "GET" "/dav/x" (Some (basic_credentials "tester" "se:cret")))
  = if auth_domain_user example_dc
         (get_domain_realm example_dc "/dav/x"
            (request "GET" "/dav/x" (Some (basic_credentials "tester" "se:cret"))))
         "tester" "se:cret"
         (request "GET" "/dav/x" (Some (basic_credentials "tester" "se:cret")))
    then Ok (Forward (annotate
                        (request "GET" "/dav/x" (Some (basic_credentials "tester" "se:cret")))
                        (get_domain_realm example_dc "/dav/x"
                           (request "GET" "/dav/x"
                              (Some (basic_credentials "tester" "se:cret"))))
                        "tester"))
    else Ok (Respond (challenge example_amb
                        (basic_challenge
                           (get_domain_realm example_dc "/dav/x"
                              (request "GET" "/dav/x"
                                 (Some (basic_credentials "tester" "se:cret"))))))).
Proof.
  apply (basic_credentials_are_checked example_dc digest_and_basic source_hotfixes
           example_amb (request "GET" "/dav/x" (Some (basic_credentials "tester" "se:cret")))
           "/dav/x" "tester" "se:cret");
    vm_compute; reflexivity.
Defined.

(** * Digest headers in standard form *)

Lemma all_chars_app (p : ascii -> bool) (a b : string) :
  all_chars p (a +:+ b) = all_chars p a && all_chars p b.
Proof.
  induction a as [|c a IH]; [reflexivity |].
  change (String c a +:+ b) with (String c (a +:+ b)).
  cbn [all_chars]. rewrite IH. apply andb_assoc.
Qed.

Lemma all_chars_negb (p : ascii -> bool) (s : string) :
  all_chars (fun c => negb (p c)) s = negb (contains_char p s).
Proof.
  induction s as [|c s IH]; [reflexivity |].
  cbn [all_chars contains_char]. rewrite IH. now destruct (p c).
Qed.

Lemma string_length_app (a b : string) :
  String.length (a +:+ b) = (String.length a + String.length b)%nat.
Proof.
  induction a as [|c a IH]; [reflexivity |].
  change (String c a +:+ b) with (String c (a +:+ b)).
  cbn [String.length]. now rewrite IH.
Qed.

(** [span] on a run of the class followed by a character outside. *)
Lemma span_app (p : ascii -> bool) (a : string) (c : ascii) (b : string) :
  all_chars p a = true -> p c = false ->
  span p (a +:+ String c b) = (a, String c b).
Proof.
  intros Ha Hc. induction a as [|x a IH].
  - change ("" +:+ String c b) with (String c b). cbn [span]. now rewrite Hc.
  - change (String x a +:+ String c b) with (String x (a +:+ String c b)).
    cbn [all_chars] in Ha. apply andb_true_iff in Ha. destruct Ha as [Hx Ha].
    cbn [span]. rewrite Hx, (IH Ha). reflexivity.
Qed.

(** A match that ended is passed over. *)
Lemma findall_from_skip (m : match_at) (a rest : string) :
  findall_from m (String.length a) (a +:+ rest) = findall_from m 0 rest.
Proof.
  induction a as [|c a IH]; [reflexivity |].
  change (String c a +:+ rest) with (String c (a +:+ rest)).
  cbn [String.length findall_from]. exact IH.
Qed.

(** A stretch of text at no place of which the pattern matches. *)
Lemma findall_from_scan (m : match_at) (a rest : string) :
  (forall a1 a2, a = a1 +:+ a2 -> a2 <> "" -> m (a2 +:+ rest) = None) ->
  findall_from m 0 (a +:+ rest) = findall_from m 0 rest.
Proof.
  induction a as [|c a IH]; intros H; [reflexivity |].
  change (String c a +:+ rest) with (String c (a +:+ rest)).
  cbn [findall_from].
  change (String c (a +:+ rest)) with (String c a +:+ rest).
  rewrite (H "" (String c a) eq_refl) by discriminate.
  apply IH. intros a1 a2 He Hn.
  apply (H (String c a1) a2); [| exact Hn].
  change (String c a1 +:+ a2) with (String c (a1 +:+ a2)). now rewrite He.
Qed.

(** The primary pattern on a directive. *)
Lemma header_parser_hit (key value rest : string) :
  key <> "" -> all_chars is_word key = true ->
  contains_char is_comma value = false ->
  header_parser (key +:+ "=" +:+ value +:+ "," +:+ rest)
  = Some ((key, value),
          (String.length key + 1 + String.length value + 1)%nat).
Proof.
  intros Hk Hw Hc. unfold header_parser.
  change (key +:+ "=" +:+ value +:+ "," +:+ rest)
    with (key +:+ String "=" (value +:+ String "," rest)).
  rewrite (span_app is_word key "=" _ Hw eq_refl).
  destruct key as [|k0 k']; [congruence |].
  change (Ascii.eqb "=" "=") with true. cbv iota.
  rewrite (span_app (fun c => negb (is_comma c)) value "," rest).
  - reflexivity.
  - rewrite all_chars_negb, Hc. reflexivity.
  - reflexivity.
Qed.

Lemma findall_from_miss (m : match_at) (c : ascii) (s : string) :
  m (String c s) = None ->
  findall_from m 0 (String c s) = findall_from m 0 s.
Proof. intros H. cbn [findall_from]. now rewrite H. Qed.

Lemma well_formed_directive_spec (key value : string) :
  well_formed_directive (key, value) = true ->
  key <> "" /\ all_chars is_word key = true
  /\ contains_char is_comma value = false
  /\ contains_char is_quote value = false.
Proof.
  unfold well_formed_directive. cbn [fst snd]. intros H.
  apply andb_true_iff in H. destruct H as [H Hq].
  apply andb_true_iff in H. destruct H as [H Hc].
  apply andb_true_iff in H. destruct H as [Hk Hw].
  apply negb_true_iff in Hq, Hc, Hk. apply String.eqb_neq in Hk. auto.
Qed.

Lemma quoted_no_comma (value : string) :
  contains_char is_comma value = false ->
  contains_char is_comma (quoted value) = false.
Proof.
  intros H. unfold quoted. cbn [contains_char].
  rewrite contains_char_app, H. reflexivity.
Qed.

(** The primary pass on the directives after the scheme name. *)
Lemma findall_header_parser_directives (l : list (string * string)) :
  forallb well_formed_directive l = true ->
  findall_from header_parser 0 (directives_text l)
  = map (fun p => (fst p, quoted (snd p))) l.
Proof.
  induction l as [|[k v] l IH]; [reflexivity |].
  cbn [forallb directives_text map fst snd]. intros H.
  apply andb_true_iff in H. destruct H as [Hd Hl].
  destruct (well_formed_directive_spec k v Hd) as (Hk & Hw & Hc & _).
  change (" " +:+ k +:+ "=" +:+ quoted v +:+ "," +:+ directives_text l)
    with (String " " (k +:+ "=" +:+ quoted v +:+ "," +:+ directives_text l)).
  rewrite findall_from_miss by reflexivity.
  pose proof (header_parser_hit k (quoted v) (directives_text l) Hk Hw
                (quoted_no_comma v Hc)) as Hm.
  destruct k as [|k0 k']; [congruence |].
  change (String k0 k' +:+ "=" +:+ quoted v +:+ "," +:+ directives_text l)
    with (String k0 (k' +:+ "=" +:+ quoted v +:+ "," +:+ directives_text l)) in *.
  cbn [findall_from]. rewrite Hm. f_equal.
  replace (k' +:+ "=" +:+ quoted v +:+ "," +:+ directives_text l)
    with ((k' +:+ "=" +:+ quoted v +:+ ",") +:+ directives_text l)
    by (rewrite !append_assoc; reflexivity).
  replace (String.length (String k0 k') + 1 + String.length (quoted v) + 1 - 1)%nat
    with (String.length (k' +:+ "=" +:+ quoted v +:+ ","))
    by (rewrite !string_length_app; cbn [String.length]; lia).
  rewrite findall_from_skip. exact (IH Hl).
Qed.

Lemma directives_text_head (l : list (string * string)) :
  directives_text l = ""
  \/ exists rest, directives_text l = String " " rest.
Proof.
  destruct l as [|[k v] l]; [now left |]. right.
  cbn [directives_text]. eexists. reflexivity.
Qed.

(** The scheme name is no directive. *)
Lemma findall_header_parser_scheme (l : list (string * string)) :
  findall_from header_parser 0 ("Digest" +:+ directives_text l)
  = findall_from header_parser 0 (directives_text l).
Proof.
  destruct (directives_text_head l) as [H | [rest H]]; rewrite H; [reflexivity |].
  change ("Digest" +:+ String " " rest)
    with (String "D" (String "i" (String "g" (String "e" (String "s" (String "t"
            (String " " rest))))))).
  rewrite !findall_from_miss by reflexivity. reflexivity.
Qed.

Lemma append_nil_r (s : string) : s +:+ "" = s.
Proof.
  induction s as [|c s IH]; [reflexivity |].
  change (String c s +:+ "") with (String c (s +:+ "")). now rewrite IH.
Qed.

Lemma quoted_app (value s : string) :
  quoted value +:+ s = String dquote (value +:+ String dquote s).
Proof.
  unfold quoted.
  change (String dquote (value +:+ String dquote "") +:+ s)
    with (String dquote ((value +:+ String dquote "") +:+ s)).
  rewrite append_assoc. reflexivity.
Qed.

(** A directive with its value in double quotes, and what follows. *)
Lemma directive_text (key value rest : string) :
  key +:+ "=" +:+ quoted value +:+ "," +:+ rest
  = key +:+ String "=" (String dquote (value +:+ String dquote (String "," rest))).
Proof.
  change (key +:+ "=" +:+ quoted value +:+ "," +:+ rest)
    with (key +:+ String "=" (quoted value +:+ String "," rest)).
  now rewrite quoted_app.
Qed.

(** The fallback pattern does not match where a name is followed by a
    quoted value without a comma. *)
Lemma header_fix_parser_key (key value rest : string) :
  all_chars is_word key = true ->
  contains_char is_comma value = false ->
  contains_char is_quote value = false ->
  header_fix_parser
    (key +:+ String "=" (String dquote (value +:+ String dquote (String "," rest))))
  = None.
Proof.
  intros Hw Hc Hq. unfold header_fix_parser.
  rewrite (span_app is_word key "=" _ Hw eq_refl).
  destruct key as [|k0 k']; [reflexivity |].
  change (Ascii.eqb "=" "=" && is_quote dquote) with true. cbv iota.
  rewrite (span_app (fun c => negb (is_quote c)) value dquote (String "," rest)).
  - rewrite Hc. reflexivity.
  - rewrite all_chars_negb, Hq. reflexivity.
  - reflexivity.
Qed.

(** Nor inside a value, whatever directives follow. *)
Lemma header_fix_parser_value (value : string) (l : list (string * string)) :
  contains_char is_quote value = false ->
  forallb well_formed_directive l = true ->
  header_fix_parser (value +:+ String dquote (String "," (directives_text l))) = None.
Proof.
  intros Hq Hl. unfold header_fix_parser.
  destruct (span is_word value) as [w y] eqn:Hs.
  destruct (span_spec _ _ _ _ Hs) as (He & Hw & Hy).
  destruct Hy as [Hy | (c & y' & Hy & Hc)]; subst y.
  - (* the value is a word up to its closing quote *)
    rewrite append_nil_r in He. subst w.
    rewrite (span_app is_word value dquote _ Hw eq_refl).
    destruct value; reflexivity.
  - subst value. rewrite append_assoc.
    change (String c y' +:+ String dquote (String "," (directives_text l)))
      with (String c (y' +:+ String dquote (String "," (directives_text l)))).
    rewrite (span_app is_word w c _ Hw Hc).
    destruct w as [|w0 w']; [reflexivity |].
    rewrite contains_char_app in Hq. apply orb_false_elim in Hq. destruct Hq as [_ Hq].
    cbn [contains_char] in Hq. apply orb_false_elim in Hq. destruct Hq as [_ Hq].
    destruct y' as [|c2 y''].
    + (* the equals sign, if it is one, is the last character of the value *)
      change ("" +:+ String dquote (String "," (directives_text l)))
        with (String dquote (String "," (directives_text l))).
      destruct (Ascii.eqb c "="); [| reflexivity].
      change (is_quote dquote) with true. cbn [andb].
      destruct l as [|[k' v'] l'].
      * reflexivity.
      * cbn [forallb] in Hl. apply andb_true_iff in Hl. destruct Hl as [Hd _].
        destruct (well_formed_directive_spec k' v' Hd) as (_ & Hw' & Hc' & _).
        cbn [directives_text]. rewrite directive_text.
        assert (Heq : String "," (" " +:+ k' +:+ String "=" (String dquote
                        (v' +:+ String dquote (String "," (directives_text l')))))
                      = (String "," (String " " (k' +:+ "")) +:+ "=")
                          +:+ String dquote
                                (v' +:+ String dquote (String "," (directives_text l')))).
        { rewrite append_nil_r.
          change ((String "," (String " " k') +:+ "=") +:+ ?x)
            with (String "," (String " " ((k' +:+ "=") +:+ x))).
          rewrite append_assoc. reflexivity. }
        rewrite Heq. clear Heq.
        rewrite (span_app (fun c => negb (is_quote c))).
        -- destruct v' as [|x v''].
           ++ change ("" +:+ String dquote (String "," (directives_text l')))
                with (String dquote (String "," (directives_text l'))).
              cbv beta iota zeta.
              change (is_comma dquote) with false. now rewrite andb_false_r.
           ++ change (String x v'' +:+ String dquote (String "," (directives_text l')))
                with (String x (v'' +:+ String dquote (String "," (directives_text l')))).
              cbn [contains_char] in Hc'. apply orb_false_elim in Hc'.
              destruct Hc' as [Hx _]. cbv beta iota zeta.
              rewrite Hx. now rewrite andb_false_r.
        -- rewrite append_nil_r, all_chars_negb, contains_char_app.
           cbn [contains_char]. change (is_quote ",") with false.
           change (is_quote " ") with false. change (is_quote "=") with false.
           cbn [orb]. rewrite (all_chars_contains is_word is_quote k' Hw').
           ++ reflexivity.
           ++ intros x Hx. unfold is_quote.
              destruct (Ascii.eqb x dquote) eqn:Hxq; [| reflexivity].
              apply Ascii.eqb_eq in Hxq. subst x. discriminate.
        -- reflexivity.
    + change (String c2 y'' +:+ String dquote (String "," (directives_text l)))
        with (String c2 (y'' +:+ String dquote (String "," (directives_text l)))).
      cbn [contains_char] in Hq. apply orb_false_elim in Hq. destruct Hq as [Hc2 _].
      cbv beta iota zeta. rewrite Hc2. now rewrite andb_false_r.
Qed.

(** The fallback pass finds nothing in such directives. *)
Lemma findall_header_fix_parser_directives (l : list (string * string)) :
  forallb well_formed_directive l = true ->
  findall_from header_fix_parser 0 (directives_text l) = [].
Proof.
  induction l as [|[k v] l IH]; [reflexivity |].
  cbn [forallb directives_text]. intros H.
  apply andb_true_iff in H. destruct H as [Hd Hl].
  destruct (well_formed_directive_spec k v Hd) as (Hk & Hw & Hc & Hq).
  change (" " +:+ k +:+ "=" +:+ quoted v +:+ "," +:+ directives_text l)
    with (String " " (k +:+ "=" +:+ quoted v +:+ "," +:+ directives_text l)).
  rewrite directive_text.
  rewrite findall_from_miss by reflexivity.
  rewrite findall_from_scan.
  2:{ intros a1 a2 He _. subst k. rewrite all_chars_app in Hw.
      apply andb_true_iff in Hw. destruct Hw as [_ Hw].
      apply header_fix_parser_key; assumption. }
  rewrite !findall_from_miss by reflexivity.
  rewrite findall_from_scan.
  2:{ intros a1 a2 He _. subst v. rewrite contains_char_app in Hq.
      apply orb_false_elim in Hq. destruct Hq as [_ Hq].
      apply header_fix_parser_value; assumption. }
  rewrite !findall_from_miss by reflexivity.
  exact (IH Hl).
Qed.

Lemma findall_header_fix_parser_scheme (l : list (string * string)) :
  forallb well_formed_directive l = true ->
  findall_from header_fix_parser 0 ("Digest" +:+ directives_text l)
  = findall_from header_fix_parser 0 (directives_text l).
Proof.
  destruct l as [|[k v] l]; [reflexivity |].
  cbn [forallb directives_text]. intros H.
  apply andb_true_iff in H. destruct H as [Hd _].
  destruct (well_formed_directive_spec k v Hd) as [Hk _].
  destruct k as [|k0 k']; [congruence |].
  change ("Digest" +:+ " " +:+ String k0 k' +:+ ?x)
    with (String "D" (String "i" (String "g" (String "e" (String "s" (String "t"
            (String " " (String k0 (k' +:+ x))))))))).
  rewrite (findall_from_miss _ "D") by reflexivity.
  rewrite (findall_from_miss _ "i") by reflexivity.
  rewrite (findall_from_miss _ "g") by reflexivity.
  rewrite (findall_from_miss _ "e") by reflexivity.
  rewrite (findall_from_miss _ "s") by reflexivity.
  rewrite (findall_from_miss _ "t") by reflexivity.
  reflexivity.
Qed.

Lemma join_directives_comma (l : list (string * string)) :
  l <> [] -> join_directives l +:+ "," = directives_text l.
Proof.
  induction l as [|[k v] l IH]; [congruence |]. intros _.
  cbn [join_directives directives_text].
  destruct l as [|p l].
  - cbn [directives_text]. rewrite !append_assoc. reflexivity.
  - rewrite <- IH by discriminate. rewrite !append_assoc. reflexivity.
Qed.

Lemma fold_store_header_quoted (l : list (string * string)) (d : gmap string string) :
  forallb well_formed_directive l = true ->
  fold_left store_header (map (fun p => (fst p, quoted (snd p))) l) d
  = fold_left (fun d p => <[fst p := snd p]> d) l d.
Proof.
  revert d. induction l as [|[k v] l IH]; intros d; [reflexivity |].
  cbn [forallb map fold_left fst snd]. intros H.
  apply andb_true_iff in H. destruct H as [Hd Hl].
  destruct (well_formed_directive_spec k v Hd) as (_ & _ & _ & Hq).
  unfold store_header at 2. cbn [fst snd]. unfold quoted.
  rewrite (clean_quoted v Hq). apply IH. exact Hl.
Qed.

(** The tokenizer on a header in standard form. *)
Lemma parse_digest_credentials (l : list (string * string)) :
  forallb well_formed_directive l = true ->
  parse_auth_headers (digest_credentials l +:+ ",") = directives_dict l.
Proof.
  intros Hl. destruct l as [|p l'] eqn:El; [reflexivity |]. rewrite <- El in *.
  assert (Hne : l <> []) by (subst l; discriminate).
  unfold digest_credentials. rewrite append_assoc, (join_directives_comma l Hne).
  unfold parse_auth_headers, findall.
  rewrite (findall_header_fix_parser_scheme l Hl),
    (findall_header_fix_parser_directives l Hl),
    findall_header_parser_scheme, (findall_header_parser_directives l Hl).
  apply fold_store_header_quoted. exact Hl.
Qed.

Lemma directives_dict_lookup (l : list (string * string)) (key : string) :
  directives_dict l !! key = last_value key l.
Proof.
  unfold directives_dict.
  assert (H : forall d : gmap string string,
            fold_left (fun d p => <[fst p := snd p]> d) l d !! key
            = match last_value key l with Some v => Some v | None => d !! key end).
  { induction l as [|[k v] l IH]; intros d; [reflexivity |].
    cbn [fold_left last_value fst snd]. rewrite IH.
    destruct (last_value key l); [reflexivity |].
    destruct (String.eqb k key) eqn:Hk.
    - apply String.eqb_eq in Hk. subst. apply lookup_insert_eq.
    - apply String.eqb_neq in Hk. now rewrite lookup_insert_ne. }
  rewrite H. destruct (last_value key l); [reflexivity | apply lookup_empty].
Qed.

Lemma parse_digest_credentials_lookup (l : list (string * string)) (key : string) :
  forallb well_formed_directive l = true ->
  parse_auth_headers (digest_credentials l +:+ ",") !! key = last_value key l.
Proof.
  intros Hl. rewrite (parse_digest_credentials l Hl). apply directives_dict_lookup.
Qed.

(** X16.  Tokenizing is the inverse of writing a header in standard
    form: for directives with names of word characters and values
    without comma and double quote, written as name, equals sign and
    quoted value, separated by a comma and a blank after the scheme
    name, the parsed dictionary holds exactly these names with these
    values, a later directive replacing an earlier one of its name. *)
Theorem tokenizer_round_trip (l : list (string * string)) :
  forallb well_formed_directive l = true ->
  parse_auth_headers (digest_credentials l +:+ ",") = directives_dict l
  /\ forall key,
       parse_auth_headers (digest_credentials l +:+ ",") !! key = last_value key l.
Proof.
  intros Hl. split.
  - exact (parse_digest_credentials l Hl).
  - intros key. exact (parse_digest_credentials_lookup l key Hl).
Qed.

Lemma tokenizer_round_trip_witness :
  parse_auth_headers
    (digest_credentials [("username", "tester"); ("nonce", "YWJj="); ("uri", "/a b")] +:+ ",")
  = directives_dict [("username", "tester"); ("nonce", "YWJj="); ("uri", "/a b")]
  /\ forall key,
       parse_auth_headers
         (digest_credentials [("username", "tester"); ("nonce", "YWJj="); ("uri", "/a b")]
            +:+ ",") !! key
       = last_value key [("username", "tester"); ("nonce", "YWJj="); ("uri", "/a b")].
Proof.
  apply (tokenizer_round_trip [("username", "tester"); ("nonce", "YWJj="); ("uri", "/a b")]).
  vm_compute. reflexivity.
Defined.

Lemma rstrip_cons (p : ascii -> bool) (c : ascii) (s : string) :
  p c = false -> rstrip p (String c s) = String c (rstrip p s).
Proof. intros H. cbn [rstrip]. destruct (rstrip p s); [now rewrite H | reflexivity]. Qed.

Lemma digest_credentials_scheme (l : list (string * string)) :
  auth_method_of (digest_credentials l) = "digest"
  /\ startswith (strip (lower (digest_credentials l +:+ ","))) "digest" = true.
Proof.
  unfold digest_credentials. split.
  - destruct l as [|[k v] [|p l]]; reflexivity.
  - set (x := join_directives l +:+ ",").
    replace (("Digest" +:+ join_directives l) +:+ ",") with ("Digest" +:+ x)
      by (unfold x; now rewrite append_assoc).
    change (lower ("Digest" +:+ x))
      with (String "d" (String "i" (String "g" (String "e" (String "s" (String "t"
              (lower x))))))).
    unfold strip, strip_chars. cbn [lstrip]. change (is_space "d") with false. cbv iota.
    rewrite !rstrip_cons by reflexivity.
    destruct (rstrip is_space (lower x)); reflexivity.
Qed.

Lemma fixed_user_name (u : string) :
  (if has_double_backslash u then replace_double_backslash u else u)
  = replace_double_backslash u.
Proof.
  unfold has_double_backslash.
  destruct (String.eqb (replace_double_backslash u) u) eqn:H; [| reflexivity].
  apply String.eqb_eq in H. cbn [negb]. congruence.
Qed.

(** X17.  A digest request in standard form is accepted on its
    digest: with digest accepted, for a request that needs credentials,
    whose header names a user of the realm (after the repair of doubled
    backslashes), a realm equal to the resolved one up to case if any,
    the algorithm MD5 in any case if any, a nonce, a uri, and a qop
    that is auth in any case with cnonce and nc if any, and whose
    response is the digest computed from these values, the request is
    forwarded as that user. *)
Theorem digest_credentials_are_verified
    (dc : domain_controller) (cfg : config) (hot : hotfixes) (amb : ambient)
    (environ : gmap string string) (path method : string)
    (l : list (string * string)) (user_name uri nonce response : string) :
  environ !! "PATH_INFO" = Some path ->
  environ !! "REQUEST_METHOD" = Some method ->
  force_allow hot environ = Ok false ->
  require_authentication dc (get_domain_realm dc path environ) environ = true ->
  trusted_user_name cfg environ = None ->
  accept_digest cfg = true ->
  forallb well_formed_directive l = true ->
  environ !! "HTTP_AUTHORIZATION" = Some (digest_credentials l) ->
  last_value "username" l = Some user_name ->
  is_realm_user dc (get_domain_realm dc path environ)
    (replace_double_backslash user_name) environ = true ->
  (forall r, last_value "realm" l = Some r ->
     upper r = upper (get_domain_realm dc path environ)) ->
  (forall a, last_value "algorithm" l = Some a -> upper a = code_points "MD5") ->
  last_value "uri" l = Some uri ->
  last_value "nonce" l = Some nonce ->
  (forall q, last_value "qop" l = Some q ->
     lower q = "auth"
     /\ last_value "cnonce" l <> None /\ last_value "nc" l <> None) ->
  last_value "response" l = Some response ->
  compute_digest_response dc (get_domain_realm dc path environ)
    (replace_double_backslash user_name) method uri nonce
    (last_value "cnonce" l) (last_value "qop" l) (last_value "nc" l) = Ok response ->
  call dc cfg hot amb environ
  = Ok (Forward (annotate environ (get_domain_realm dc path environ)
                   (replace_double_backslash user_name))).
Proof.
  intros Hp Hm Hf Hr Ht Had Hl Ha Hu Hru Hrealm Halg Huri Hn Hqop Hresp Hdig.
  destruct (digest_credentials_scheme l) as [Hmeth Hstart].
  rewrite (call_dispatch dc cfg hot amb environ path _ Hp Hf Hr Ht Ha).
  cbv zeta. rewrite Hmeth, Had. cbn [String.eqb Ascii.eqb Bool.eqb andb].
  rewrite (auth_digest_auth_request_eq dc hot amb environ path _ Hp Ha).
  cbv zeta.
  set (realm := get_domain_realm dc path environ) in *.
  set (locals := check_digest_headers dc hot realm environ (digest_credentials l +:+ ",")).
  assert (Hlocals :
            is_invalid_req locals = false
            /\ req_username locals = Some (replace_double_backslash user_name)
            /\ req_uri locals = Some uri
            /\ req_nonce locals = Some nonce
            /\ req_qop locals = last_value "qop" l
            /\ req_cnonce locals = last_value "cnonce" l
            /\ req_nc locals = last_value "nc" l
            /\ req_response locals = Some response).
  { unfold locals, check_digest_headers, check_digest_directives.
    cbn [is_invalid_req req_username req_uri req_nonce req_qop req_cnonce req_nc
           req_response].
    rewrite !(parse_digest_credentials_lookup l _ Hl).
    rewrite Hstart, Hu, Huri, Hn, Hresp, fixed_user_name, Hru.
    repeat split; try reflexivity.
    cbn [negb is_some orb andb].
    assert (H1 : match last_value "realm" l with
                 | Some r => negb (points_eqb (upper r) (upper realm))
                             && negb (HOTFIX_WINXP_AcceptRootShareLogin hot
                                      && String.eqb r "/")
                 | None => false
                 end = false).
    { destruct (last_value "realm" l) as [r|]; [| reflexivity].
      rewrite (proj2 (points_eqb_eq _ _) (Hrealm r eq_refl)). reflexivity. }
    assert (H2 : match last_value "algorithm" l with
                 | Some a => negb (points_eqb (upper a) (code_points "MD5"))
                 | None => false
                 end = false).
    { destruct (last_value "algorithm" l) as [a|]; [| reflexivity].
      rewrite (proj2 (points_eqb_eq _ _) (Halg a eq_refl)). reflexivity. }
    rewrite H1, H2. cbn [orb].
    destruct (last_value "qop" l) as [q|]; cbn [is_some].
    - destruct (Hqop q eq_refl) as (Hq & Hc & Hnc). rewrite Hq.
      destruct (last_value "cnonce" l); [| congruence].
      destruct (last_value "nc" l); [| congruence].
      reflexivity.
    - rewrite !andb_false_r. reflexivity. }
  destruct Hlocals as (Hv & Hlu & Hluri & Hln & Hlq & Hlc & Hlnc & Hlr).
  rewrite Hv. cbn [negb].
  unfold check_digest. rewrite (item_Some _ _ _ Hm). cbn [bind].
  rewrite Hlu, Hluri, Hln, Hlq, Hlc, Hlnc, Hlr. cbn [bind as_str local].
  rewrite Hdig. cbn [bind local]. rewrite String.eqb_refl. cbn [negb bind].
  reflexivity.
Qed.

Lemma digest_credentials_are_verified_witness :
  call example_dc digest_and_basic source_hotfixes example_amb
    (request "GET" "/dav/file.txt"
       (Some (digest_credentials
                [("username", "tester"); ("realm", "/dav"); ("nonce", "abc123");
                 ("uri", "/dav/file.txt");
                 ("response", "be7fc877b5696f25a31c262e0349fc72")])))
  = Ok (Forward (annotate
                   (request "GET" "/dav/file.txt"
                      (Some (digest_credentials
                               [("username", "tester"); ("realm", "/dav");
                                ("nonce", "abc123"); ("uri", "/dav/file.txt");
                                ("response", "be7fc877b5696f25a31c262e0349fc72")])))
                   (get_domain_realm example_dc "/dav/file.txt"
                      (request "GET" "/dav/file.txt"
                         (Some (digest_credentials
                                  [("username", "tester"); ("realm", "/dav");
                                   ("nonce", "abc123"); ("uri", "/dav/file.txt");
                                   ("response", "be7fc877b5696f25a31c262e0349fc72")]))))
                   (replace_double_backslash "tester"))).
Proof.
  apply (digest_credentials_are_verified example_dc digest_and_basic source_hotfixes
           example_amb _ "/dav/file.txt" "GET"
           [("username", "tester"); ("realm", "/dav"); ("nonce", "abc123");
            ("uri", "/dav/file.txt"); ("response", "be7fc877b5696f25a31c262e0349fc72")]
           "tester" "/dav/file.txt" "abc123" "be7fc877b5696f25a31c262e0349fc72");
    try (vm_compute; reflexivity).
  - intros r H. vm_compute in H. inversion H. reflexivity.
  - intros a H. vm_compute in H. discriminate.
  - intros q H. vm_compute in H. discriminate.
Defined.

(** * The form of a digest *)

Lemma land_255_is_byte (z : Z) : is_byte (Z.land z 0xff) = true.
Proof.
  unfold is_byte. change 0xff with (Z.ones 8). rewrite Z.land_ones by lia.
  pose proof (Z.mod_pos_bound z (2 ^ 8) ltac:(lia)) as H.
  apply andb_true_iff. split; [apply Z.leb_le | apply Z.ltb_lt]; lia.
Qed.

Lemma le_bytes_bytes (n : nat) (z : Z) :
  forallb is_byte (MD5.le_bytes n z) = true
  /\ length (MD5.le_bytes n z) = n.
Proof.
  revert z. induction n as [|n IH]; intros z; [split; reflexivity |].
  cbn [MD5.le_bytes forallb length]. destruct (IH (Z.shiftr z 8)) as [Hb Hl].
  rewrite land_255_is_byte, Hb, Hl. split; reflexivity.
Qed.

Lemma hex_format (bs : list Z) :
  forallb is_byte bs = true ->
  all_chars is_lower_hex (MD5.hex bs) = true
  /\ String.length (MD5.hex bs) = (2 * length bs)%nat.
Proof.
  assert (Hall : forallb hex_check byte_values = true) by (vm_compute; reflexivity).
  induction bs as [|b bs IH]; [split; reflexivity |].
  cbn [forallb MD5.hex all_chars String.length length]. intros H.
  apply andb_true_iff in H. destruct H as [Hb Hbs].
  pose proof (for_all_bytes _ Hall b Hb) as Hc. unfold hex_check in Hc.
  apply andb_true_iff in Hc. destruct Hc as [H1 H2].
  destruct (IH Hbs) as [Ha Hl]. rewrite H1, H2, Ha, Hl. split; [reflexivity | lia].
Qed.

(** What [hexdigest] returns: 32 digits among 0-9 and a-f. *)
Lemma hexdigest_format (data : string) :
  all_chars is_lower_hex (MD5.hexdigest data) = true
  /\ String.length (MD5.hexdigest data) = 32%nat.
Proof.
  unfold MD5.hexdigest, MD5.digest. cbv zeta.
  set (st := MD5.blocks _ _ _).
  destruct (le_bytes_bytes 4 (MD5.sa st)) as [Ha La].
  destruct (le_bytes_bytes 4 (MD5.sb st)) as [Hb Lb].
  destruct (le_bytes_bytes 4 (MD5.sc st)) as [Hc Lc].
  destruct (le_bytes_bytes 4 (MD5.sd st)) as [Hd Ld].
  destruct (hex_format (MD5.le_bytes 4 (MD5.sa st) ++ MD5.le_bytes 4 (MD5.sb st)
                          ++ MD5.le_bytes 4 (MD5.sc st) ++ MD5.le_bytes 4 (MD5.sd st)))
    as [Hh Hl].
  { rewrite !forallb_app, Ha, Hb, Hc, Hd. reflexivity. }
  split; [exact Hh |].
  rewrite Hl, !length_app, La, Lb, Lc, Ld. reflexivity.
Qed.

Lemma compute_digest_response_format
    (dc : domain_controller) (realm user_name method uri nonce : string)
    (cnonce qop nc : option string) (digest : string) :
  compute_digest_response dc realm user_name method uri nonce cnonce qop nc = Ok digest ->
  all_chars is_lower_hex digest = true /\ String.length digest = 32%nat.
Proof.
  unfold compute_digest_response, md5kd, md5h.
  destruct (truthy qop).
  - destruct nc as [n|]; cbn [str_add bind]; [| discriminate].
    destruct cnonce as [c|]; cbn [str_add bind]; [| discriminate].
    destruct qop as [q|]; cbn [str_add bind]; [| discriminate].
    intros H. inversion H. apply hexdigest_format.
  - intros H. inversion H. apply hexdigest_format.
Qed.

(** X18.  The digest a response is compared with is always 32 digits
    among 0-9 and a-f, and the comparison is exact: a digest request is
    forwarded only if its response directive has this form, so a
    response in upper case or of another length is never accepted. *)
Theorem accepted_response_is_lower_hex
    (dc : domain_controller) (hot : hotfixes) (amb : ambient)
    (environ environ' : gmap string string) (path auth_header method : string) :
  environ !! "PATH_INFO" = Some path ->
  environ !! "HTTP_AUTHORIZATION" = Some auth_header ->
  environ !! "REQUEST_METHOD" = Some method ->
  auth_digest_auth_request dc hot amb environ = Ok (Forward environ') ->
  exists response,
    parse_auth_headers (auth_header +:+ ",") !! "response" = Some response
    /\ all_chars is_lower_hex response = true
    /\ String.length response = 32%nat.
Proof.
  intros Hp Ha Hm H.
  destruct (auth_digest_auth_request_cases dc hot amb environ path auth_header method
              Hp Ha Hm)
    as [(_ & _ & Hx) | [Hx | (u & uri & n & response & digest & _ & _ & _ & _ & Hr & Hd
                              & He & _)]];
    try (rewrite Hx in H; discriminate).
  exists response. split; [exact Hr |]. subst digest.
  destruct Hd as [Hd | [_ Hd]]; exact (compute_digest_response_format _ _ _ _ _ _ _ _ _ _ Hd).
Qed.

Lemma accepted_response_is_lower_hex_witness :
  exists response,
    parse_auth_headers (plain_digest_header +:+ ",") !! "response" = Some response
    /\ all_chars is_lower_hex response = true
    /\ String.length response = 32%nat.
Proof.
  apply (accepted_response_is_lower_hex example_dc source_hotfixes example_amb
           (request "GET" "/dav/file.txt" (Some plain_digest_header))
           (annotate (request "GET" "/dav/file.txt" (Some plain_digest_header)) "/dav" "tester")
           "/dav/file.txt" plain_digest_header "GET");
    vm_compute; reflexivity.
Defined.

(** The same digest in upper case is rejected. *)
Example upper_case_response_is_rejected :
  call example_dc digest_and_basic source_hotfixes example_amb
    (request "GET" "/dav/file.txt" (Some upper_response_header))
  = Ok (Respond (challenge example_amb
                   (digest_challenge "/dav" (make_nonce example_amb "/dav/file.txt")))).
Proof. vm_compute. reflexivity. Qed.

(** X19.  Each failed check of the digest validator ends in the 401
    with the Digest challenge, with no exception and no digest
    computed: a header that does not start with digest; no username;
    a user unknown to the realm; a realm directive other than the
    resolved realm (up to case) and not the root exception; an
    algorithm other than MD5; no nonce; no response. *)
Theorem failed_check_is_challenged
    (dc : domain_controller) (hot : hotfixes) (amb : ambient)
    (environ : gmap string string) (path auth_header : string) :
  environ !! "PATH_INFO" = Some path ->
  environ !! "HTTP_AUTHORIZATION" = Some auth_header ->
  let realm := get_domain_realm dc path environ in
  let d := parse_auth_headers (auth_header +:+ ",") in
  startswith (strip (lower (auth_header +:+ ","))) "digest" = false
  \/ d !! "username" = None
  \/ (exists u, d !! "username" = Some u
        /\ is_realm_user dc realm (replace_double_backslash u) environ = false)
  \/ (exists r, d !! "realm" = Some r
        /\ upper r <> upper realm
        /\ (HOTFIX_WINXP_AcceptRootShareLogin hot = false \/ r <> "/"))
  \/ (exists a, d !! "algorithm" = Some a /\ upper a <> code_points "MD5")
  \/ d !! "nonce" = None
  \/ d !! "response" = None ->
  auth_digest_auth_request dc hot amb environ
  = Ok (Respond (challenge amb (digest_challenge realm (make_nonce amb path)))).
Proof.
  intros Hp Ha realm d H.
  apply (auth_digest_auth_request_rejects dc hot amb environ path auth_header Hp Ha).
  left. unfold check_digest_headers, check_digest_directives. cbn [is_invalid_req].
  fold d. fold realm.
  destruct H as [H | [H | [(u & H & Hu) | [(r & H & Hr & Hx) | [(a & H & Hal) | [H | H]]]]]].
  - rewrite H. cbn [negb orb]. rewrite !orb_true_r. reflexivity.
  - rewrite H. cbn [orb]. rewrite !orb_true_r. reflexivity.
  - rewrite H, fixed_user_name, Hu. cbn [negb orb]. rewrite !orb_true_r. reflexivity.
  - rewrite H. apply points_eqb_neq in Hr. rewrite Hr. cbn [negb andb].
    assert (Hn : negb (HOTFIX_WINXP_AcceptRootShareLogin hot && String.eqb r "/") = true).
    { destruct Hx as [Hx | Hx].
      - rewrite Hx. reflexivity.
      - apply String.eqb_neq in Hx. rewrite Hx, andb_false_r. reflexivity. }
    rewrite Hn. cbn [orb]. rewrite !orb_true_r. reflexivity.
  - rewrite H. apply points_eqb_neq in Hal. rewrite Hal. cbn [negb orb].
    rewrite !orb_true_r. reflexivity.
  - rewrite H. cbn [is_some negb orb]. rewrite !orb_true_r. reflexivity.
  - rewrite H. reflexivity.
Qed.

Lemma failed_check_is_challenged_witness :
  auth_digest_auth_request example_dc source_hotfixes example_amb
    (request "GET" "/other/x"
       (Some (dq "Digest username='tester', realm='/other', nonce='abc123', uri='/other/x', response='00'")))
  = Ok (Respond (challenge example_amb
                   (digest_challenge
                      (get_domain_realm example_dc "/other/x"
                         (request "GET" "/other/x"
                            (Some (dq "Digest username='tester', realm='/other', nonce='abc123', uri='/other/x', response='00'"))))
                      (make_nonce example_amb "/other/x")))).
Proof.
  apply (failed_check_is_challenged example_dc source_hotfixes example_amb
           (request "GET" "/other/x"
              (Some (dq "Digest username='tester', realm='/other', nonce='abc123', uri='/other/x', response='00'")))
           "/other/x"
           (dq "Digest username='tester', realm='/other', nonce='abc123', uri='/other/x', response='00'"));
    [ vm_compute; reflexivity | vm_compute; reflexivity | ].
  right. right. right. left. exists "/other".
  split; [vm_compute; reflexivity |]. split; [vm_compute; discriminate |].
  right. discriminate.
Defined.

(** * Requests with characters outside ASCII *)

(** The upper-case forms Python compares: the accented letter has its
    capital; the micro sign, the sharp s and the y with diaeresis have
    forms that are no single character of the range. *)
Example upper_outside_ascii :
  upper cafe = upper ("/CAF" +:+ String capital_e_acute EmptyString)
  /\ upper (String micro_sign EmptyString) = [924]
  /\ upper (String sharp_s EmptyString) = code_points "SS"
  /\ upper (String (ascii_of_nat 255) EmptyString) = [376]
  /\ lower ("/CAF" +:+ String capital_e_acute EmptyString) = cafe.
Proof. repeat split; vm_compute; reflexivity. Qed.

(** A realm directive that differs from the resolved realm in the case
    of an accented letter passes the realm check. *)
Example realm_in_capitals_is_accepted :
  parse_auth_headers (cafe_header +:+ ",") !! "realm"
  = Some ("/CAF" +:+ String capital_e_acute EmptyString)
  /\ call cafe_dc digest_and_basic root_share_off example_amb
       (request "GET" (cafe +:+ "/x") (Some cafe_header))
     = Ok (Forward (annotate (request "GET" (cafe +:+ "/x") (Some cafe_header))
                      cafe "tester")).
Proof. split; vm_compute; reflexivity. Qed.

(** The control 31 after a closing quote is stripped with the blanks:
    the user name is the quoted one and the request is verified. *)
Example control_after_quote_is_stripped :
  parse_auth_headers (trailing_control_header +:+ ",") !! "username" = Some "tester"
  /\ call example_dc digest_and_basic source_hotfixes example_amb
       (request "GET" "/dav/file.txt" (Some trailing_control_header))
     = Ok (Forward (annotate (request "GET" "/dav/file.txt" (Some trailing_control_header))
                      "/dav" "tester")).
Proof. split; vm_compute; reflexivity. Qed.

(** So it is after an unquoted qop. *)
Example control_after_qop_is_stripped :
  parse_auth_headers (qop_control_header +:+ ",") !! "qop" = Some "auth"
  /\ call example_dc digest_and_basic source_hotfixes example_amb
       (request "GET" "/dav/a,b.txt" (Some qop_control_header))
     = Ok (Forward (annotate (request "GET" "/dav/a,b.txt" (Some qop_control_header))
                      "/dav" "tester")).
Proof. split; vm_compute; reflexivity. Qed.

(** A letter in front of a directive name is part of the name: the
    header has no uri directive then, and the request ends as in C3. *)
Example stray_letter_is_part_of_the_name :
  parse_auth_headers (stray_letter_header +:+ ",") !! "uri" = None
  /\ parse_auth_headers (stray_letter_header +:+ ",") !! String e_acute "uri"
     = Some "/dav/file.txt"
  /\ call example_dc digest_and_basic source_hotfixes example_amb
       (request "GET" "/dav/file.txt" (Some stray_letter_header))
     = Raise (UnboundLocalError "req_uri").
Proof. repeat split; vm_compute; reflexivity. Qed.

(** A letter after the scheme name is part of the first word: the
    scheme is not digest, and a gate that accepts digest only, not as
    the default, answers 400. *)
Example scheme_with_letter :
  auth_method_of digest_micro_header = "digest" +:+ String micro_sign EmptyString
  /\ call example_dc digest_not_default source_hotfixes example_amb
       (request "GET" "/dav/x" (Some digest_micro_header))
     = Ok (Respond (bad_request example_amb)).
Proof. split; vm_compute; reflexivity. Qed.

(** Basic credentials are read as UTF-8: a payload that is none ends
    the call in an exception; one that is gives the text. *)
Example basic_not_utf8 :
  call example_dc digest_and_basic source_hotfixes example_amb
    (request "GET" "/dav/x" (Some not_utf8_header))
  = Raise UnicodeDecodeError.
Proof. vm_compute. reflexivity. Qed.

Example basic_utf8 :
  call cafe_dc digest_and_basic source_hotfixes example_amb
    (request "GET" (cafe +:+ "/x") (Some "Basic dMOpc3Rlcjpzw6ljcmV0"))
  = Ok (Forward (annotate (request "GET" (cafe +:+ "/x") (Some "Basic dMOpc3Rlcjpzw6ljcmV0"))
                   cafe ("t" +:+ String e_acute "ster"))).
Proof. vm_compute. reflexivity. Qed.

(** The same credentials sent in ISO-8859-1 are no UTF-8 text. *)
Example basic_latin1 :
  call cafe_dc digest_and_basic source_hotfixes example_amb
    (request "GET" (cafe +:+ "/x") (Some "Basic dOlzdGVyOnPpY3JldA=="))
  = Raise UnicodeDecodeError.
Proof. vm_compute. reflexivity. Qed.

(** Where the embedding stops: the payload is the euro sign, a colon
    and a letter; the user name has the code point 8364. *)
Example basic_beyond_the_range :
  in_scope (request "GET" "/dav/x" (Some "Basic 4oKsOng=")) = false
  /\ call example_dc digest_and_basic source_hotfixes example_amb
       (request "GET" "/dav/x" (Some "Basic 4oKsOng="))
     = Raise OutOfRange.
Proof. split; vm_compute; reflexivity. Qed.
